(** * DouyinLiveRecorder: the danmu protocol client and its comment writer

    A shallow embedding of [src/douyin_protobuf.py] (the frame codec),
    [src/danmu_recorder.py] (class [DouyinDanmuRecorder]) and of the parts
    of the single-file demo script [only_danmu_fixed.py] that the
    properties below talk about.

    Conventions.
    - Python [bytes] and [str] are both [string] (a sequence of 8-bit
      characters; text is its UTF-8 encoding).
    - A Python [dict] with string keys is a [gmap string value].
    - Exceptions are explicit: a computation yields [Ok v] or [Raise e];
      [try: ... except Exception:] is [try_except].
    - The protobuf classes generated in [dy_pb2], [gzip], [json_format],
      [pathlib] and the websocket transport are libraries outside the
      repository's sources; they are fields of the interfaces [Codec] and
      [Platform], so every theorem holds for every behaviour they may have.
      The same holds of [json.loads] ([JsonLib]) and of what only the demo
      script calls ([Demo.Session]).
    - The loops of the threads ([_heartbeat], [segment_checker]) run until
      the recorder is stopped; they are followed for a given number of
      passes, and the result says whether the loop has been left.
    - Opening a file does not fail here where the code counts on it (a
      file that exists is read and rewritten, a new file is made in the
      output directory), and within one call every reading of the clock
      gives the same instant.  A property for which more is needed has it
      among its hypotheses (the file holds UTF-8 text, the file exists)
      or leaves the instants open. *)

From Stdlib Require Import ZArith QArith Qround String Ascii List Lia Lqa.
From stdpp Require Import base option list gmap strings.

Local Open Scope Z_scope.
Local Open Scope stdpp_scope.

(* ===================================================================== *)
(** * Python values, exceptions *)
(* ===================================================================== *)

Abbreviation bytes := string (only parsing).

(** The exceptions the modelled code can meet.  All of them are subclasses
    of Python's [Exception]. *)
Inductive exn : Type :=
  | DecodeError          (* google.protobuf.message.DecodeError *)
  | BadGzipFile          (* gzip.BadGzipFile, EOFError, zlib.error *)
  | EncodeError          (* google.protobuf.message.EncodeError *)
  | ValueError
  | TypeError
  | KeyError (k : string)
  | OSError
  | WebSocketException.

(** The values a decoded message or a JSON document is made of. *)
#[warnings="-register-all"]
Inductive value : Type :=
  | VNone
  | VBool (b : bool)
  | VInt (z : Z)
  | VStr (s : string)
  | VDict (d : gmap string value).

(** Outcome of a pure, fallible computation. *)
Inductive res (A : Type) : Type :=
  | Ok (a : A)
  | Raise (e : exn).
Arguments Ok {A} a.
Arguments Raise {A} e.

Module Res.
Definition bind {A B} (m : res A) (k : A -> res B) : res B :=
  match m with
  | Ok a => k a
  | Raise e => Raise e
  end.

(** [try: body  except Exception as e: handler e] *)
Definition try_except {A} (body : res A) (handler : exn -> res A) : res A :=
  match body with
  | Ok a => Ok a
  | Raise e => handler e
  end.
End Res.

Declare Scope res_scope.
Delimit Scope res_scope with res.
Notation "x <- m ;; k" := (Res.bind m (fun x => k))
  (at level 100, m at next level, right associativity) : res_scope.

(** [d.get(k, default)] *)
Definition dict_get (d : gmap string value) (k : string) (default : value) : value :=
  match d !! k with
  | Some v => v
  | None => default
  end.

(** [v[k]] for a string key: a [KeyError] on a dict without the key, a
    [TypeError] on anything that is not a dict. *)
Definition subscript (v : value) (k : string) : res value :=
  match v with
  | VDict d => match d !! k with
               | Some x => Ok x
               | None => Raise (KeyError k)
               end
  | _ => Raise TypeError
  end.

(** Truth value of a dict: non-empty. *)
Definition dict_truthy (d : gmap string value) : bool :=
  negb (bool_decide (d = ∅)).

(* ===================================================================== *)
(** * The frame codec ([douyin_protobuf.py]) *)
(* ===================================================================== *)

(** Modelled from the spec: the protobuf declarations ([dy_pb2]) are not
    among the sources.  The spec's data model gives
    [PushFrame = { logId: uint64, payloadType: string, payload: bytes }],
    [MessageBatch = { needAck, internalExt, messages }] and
    [RawMessage = { method, payload }]; these are the fields the code reads
    and writes. *)
Record PushFrame : Type := mkPushFrame {
  logid : Z;
  payloadType : string;
  payload : bytes
}.

Record Message : Type := mkMessage {
  method : string;
  msg_payload : bytes
}.

Record Response : Type := mkResponse {
  messagesList : list Message;
  needAck : bool;
  internalExt : string
}.

(** [PushFrame()]: every field at its protobuf default. *)
Definition PushFrame_new : PushFrame :=
  {| logid := 0; payloadType := ""; payload := "" |}.

(** [obj.payloadType = s] *)
Definition set_payloadType (s : string) (obj : PushFrame) : PushFrame :=
  {| logid := logid obj; payloadType := s; payload := payload obj |}.

(** [obj.logid = z]: a [uint64] field refuses a value out of range. *)
Definition set_logid (z : Z) (obj : PushFrame) : res PushFrame :=
  if (0 <=? z) && (z <? 2 ^ 64)
  then Ok {| logid := z; payloadType := payloadType obj; payload := payload obj |}
  else Raise ValueError.

(** The library functions the codec calls. *)
Class Codec : Type := {
  PushFrame_ParseFromString : bytes -> res PushFrame;
  PushFrame_SerializeToString : PushFrame -> res bytes;
  gzip_decompress : bytes -> res bytes;
  Response_ParseFromString : bytes -> res Response;
  ChatMessage : Type;
  ChatMessage_ParseFromString : bytes -> res ChatMessage;
  (* json_format.MessageToDict(m, preserving_proto_field_name=True) *)
  MessageToDict : ChatMessage -> res (gmap string value)
}.

Section FrameCodec.
Context `{Codec}.
Local Open Scope res_scope.

(** The dict returned for a chat message. *)
Definition chat_result (data : gmap string value) (logid : Z) (payloadPackage : Response)
    : gmap string value :=
  <["user" := dict_get data "user" (VDict ∅)]>
  (<["content" := dict_get data "content" (VStr "")]>
  (<["logid" := VInt logid]>
  (<["needAck" := VBool (needAck payloadPackage)]>
  (<["internalExt" := VStr (internalExt payloadPackage)]> ∅)))).

(** The dict returned for a batch that only asks for an acknowledgement. *)
Definition ack_result (logid : Z) (payloadPackage : Response) : gmap string value :=
  <["needAck" := VBool true]>
  (<["logid" := VInt logid]>
  (<["internalExt" := VStr (internalExt payloadPackage)]> ∅)).

(** The loop [for msg in payloadPackage.messagesList]: [Some d] when the
    body executed [return d], [None] when the loop ran to its end. *)
Fixpoint for_messages (logid : Z) (payloadPackage : Response) (msgs : list Message)
    : res (option (gmap string value)) :=
  match msgs with
  | [] => Ok None
  | msg :: rest =>
      if String.eqb (method msg) "WebcastChatMessage" then
        chatMessage <- ChatMessage_ParseFromString (msg_payload msg) ;;
        data <- MessageToDict chatMessage ;;
        Ok (Some (chat_result data logid payloadPackage))
      else for_messages logid payloadPackage rest
  end.

Definition parse_danmu_message (message : bytes) : res (option (gmap string value)) :=
  Res.try_except
    (wssPackage <- PushFrame_ParseFromString message ;;
     let logid := logid wssPackage in
     decompressed <- gzip_decompress (payload wssPackage) ;;
     payloadPackage <- Response_ParseFromString decompressed ;;
     returned <- for_messages logid payloadPackage (messagesList payloadPackage) ;;
     match returned with
     | Some d => Ok (Some d)
     | None =>
         if needAck payloadPackage
         then Ok (Some (ack_result logid payloadPackage))
         else Ok None
     end)
    (fun _ => Ok None).

(** A bare [except:] catches everything. *)
Definition create_ack_frame (logid : Z) (internal_ext : string) : bytes :=
  match
    (let obj := PushFrame_new in
     let obj := set_payloadType "ack" obj in
     obj <- set_logid logid obj ;;
     let obj := set_payloadType internal_ext obj in
     PushFrame_SerializeToString obj)
  with
  | Ok b => b
  | Raise _ => "ack"
  end.

Definition create_heartbeat_frame : bytes :=
  match
    (let obj := PushFrame_new in
     let obj := set_payloadType "hb" obj in
     PushFrame_SerializeToString obj)
  with
  | Ok b => b
  | Raise _ => "hb"
  end.
End FrameCodec.

(* ===================================================================== *)
(** * Text: lines, whitespace, numbers *)
(* ===================================================================== *)

Definition LF : ascii := "010"%char.
Definition CR : ascii := "013"%char.
Definition DQUOTE : string := String "034"%char "".

(** Reading a text file opened with the default [newline=None]: every
    ["\r\n"] and every lone ["\r"] arrives as ["\n"]. *)
Fixpoint universal_newlines (s : string) : string :=
  match s with
  | "" => ""
  | String c s' =>
      if Ascii.eqb c CR then
        match s' with
        | String c' _ =>
            if Ascii.eqb c' LF then universal_newlines s'
            else String LF (universal_newlines s')
        | "" => String LF ""
        end
      else String c (universal_newlines s')
  end.

(** Cutting a text after each ["\n"], the line ends kept. *)
Fixpoint split_keepends (s : string) : list string :=
  match s with
  | "" => []
  | String c s' =>
      if Ascii.eqb c LF then String c "" :: split_keepends s'
      else match split_keepends s' with
           | [] => [String c ""]
           | l :: ls => String c l :: ls
           end
  end.

(** [file.readlines()] and [file.writelines(lines)] *)
Definition readlines (raw : string) : list string :=
  split_keepends (universal_newlines raw).

Definition writelines (lines : list string) : string :=
  fold_right String.append "" lines.

(** The text whose bytes are [code]. *)
Definition utf8 (code : list Z) : string :=
  fold_right (fun b s => String (ascii_of_nat (Z.to_nat b)) s) "" code.

(** The white space that [str.strip()] removes: the characters for which
    [str.isspace] holds, each in its UTF-8 encoding.  These are the ASCII
    ones (9 to 13, 28 to 32), U+0085, U+00A0, U+1680, U+2000 to U+200A,
    U+2028, U+2029, U+202F, U+205F and U+3000. *)
Definition py_whitespace : list string :=
  (utf8 <$> [[9]; [10]; [11]; [12]; [13]; [28]; [29]; [30]; [31]; [32];
             [194; 133]; [194; 160]; [225; 154; 128]]) ++
  ((fun b => utf8 [226; 128; b]) <$> seqZ 128 11) ++
  (utf8 <$> [[226; 128; 168]; [226; 128; 169]; [226; 128; 175];
             [226; 129; 159]; [227; 128; 128]]).

(** [s] without the prefix [p], when it begins with [p]. *)
Fixpoint drop_prefix (p s : string) : option string :=
  match p, s with
  | "", _ => Some s
  | String a p', String b s' => if Ascii.eqb a b then drop_prefix p' s' else None
  | String _ _, "" => None
  end.

(** [s] without the character of [spaces] that it begins with, when it
    begins with one. *)
Definition drop_space (spaces : list string) (s : string) : option string :=
  fold_right (fun p found => match drop_prefix p s with
                             | Some rest => Some rest
                             | None => found
                             end) None spaces.

Fixpoint drop_spaces (fuel : nat) (spaces : list string) (s : string) : string :=
  match fuel with
  | O => s
  | S fuel' =>
      match drop_space spaces s with
      | Some rest => drop_spaces fuel' spaces rest
      | None => s
      end
  end.

Definition string_rev (s : string) : string :=
  string_of_list_ascii (rev (list_ascii_of_string s)).

Definition lstrip (s : string) : string :=
  drop_spaces (String.length s) py_whitespace s.

(** From the right: the same on the text read backwards. *)
Definition rstrip (s : string) : string :=
  string_rev (drop_spaces (String.length s) (string_rev <$> py_whitespace)
                (string_rev s)).

(** [s.strip()] *)
Definition strip (s : string) : string := rstrip (lstrip s).

(** [l.insert(i, x)]: a negative index counts from the end, and an index
    out of range is clamped. *)
Definition py_insert {A} (i : Z) (x : A) (l : list A) : list A :=
  let n := Z.of_nat (length l) in
  let idx := Z.to_nat (if i <? 0 then Z.max 0 (n + i) else Z.min i n) in
  take idx l ++ x :: drop idx l.

(** Decimal digits of a natural number. *)
Definition digit (d : Z) : ascii := ascii_of_nat (48 + Z.to_nat d).

Fixpoint digits (fuel : nat) (n : Z) (acc : string) : string :=
  match fuel with
  | O => acc
  | S fuel' =>
      let acc' := String (digit (n mod 10)) acc in
      if n <? 10 then acc' else digits fuel' (n / 10) acc'
  end.

Definition str_nat (n : Z) : string :=
  digits (S (Z.to_nat (Z.log2 n))) n "".

(** [str(z)] for an [int]. *)
Definition str_int (z : Z) : string :=
  if z <? 0 then "-" +:+ str_nat (- z) else str_nat z.

(** ** Time stamps

    [time.time()] is a binary64 float in the source.  Here an instant is an
    exact rational number of seconds, so the rounding error of float
    arithmetic is left out; [round] and [int] are the exact operations. *)

(** Rounding to the nearest integer, ties to even. *)
Definition round_half_even (q : Q) : Z :=
  let d := Z.pos (Qden q) in
  let f := Qnum q / d in
  match 2 * (Qnum q mod d) ?= d with
  | Lt => f
  | Gt => f + 1
  | Eq => if Z.even f then f else f + 1
  end.

(** [round(x, 2)], counted in hundredths. *)
Definition round2 (x : Q) : Z := round_half_even (x * 100)%Q.

(** What an f-string prints for the float [round(x, 2)] (below 1e16): the
    shortest decimal, with at least one digit after the point, and the sign
    of [x] even when the result is zero. *)
Definition repr_round2 (x : Q) : string :=
  let h := round2 x in
  let a := Z.abs h in
  let f := a mod 100 in
  (if Qnum x <? 0 then "-" else "") +:+
  str_nat (a / 100) +:+ "." +:+
  (if f mod 10 =? 0 then str_nat (f / 10)
   else String (digit (f / 10)) (String (digit (f mod 10)) "")).

(** [int(x)]: truncation toward zero. *)
Definition py_int (x : Q) : Z := Z.quot (Qnum x) (Z.pos (Qden x)).

(** Truth value of an optional float and of an optional string. *)
Definition truthy_float (o : option Q) : bool :=
  match o with
  | Some q => negb (Qnum q =? 0)
  | None => false
  end.

Definition truthy_str (o : option string) : bool :=
  match o with
  | Some s => negb (String.eqb s "")
  | None => false
  end.

(** The comment line of [write_danmu]. *)
Definition danmu_line (second timestamp : Q) (user content : string) : string :=
  "  <d p=" +:+ DQUOTE +:+ repr_round2 second +:+ ",1,25,16777215," +:+
  str_int (py_int (timestamp * 1000)%Q) +:+ ",0,1602022773,0" +:+ DQUOTE +:+
  " user=" +:+ DQUOTE +:+ user +:+ DQUOTE +:+ ">" +:+ content +:+ "</d>" +:+
  String LF "".

Definition xml_template : string :=
  "<?xml version=" +:+ DQUOTE +:+ "1.0" +:+ DQUOTE +:+ " encoding=" +:+ DQUOTE +:+
  "utf-8" +:+ DQUOTE +:+ "?>" +:+ String LF "" +:+
  "<?xml-stylesheet type=" +:+ DQUOTE +:+ "text/xsl" +:+ DQUOTE +:+ " href=" +:+
  DQUOTE +:+ "#s" +:+ DQUOTE +:+ "?>" +:+ String LF "" +:+
  "<i>" +:+ String LF "" +:+
  "</i>" +:+ String LF "".

(* ===================================================================== *)
(** * The recorder ([danmu_recorder.py]): state *)
(* ===================================================================== *)

(** Modelled from the spec: the socket transport is an external
    collaborator.  The application object remembers its URL and whether it
    is running; [close()] stops it and, as the spec says of the socket
    handle, is idempotent. *)
Record WebSocketApp : Type := mkWebSocketApp {
  ws_url : string;
  keep_running : bool
}.

Definition WebSocketApp_close (w : WebSocketApp) : WebSocketApp :=
  {| ws_url := ws_url w; keep_running := false |}.

(** The attributes of a [DouyinDanmuRecorder] that the modelled methods
    read or write ([room_name], [cookies] and the lock object are left
    out: one thread runs at a time here, so [file_lock] is always free). *)
Record Recorder : Type := mkRecorder {
  room_id : string;
  room_real_id : option value;
  output_dir : string;
  video_filename : option string;
  start_time : option Z;
  start_time_t : option Z;
  ws : option WebSocketApp;
  stop_signal : bool;
  danmu_amount : Z;
  last_danmu_time : Q;
  filename : option string;
  retry : Z;
  max_retry : Z;
  segment_index : option Z;
  segment_start_time : option Q;
  current_segment_file : option string
}.

Definition put_room_real_id (v : option value) (r : Recorder) : Recorder :=
  {| room_id := room_id r; room_real_id := v; output_dir := output_dir r;
     video_filename := video_filename r; start_time := start_time r; start_time_t :=
     start_time_t r; ws := ws r; stop_signal := stop_signal r; danmu_amount :=
     danmu_amount r; last_danmu_time := last_danmu_time r; filename := filename r;
     retry := retry r; max_retry := max_retry r; segment_index := segment_index r;
     segment_start_time := segment_start_time r; current_segment_file :=
     current_segment_file r |}.

Definition put_video_filename (v : option string) (r : Recorder) : Recorder :=
  {| room_id := room_id r; room_real_id := room_real_id r; output_dir := output_dir
     r; video_filename := v; start_time := start_time r; start_time_t :=
     start_time_t r; ws := ws r; stop_signal := stop_signal r; danmu_amount :=
     danmu_amount r; last_danmu_time := last_danmu_time r; filename := filename r;
     retry := retry r; max_retry := max_retry r; segment_index := segment_index r;
     segment_start_time := segment_start_time r; current_segment_file :=
     current_segment_file r |}.

Definition put_start_time (v : option Z) (r : Recorder) : Recorder :=
  {| room_id := room_id r; room_real_id := room_real_id r; output_dir := output_dir
     r; video_filename := video_filename r; start_time := v; start_time_t :=
     start_time_t r; ws := ws r; stop_signal := stop_signal r; danmu_amount :=
     danmu_amount r; last_danmu_time := last_danmu_time r; filename := filename r;
     retry := retry r; max_retry := max_retry r; segment_index := segment_index r;
     segment_start_time := segment_start_time r; current_segment_file :=
     current_segment_file r |}.

Definition put_start_time_t (v : option Z) (r : Recorder) : Recorder :=
  {| room_id := room_id r; room_real_id := room_real_id r; output_dir := output_dir
     r; video_filename := video_filename r; start_time := start_time r; start_time_t
     := v; ws := ws r; stop_signal := stop_signal r; danmu_amount := danmu_amount r;
     last_danmu_time := last_danmu_time r; filename := filename r; retry := retry r;
     max_retry := max_retry r; segment_index := segment_index r; segment_start_time
     := segment_start_time r; current_segment_file := current_segment_file r |}.

Definition put_ws (v : option WebSocketApp) (r : Recorder) : Recorder :=
  {| room_id := room_id r; room_real_id := room_real_id r; output_dir := output_dir
     r; video_filename := video_filename r; start_time := start_time r; start_time_t
     := start_time_t r; ws := v; stop_signal := stop_signal r; danmu_amount :=
     danmu_amount r; last_danmu_time := last_danmu_time r; filename := filename r;
     retry := retry r; max_retry := max_retry r; segment_index := segment_index r;
     segment_start_time := segment_start_time r; current_segment_file :=
     current_segment_file r |}.

Definition put_stop_signal (v : bool) (r : Recorder) : Recorder :=
  {| room_id := room_id r; room_real_id := room_real_id r; output_dir := output_dir
     r; video_filename := video_filename r; start_time := start_time r; start_time_t
     := start_time_t r; ws := ws r; stop_signal := v; danmu_amount := danmu_amount
     r; last_danmu_time := last_danmu_time r; filename := filename r; retry := retry
     r; max_retry := max_retry r; segment_index := segment_index r;
     segment_start_time := segment_start_time r; current_segment_file :=
     current_segment_file r |}.

Definition put_danmu_amount (v : Z) (r : Recorder) : Recorder :=
  {| room_id := room_id r; room_real_id := room_real_id r; output_dir := output_dir
     r; video_filename := video_filename r; start_time := start_time r; start_time_t
     := start_time_t r; ws := ws r; stop_signal := stop_signal r; danmu_amount := v;
     last_danmu_time := last_danmu_time r; filename := filename r; retry := retry r;
     max_retry := max_retry r; segment_index := segment_index r; segment_start_time
     := segment_start_time r; current_segment_file := current_segment_file r |}.

Definition put_last_danmu_time (v : Q) (r : Recorder) : Recorder :=
  {| room_id := room_id r; room_real_id := room_real_id r; output_dir := output_dir
     r; video_filename := video_filename r; start_time := start_time r; start_time_t
     := start_time_t r; ws := ws r; stop_signal := stop_signal r; danmu_amount :=
     danmu_amount r; last_danmu_time := v; filename := filename r; retry := retry r;
     max_retry := max_retry r; segment_index := segment_index r; segment_start_time
     := segment_start_time r; current_segment_file := current_segment_file r |}.

Definition put_filename (v : option string) (r : Recorder) : Recorder :=
  {| room_id := room_id r; room_real_id := room_real_id r; output_dir := output_dir
     r; video_filename := video_filename r; start_time := start_time r; start_time_t
     := start_time_t r; ws := ws r; stop_signal := stop_signal r; danmu_amount :=
     danmu_amount r; last_danmu_time := last_danmu_time r; filename := v; retry :=
     retry r; max_retry := max_retry r; segment_index := segment_index r;
     segment_start_time := segment_start_time r; current_segment_file :=
     current_segment_file r |}.

Definition put_retry (v : Z) (r : Recorder) : Recorder :=
  {| room_id := room_id r; room_real_id := room_real_id r; output_dir := output_dir
     r; video_filename := video_filename r; start_time := start_time r; start_time_t
     := start_time_t r; ws := ws r; stop_signal := stop_signal r; danmu_amount :=
     danmu_amount r; last_danmu_time := last_danmu_time r; filename := filename r;
     retry := v; max_retry := max_retry r; segment_index := segment_index r;
     segment_start_time := segment_start_time r; current_segment_file :=
     current_segment_file r |}.

Definition put_segment_index (v : option Z) (r : Recorder) : Recorder :=
  {| room_id := room_id r; room_real_id := room_real_id r; output_dir := output_dir
     r; video_filename := video_filename r; start_time := start_time r; start_time_t
     := start_time_t r; ws := ws r; stop_signal := stop_signal r; danmu_amount :=
     danmu_amount r; last_danmu_time := last_danmu_time r; filename := filename r;
     retry := retry r; max_retry := max_retry r; segment_index := v;
     segment_start_time := segment_start_time r; current_segment_file :=
     current_segment_file r |}.

Definition put_segment_start_time (v : option Q) (r : Recorder) : Recorder :=
  {| room_id := room_id r; room_real_id := room_real_id r; output_dir := output_dir
     r; video_filename := video_filename r; start_time := start_time r; start_time_t
     := start_time_t r; ws := ws r; stop_signal := stop_signal r; danmu_amount :=
     danmu_amount r; last_danmu_time := last_danmu_time r; filename := filename r;
     retry := retry r; max_retry := max_retry r; segment_index := segment_index r;
     segment_start_time := v; current_segment_file := current_segment_file r |}.

Definition put_current_segment_file (v : option string) (r : Recorder) : Recorder :=
  {| room_id := room_id r; room_real_id := room_real_id r; output_dir := output_dir
     r; video_filename := video_filename r; start_time := start_time r; start_time_t
     := start_time_t r; ws := ws r; stop_signal := stop_signal r; danmu_amount :=
     danmu_amount r; last_danmu_time := last_danmu_time r; filename := filename r;
     retry := retry r; max_retry := max_retry r; segment_index := segment_index r;
     segment_start_time := segment_start_time r; current_segment_file := v |}.

(** [DouyinDanmuRecorder.__init__] *)
Definition Recorder_init (room_id output_dir : string) (video_filename : option string)
    : Recorder :=
  {| room_id := room_id; room_real_id := None; output_dir := output_dir;
     video_filename := video_filename; start_time := None; start_time_t := None;
     ws := None; stop_signal := false; danmu_amount := 0; last_danmu_time := 0%Q;
     filename := None; retry := 0; max_retry := 3; segment_index := Some 0;
     segment_start_time := None; current_segment_file := None |}.

Inductive level : Type := DEBUG | INFO | WARNING | ERROR.

Inductive thread : Type :=
  | WsThread                         (* runs [ws.run_forever()] *)
  | SegmentChecker (segment_time : Z)
  | Heartbeat.

(** What a call does to the outside, in order.  Log lines carry their level
    and an English gloss of the message. *)
Inductive event : Type :=
  | Log (lvl : level) (msg : string)
  | Sleep (seconds : Z)
  | ThreadStart (t : thread)
  | Send (data : bytes).

(** The recorder object, the files of the output directory (path to
    content), the wall clock and the events so far. *)
Record world : Type := mkWorld {
  self : Recorder;
  files : gmap string string;
  clock : Q;
  trace : list event
}.

(** ** Statements

    A statement of a method body either falls through to the next one,
    executes [return r], or raises. *)
Inductive outcome (R A : Type) : Type :=
  | Next (a : A)
  | Return (r : R)
  | Throw (e : exn).
Arguments Next {R A} a.
Arguments Return {R A} r.
Arguments Throw {R A} e.

Definition M (R A : Type) : Type := world -> outcome R A * world.

(** A method: a call ends with a value or an exception. *)
Definition F (R : Type) : Type := world -> res R * world.

Module Py.
Definition ret {R A} (a : A) : M R A := fun w => (Next a, w).

Definition bind {R A B} (m : M R A) (k : A -> M R B) : M R B :=
  fun w =>
    match m w with
    | (Next a, w') => k a w'
    | (Return r, w') => (Return r, w')
    | (Throw e, w') => (Throw e, w')
    end.

Definition return_ {R A} (r : R) : M R A := fun w => (Return r, w).
Definition throw {R A} (e : exn) : M R A := fun w => (Throw e, w).

(** [try: body  except Exception as e: handler e]; what the body changed
    before it raised stays changed. *)
Definition try_except {R A} (body : M R A) (handler : exn -> M R A) : M R A :=
  fun w =>
    match body w with
    | (Throw e, w') => handler e w'
    | other => other
    end.

(** [def f(...): body]: falling off the end returns [fall]. *)
Definition def {R} (fall : R) (body : M R unit) : F R :=
  fun w =>
    match body w with
    | (Next _, w') => (Ok fall, w')
    | (Return r, w') => (Ok r, w')
    | (Throw e, w') => (Raise e, w')
    end.

(** A call of a method inside a body. *)
Definition call {R A} (f : F A) : M R A :=
  fun w =>
    match f w with
    | (Ok a, w') => (Next a, w')
    | (Raise e, w') => (Throw e, w')
    end.

(** A pure, fallible library call. *)
Definition lift {R A} (r : res A) : M R A :=
  fun w =>
    match r with
    | Ok a => (Next a, w)
    | Raise e => (Throw e, w)
    end.

Definition get_self {R} : M R Recorder := fun w => (Next (self w), w).

Definition modify {R} (f : Recorder -> Recorder) : M R unit :=
  fun w => (Next tt, {| self := f (self w); files := files w;
                        clock := clock w; trace := trace w |}).

Definition emit {R} (e : event) : M R unit :=
  fun w => (Next tt, {| self := self w; files := files w;
                        clock := clock w; trace := trace w ++ [e] |}).

Definition log {R} (lvl : level) (msg : string) : M R unit := emit (Log lvl msg).

(** [time.time()]; the clock moves in [time_sleep] only, so two readings
    within one call are the same instant. *)
Definition time_time {R} : M R Q := fun w => (Next (clock w), w).

(** [time.sleep(n)] *)
Definition time_sleep {R} (n : Z) : M R unit :=
  fun w => (Next tt, {| self := self w; files := files w;
                        clock := (clock w + inject_Z n)%Q;
                        trace := trace w ++ [Sleep n] |}).

(** [filepath.exists()] *)
Definition path_exists {R} (path : string) : M R bool :=
  fun w => (Next (bool_decide (is_Some (files w !! path))), w).

(** [open(path, 'r').readlines()]; a missing file is an [OSError].  The
    source decodes the file as UTF-8 and raises on a file that is not;
    here every file that exists is read. *)
Definition read_lines {R} (path : string) : M R (list string) :=
  fun w =>
    match files w !! path with
    | Some raw => (Next (readlines raw), w)
    | None => (Throw OSError, w)
    end.

(** [open(path, 'w')] followed by the writes: the file is replaced.  The
    text is stored as written, as on a platform whose line separator is
    LF; opening never fails here (the output directory was made by
    [__init__]). *)
Definition write_file {R} (path : string) (content : string) : M R unit :=
  fun w => (Next tt, {| self := self w; files := <[path := content]> (files w);
                        clock := clock w; trace := trace w |}).
End Py.

Declare Scope py_scope.
Delimit Scope py_scope with py.
Notation "x <- m ;; k" := (Py.bind m (fun x => k))
  (at level 100, m at next level, right associativity) : py_scope.
Notation "m ;; k" := (Py.bind m (fun _ => k))
  (at level 100, right associativity) : py_scope.

(** [output_dir / filename] for a relative file name. *)
Definition path_join (dir name : string) : string := dir +:+ "/" +:+ name.

(** The library functions the recorder calls. *)
Class Platform : Type := {
  (* pathlib.Path(p).stem *)
  stem : string -> string;
  (* str(v), as an f-string formats a value *)
  py_str : value -> string;
  (* DouyinDanmuRecorder.get_danmu_ws_url: signs with an embedded JavaScript
     engine and a random device id; its result is an input here *)
  get_danmu_ws_url : value -> res string;
  (* ws.send(data, websocket.ABNF.OPCODE_BINARY) *)
  ws_send : WebSocketApp -> bytes -> res unit
}.

(* ===================================================================== *)
(** * The recorder: methods *)
(* ===================================================================== *)

Section RecorderMethods.
Context `{Codec} `{Platform}.
Local Open Scope py_scope.

Definition close_tag_line : string := "</i>" +:+ String LF "".

(** [generate_filename]; the argument [segment_index] is not used by the
    body. *)
Definition generate_filename (segment_index : option Z) : F (option string) :=
  Py.def None
    (st <- Py.get_self ;;
     if truthy_str (video_filename st) then
       let base_name := stem (default "" (video_filename st)) in
       Py.return_ (Some (base_name +:+ ".xml"))
     else
       Py.log WARNING "video file name not set yet" ;;
       Py.return_ None).

Definition set_video_filename (name : string) : F unit :=
  Py.def tt
    (Py.modify (put_video_filename (Some name)) ;;
     Py.log INFO "video file name set").

Definition create_danmu_file (filename : string) : F unit :=
  Py.def tt
    (st <- Py.get_self ;;
     let filepath := path_join (output_dir st) filename in
     Py.write_file filepath xml_template ;;
     Py.log INFO "danmu file created").

Definition close_danmu_file (filename : option string) : F unit :=
  Py.def tt
    (if truthy_str filename then
       st <- Py.get_self ;;
       let filepath := path_join (output_dir st) (default "" filename) in
       present <- Py.path_exists filepath ;;
       if present then Py.log INFO "danmu file finished" else Py.ret tt
     else Py.ret tt).

(** [self.segment_index += 1] *)
Definition incr_segment_index : M unit unit :=
  st <- Py.get_self ;;
  match segment_index st with
  | Some i => Py.modify (put_segment_index (Some (i + 1)))
  | None => Py.throw TypeError
  end.

Definition start_new_segment : F unit :=
  Py.def tt
    (st <- Py.get_self ;;
     (if truthy_str (current_segment_file st)
      then Py.call (close_danmu_file (current_segment_file st))
      else Py.ret tt) ;;
     st <- Py.get_self ;;
     filename <- Py.call (generate_filename (segment_index st)) ;;
     if truthy_str filename then
       Py.modify (put_current_segment_file filename) ;;
       Py.call (create_danmu_file (default "" filename)) ;;
       now <- Py.time_time ;;
       Py.modify (put_segment_start_time (Some now)) ;;
       incr_segment_index ;;
       Py.log INFO "new danmu segment started"
     else
       Py.log WARNING "cannot create segment file, video file name not set" ;;
       Py.modify (put_current_segment_file None)).

(** The first part of [write_danmu]: create the file when there is none
    yet. *)
Definition write_danmu_ensure_file : M unit unit :=
  st <- Py.get_self ;;
  if negb (truthy_str (filename st)) && negb (truthy_str (current_segment_file st)) then
    (* hasattr(self, 'segment_index') and self.segment_index is not None *)
    match segment_index st with
    | Some _ =>
        filename <- Py.call (generate_filename (segment_index st)) ;;
        if truthy_str filename then
          Py.modify (put_current_segment_file filename) ;;
          Py.call (create_danmu_file (default "" filename)) ;;
          now <- Py.time_time ;;
          Py.modify (put_segment_start_time (Some now)) ;;
          incr_segment_index ;;
          Py.log INFO "danmu segment file created"
        else
          Py.log WARNING "cannot create danmu segment file, video file name not set" ;;
          Py.return_ tt
    | None =>
        filename <- Py.call (generate_filename None) ;;
        if truthy_str filename then
          Py.modify (put_filename filename) ;;
          Py.call (create_danmu_file (default "" filename)) ;;
          Py.log INFO "danmu file created"
        else
          Py.log WARNING "cannot create danmu file, video file name not set" ;;
          Py.return_ tt
    end
  else Py.ret tt.

(** The lines of the file with the comment line put in. *)
Definition insert_danmu_line (content_lines : list string) (line : string) : list string :=
  match last content_lines with
  | Some l =>
      if String.eqb (strip l) "</i>"
      then py_insert (-1) line content_lines
      else content_lines ++ [line; close_tag_line]
  | None => content_lines ++ [line; close_tag_line]
  end.

(** The second part of [write_danmu]: the block under [with self.file_lock]. *)
Definition write_danmu_locked (user content : string) (timestamp : Q) : M unit unit :=
  st <- Py.get_self ;;
  second <-
    (if truthy_str (current_segment_file st) && truthy_float (segment_start_time st)
     then Py.ret (timestamp - default 0%Q (segment_start_time st))%Q
     else match start_time_t st with
          | Some t0 => Py.ret (timestamp - inject_Z t0)%Q
          | None => Py.throw TypeError       (* float - None *)
          end) ;;
  filepath <-
    (if truthy_str (current_segment_file st)
     then Py.ret (path_join (output_dir st) (default "" (current_segment_file st)))
     else if truthy_str (filename st)
     then Py.ret (path_join (output_dir st) (default "" (filename st)))
     else Py.log WARNING "no danmu file to write to" ;; Py.return_ tt) ;;
  present <- Py.path_exists filepath ;;
  (if present then
     content_lines <- Py.read_lines filepath ;;
     let line := danmu_line second timestamp user content in
     Py.write_file filepath (writelines (insert_danmu_line content_lines line))
   else Py.ret tt) ;;
  st <- Py.get_self ;;
  Py.modify (put_danmu_amount (danmu_amount st + 1)) ;;
  Py.modify (put_last_danmu_time timestamp).

Definition write_danmu (user content : string) (timestamp : Q) : F unit :=
  Py.def tt
    (Py.try_except
       (write_danmu_ensure_file ;;
        write_danmu_locked user content timestamp)
       (fun e => Py.log ERROR "writing danmu failed")).

(** [status != 2] on a JSON value. *)
Definition py_ne_int (v : value) (n : Z) : bool :=
  match v with
  | VInt z => negb (z =? n)
  | VBool b => negb (Z.b2z b =? n)
  | _ => true
  end.

(** [start]; [room_json] is what [await self.get_live_state_json()]
    delivered ([None] when the lookup failed), taken to be a JSON object:
    on any other value the first [room_json.get] of the source raises an
    [AttributeError].  The threads are taken to start. *)
Definition start (room_json : option (gmap string value))
    (enable_segment : bool) (segment_time : Z) : F (option thread) :=
  Py.def None
    (Py.log INFO "start recording danmu" ;;
     Py.log INFO "fetching room information" ;;
     match room_json with
     | None =>
         Py.log ERROR "cannot get room information" ;;
         Py.return_ None
     | Some room_json =>
         st <- Py.get_self ;;
         Py.modify (put_room_real_id
                      (Some (dict_get room_json "id_str" (VStr (room_id st))))) ;;
         Py.log INFO "real room id" ;;
         let status := dict_get room_json "status" (VInt 0) in
         if py_ne_int status 2 then
           Py.log WARNING "anchor is not live" ;;
           Py.return_ None
         else
           Py.log INFO "anchor is live, connecting to the danmu server" ;;
           st <- Py.get_self ;;
           (match start_time st with
            | None =>
                now <- Py.time_time ;;
                Py.modify (put_start_time (Some (Qfloor now)))
            | Some _ => Py.ret tt
            end) ;;
           st <- Py.get_self ;;
           Py.modify (put_start_time_t (start_time st)) ;;
           (if enable_segment then
              Py.modify (put_segment_index (Some 0)) ;;
              Py.modify (put_segment_start_time None) ;;
              Py.log INFO "segment mode enabled, file created on first danmu"
            else
              Py.log INFO "recording started, file created on first danmu") ;;
           Py.try_except
             (st <- Py.get_self ;;
              ws_url <- Py.lift (get_danmu_ws_url (default VNone (room_real_id st))) ;;
              Py.log INFO "connecting to the danmu server" ;;
              Py.modify (put_ws (Some {| ws_url := ws_url; keep_running := true |})) ;;
              Py.emit (ThreadStart WsThread) ;;
              (if enable_segment
               then Py.emit (ThreadStart (SegmentChecker segment_time))
               else Py.ret tt) ;;
              Py.return_ (Some WsThread))
             (fun e =>
                Py.log ERROR "connection failed" ;;
                Py.return_ None)
     end).

Definition stop : F unit :=
  Py.def tt
    (Py.log INFO "stopping danmu recording" ;;
     Py.modify (put_stop_signal true) ;;
     st <- Py.get_self ;;
     match ws st with
     | Some w => Py.modify (put_ws (Some (WebSocketApp_close w)))
     | None => Py.ret tt
     end).

Definition _on_open (ws : WebSocketApp) : F unit :=
  Py.def tt
    (Py.log INFO "danmu connection established" ;;
     Py.emit (ThreadStart Heartbeat)).

(** Truth value of [parsed_data['needAck']]. *)
Definition value_truthy (v : value) : bool :=
  match v with
  | VNone => false
  | VBool b => b
  | VInt z => negb (z =? 0)
  | VStr s => negb (String.eqb s "")
  | VDict d => dict_truthy d
  end.

(** [create_ack_frame] on the values taken out of the parsed dict: a
    value of the wrong type makes the field assignment raise, which the
    bare [except] of [create_ack_frame] turns into [b'ack']. *)
Definition create_ack_frame_of (logid internal_ext : value) : bytes :=
  match logid, internal_ext with
  | VInt z, VStr s => create_ack_frame z s
  | _, _ => "ack"
  end.

Definition _on_message (ws : WebSocketApp) (message : bytes) : F unit :=
  Py.def tt
    (Py.try_except
       (now <- Py.time_time ;;
        parsed_data <- Py.lift (parse_danmu_message message) ;;
        (match parsed_data with
         | Some d =>
             if dict_truthy d then
               if bool_decide (is_Some (d !! "user")) && bool_decide (is_Some (d !! "content"))
               then
                 u <- Py.lift (subscript (VDict d) "user") ;;
                 user <- Py.lift (subscript u "nickName") ;;
                 content <- Py.lift (subscript (VDict d) "content") ;;
                 Py.call (write_danmu (py_str user) (py_str content) now) ;;
                 Py.modify (put_last_danmu_time now) ;;
                 Py.log DEBUG "danmu"
               else if bool_decide (is_Some (d !! "needAck"))
                       && value_truthy (dict_get d "needAck" VNone)
               then
                 Py.try_except
                   (let ack_data :=
                      create_ack_frame_of (dict_get d "logid" (VInt 0))
                                          (dict_get d "internalExt" (VStr "")) in
                    Py.lift (ws_send ws ack_data) ;;
                    Py.emit (Send ack_data))
                   (fun e => Py.log DEBUG "sending ACK failed")
               else Py.ret tt
             else Py.ret tt
         | None => Py.ret tt
         end) ;;
        if (0 <? String.length message)%nat
        then Py.modify (put_last_danmu_time now)
        else Py.ret tt)
       (fun e => Py.log ERROR "handling danmu message failed")).

Definition _on_error (ws : WebSocketApp) (error : exn) : F unit :=
  Py.def tt (Py.log ERROR "danmu connection error").

Definition _on_close (ws : WebSocketApp) : F unit :=
  Py.def tt
    (Py.log INFO "danmu connection closed" ;;
     st <- Py.get_self ;;
     if stop_signal st then
       (if truthy_str (current_segment_file st)
        then Py.call (close_danmu_file (current_segment_file st))
        else if truthy_str (filename st)
        then Py.call (close_danmu_file (filename st))
        else Py.ret tt) ;;
       Py.log INFO "danmu recording ended"
     else if retry st <? max_retry st then
       Py.modify (put_retry (retry st + 1)) ;;
       Py.log INFO "trying to reconnect to the danmu server" ;;
       Py.time_sleep 2
       (* the source stops here: "reconnect logic can be added here" *)
     else Py.ret tt).
End RecorderMethods.

(* ===================================================================== *)
(** * The recorder: the loops of its threads *)
(* ===================================================================== *)

(** A loop of a thread runs until the recorder is stopped.  It is followed
    here for a given number of passes: the result says whether the
    function has returned by then or is still in its loop. *)
Inductive progress : Type :=
  | Returned
  | Running.

Section RecorderLoops.
Context `{Codec} `{Platform}.
Local Open Scope py_scope.

(** The function [segment_checker] that [start] hands to the segment
    thread, followed for [rounds] passes of its loop. *)
Fixpoint segment_checker_loop (rounds : nat) (segment_time : Z) : M progress unit :=
  match rounds with
  | O => Py.return_ Running
  | S rounds' =>
      st <- Py.get_self ;;
      if negb (stop_signal st) then
        Py.time_sleep 1 ;;
        st <- Py.get_self ;;
        due <-
          (if truthy_float (segment_start_time st) then
             now <- Py.time_time ;;
             Py.ret (Qle_bool (inject_Z segment_time)
                       (now - default 0%Q (segment_start_time st)))
           else Py.ret false) ;;
        (if due then Py.call start_new_segment else Py.ret tt) ;;
        segment_checker_loop rounds' segment_time
      else Py.ret tt
  end.

Definition segment_checker (rounds : nat) (segment_time : Z) : F progress :=
  Py.def Returned (segment_checker_loop rounds segment_time).

(** [_heartbeat], followed for [rounds] passes of its loop; [t] is the
    local counter. *)
Fixpoint _heartbeat_loop (rounds : nat) (ws : WebSocketApp) (t : Z) : M progress unit :=
  match rounds with
  | O => Py.return_ Running
  | S rounds' =>
      st <- Py.get_self ;;
      if negb (stop_signal st) && keep_running ws then
        (if t mod 10 =? 0 then
           Py.try_except
             (let heartbeat_data := create_heartbeat_frame in
              Py.lift (ws_send ws heartbeat_data) ;;
              Py.emit (Send heartbeat_data))
             (fun e => Py.log DEBUG "sending heartbeat failed") ;;
           now <- Py.time_time ;;
           st <- Py.get_self ;;
           if (30 <? t) && negb (Qle_bool (now - last_danmu_time st) 60)
           then Py.log WARNING "no danmu for a long time"
           else Py.ret tt
         else Py.ret tt) ;;
        Py.time_sleep 1 ;;
        _heartbeat_loop rounds' ws (t + 1)
      else Py.ret tt
  end.

Definition _heartbeat (rounds : nat) (ws : WebSocketApp) : F progress :=
  Py.def Returned (_heartbeat_loop rounds ws 9).
End RecorderLoops.

(* ===================================================================== *)
(** * The recorder: looking up the room *)
(* ===================================================================== *)

(** What [json.loads] yields. *)
#[warnings="-register-all"]
Inductive json : Type :=
  | JNull
  | JBool (b : bool)
  | JNum (q : Q)
  | JStr (s : string)
  | JList (l : list json)
  | JObject (d : gmap string json).

(** [needle in hay] for two strings. *)
Fixpoint contains (needle hay : string) : bool :=
  String.prefix needle hay ||
  match hay with
  | "" => false
  | String _ hay' => contains needle hay'
  end.

(** [k in v] for a string [k]: a key of a dict, an element of a list, a
    part of a string; a [TypeError] on anything else. *)
Definition json_in (k : string) (v : json) : res bool :=
  match v with
  | JObject d => Ok (bool_decide (is_Some (d !! k)))
  | JList l => Ok (existsb (fun x => match x with
                                     | JStr s => String.eqb s k
                                     | _ => false
                                     end) l)
  | JStr s => Ok (contains k s)
  | _ => Raise TypeError
  end.

(** [v[k]] for a string [k]. *)
Definition json_subscript (v : json) (k : string) : res json :=
  match v with
  | JObject d => match d !! k with
                 | Some x => Ok x
                 | None => Raise (KeyError k)
                 end
  | _ => Raise TypeError
  end.

(** [list(v.keys())]; on a value that is not a dict the source meets an
    [AttributeError], which the handlers treat as any other exception. *)
Definition json_keys (v : json) : res (list string) :=
  match v with
  | JObject d => Ok (fst <$> map_to_list d)
  | _ => Raise TypeError
  end.

(** The text by which the service says that it is busy (UTF-8). *)
Definition busy_marker : string := "系统繁忙，请稍后再试".

Class JsonLib : Type := {
  (* json.loads; a text that is not JSON raises json.JSONDecodeError, a
     ValueError *)
  json_loads : string -> res json
}.

Section RoomLookup.
Context `{JsonLib}.
Local Open Scope py_scope.

(** [get_live_state_json]; [response] is what [await async_req(...)]
    delivered: the body of the answer, or an exception.  The result is a
    JSON value, the first element of [data.data]; [JNull] is Python's
    [None], which is also what the function returns when it has no room. *)
Definition get_live_state_json (response : res string) : F json :=
  Py.def JNull
    (Py.try_except
       (response <- Py.lift response ;;
        (if contains busy_marker response then
           Py.log WARNING "system busy, try again later" ;;
           Py.return_ JNull
         else Py.ret tt) ;;
        info_json <- Py.lift (json_loads response) ;;
        keys <- Py.lift (json_keys info_json) ;;
        Py.log DEBUG "structure of the API response" ;;
        has_data <- Py.lift (json_in "data" info_json) ;;
        (if negb has_data then
           Py.log ERROR "no data field in the API response" ;;
           Py.return_ JNull
         else Py.ret tt) ;;
        data <- Py.lift (json_subscript info_json "data") ;;
        has_data <- Py.lift (json_in "data" data) ;;
        (if negb has_data then
           Py.log ERROR "no data field in the data field of the API response" ;;
           Py.return_ JNull
         else Py.ret tt) ;;
        data <- Py.lift (json_subscript info_json "data") ;;
        rooms <- Py.lift (json_subscript data "data") ;;
        match rooms with
        | JList (room :: _) => Py.return_ room
        | _ =>
            Py.log ERROR "data.data of the API response is not a non-empty list" ;;
            Py.return_ JNull
        end)
       (fun e =>
          match e with
          | ValueError => Py.log ERROR "JSON parsing failed"
          | _ => Py.log ERROR "getting the live state failed"
          end ;;
          Py.return_ JNull)).
End RoomLookup.

(* ===================================================================== *)
(** * The demo script ([only_danmu_fixed.py]) *)
(* ===================================================================== *)

(** Class [DanmuRecorder] of the demo has a subset of the attributes of
    [DouyinDanmuRecorder]; its methods run on the same [world].  Its
    [filename] is a full path. *)
Module Demo.
Section DemoMethods.
Context `{Codec} `{Platform}.

(** The acknowledgement built inside [_on_message] when
    [payloadPackage.needAck] holds; an exception goes to the handler of
    [_on_message]. *)
Definition ack_frame (logid : Z) (payloadPackage : Response) : res bytes :=
  (let obj := PushFrame_new in
   let obj := set_payloadType "ack" obj in
   obj <- set_logid logid obj ;;
   let obj := set_payloadType (internalExt payloadPackage) obj in
   PushFrame_SerializeToString obj)%res.

Local Open Scope py_scope.

(** [open(path, 'a').write(text)]: appends, creating the file. *)
Definition append_file {R} (path : string) (text : string) : M R unit :=
  fun w => (Next tt, {| self := self w;
                        files := <[path := default "" (files w !! path) +:+ text]> (files w);
                        clock := clock w; trace := trace w |}).

(** [_on_close]; [start] is the method [self.start] that the last line
    calls. *)
Definition _on_close (start : F unit) (ws : WebSocketApp) : F unit :=
  Py.def tt
    (Py.log INFO "danmu connection closed" ;;
     st <- Py.get_self ;;
     (if truthy_str (filename st) then
        present <- Py.path_exists (default "" (filename st)) ;;
        if present then append_file (default "" (filename st)) "</i>" else Py.ret tt
      else Py.ret tt) ;;
     Py.log INFO "danmu recording ended" ;;
     Py.log INFO "file saved" ;;
     st <- Py.get_self ;;
     if negb (stop_signal st) && (retry st <? 3) then
       Py.modify (put_retry (retry st + 1)) ;;
       Py.log INFO "trying to reconnect" ;;
       Py.time_sleep 2 ;;
       Py.call start
     else Py.ret tt).
End DemoMethods.

(** The configuration at the head of the script. *)
Definition name : string := "千年".
Definition output_path : string := "./danmu/" +:+ name.

(** What [start] writes into a new file: the header and the opening tag,
    without a closing tag. *)
Definition header_text : string :=
  "<?xml version=" +:+ DQUOTE +:+ "1.0" +:+ DQUOTE +:+ " encoding=" +:+ DQUOTE +:+
  "utf-8" +:+ DQUOTE +:+ "?>" +:+ String LF "" +:+
  "<?xml-stylesheet type=" +:+ DQUOTE +:+ "text/xsl" +:+ DQUOTE +:+ " href=" +:+
  DQUOTE +:+ "#s" +:+ DQUOTE +:+ "?>" +:+ String LF "" +:+
  "<i>" +:+ String LF "".

(** The library functions that only the script calls. *)
Class Session : Type := {
  (* time.strftime('%Y%m%d_%H%M%S', t), for the local time t given in
     seconds *)
  strftime : Z -> string;
  (* get_request_headers(): a random user agent and the cookie that
     cookie_utils holds or fetches *)
  get_request_headers : res (gmap string string);
  (* ws.run_forever(): runs the connection, calling the handlers of the
     recorder, until the connection is over *)
  run_forever : WebSocketApp -> F unit
}.

Section DemoSession.
Context `{Codec} `{Platform} `{Session}.
Local Open Scope py_scope.

(** [start]; [room_json] is what [get_live_state_json(self.room_id)]
    delivered and [dir_exists] is [os.path.exists(output_path)]. *)
Definition start (room_json : option (gmap string value)) (dir_exists : bool) : F unit :=
  Py.def tt
    (Py.log INFO "start recording danmu" ;;
     Py.log INFO "fetching room information" ;;
     match room_json with
     | None =>
         Py.log INFO "cannot get room information" ;;
         Py.return_ tt
     | Some room_json =>
         st <- Py.get_self ;;
         Py.modify (put_room_real_id
                      (Some (dict_get room_json "id_str" (VStr (room_id st))))) ;;
         Py.log INFO "real room id" ;;
         let status := dict_get room_json "status" (VInt 0) in
         if py_ne_int status 2 then
           Py.log INFO "anchor is not live" ;;
           Py.return_ tt
         else
           Py.log INFO "anchor is live, connecting to the danmu server" ;;
           st <- Py.get_self ;;
           (match start_time st with
            | None =>
                now <- Py.time_time ;;
                Py.modify (put_start_time (Some (Qfloor now)))
            | Some _ => Py.ret tt
            end) ;;
           st <- Py.get_self ;;
           Py.modify (put_start_time_t (start_time st)) ;;
           (if negb dir_exists
            then Py.log INFO "output directory created"
            else Py.ret tt) ;;
           st <- Py.get_self ;;
           let start_time_str := strftime (default 0 (start_time st)) in
           Py.modify (put_filename (Some (output_path +:+ "/" +:+ start_time_str +:+ ".xml"))) ;;
           st <- Py.get_self ;;
           Py.write_file (default "" (filename st)) header_text ;;
           Py.log INFO "danmu file" ;;
           Py.try_except
             (st <- Py.get_self ;;
              ws_url <- Py.lift (get_danmu_ws_url (default VNone (room_real_id st))) ;;
              Py.log INFO "connecting to the danmu server" ;;
              header <- Py.lift get_request_headers ;;
              let app := {| ws_url := ws_url; keep_running := true |} in
              Py.modify (put_ws (Some app)) ;;
              Py.call (run_forever app))
             (fun e => Py.log INFO "connection failed")
     end).

(** The loop [for msg in payloadPackage.messagesList] of [_on_message]. *)
Fixpoint for_messages (msgs : list Message) : M unit unit :=
  match msgs with
  | [] => Py.ret tt
  | msg :: rest =>
      (if String.eqb (method msg) "WebcastChatMessage" then
         chatMessage <- Py.lift (ChatMessage_ParseFromString (msg_payload msg)) ;;
         data <- Py.lift (MessageToDict chatMessage) ;;
         now <- Py.time_time ;;
         st <- Py.get_self ;;
         second <-
           match start_time_t st with
           | Some t0 => Py.ret (now - inject_Z t0)%Q
           | None => Py.throw TypeError     (* the attribute is not set yet *)
           end ;;
         Py.modify (put_danmu_amount (danmu_amount st + 1)) ;;
         Py.modify (put_last_danmu_time now) ;;
         u <- Py.lift (subscript (VDict data) "user") ;;
         user <- Py.lift (subscript u "nickName") ;;
         content <- Py.lift (subscript (VDict data) "content") ;;
         st <- Py.get_self ;;
         match filename st with
         | Some path =>
             append_file path (danmu_line second now (py_str user) (py_str content))
         | None => Py.throw TypeError       (* open(None, 'a') *)
         end ;;
         Py.log INFO "danmu"
       else Py.ret tt) ;;
      for_messages rest
  end.

Definition _on_message (ws : WebSocketApp) (message : bytes) : F unit :=
  Py.def tt
    (Py.try_except
       (wssPackage <- Py.lift (PushFrame_ParseFromString message) ;;
        let logid := logid wssPackage in
        decompressed <- Py.lift (gzip_decompress (payload wssPackage)) ;;
        payloadPackage <- Py.lift (Response_ParseFromString decompressed) ;;
        (if needAck payloadPackage then
           data <- Py.lift (ack_frame logid payloadPackage) ;;
           Py.lift (ws_send ws data) ;;
           Py.emit (Send data)
         else Py.ret tt) ;;
        for_messages (messagesList payloadPackage))
       (fun e => Py.log INFO "handling danmu message failed")).
End DemoSession.
End Demo.

(* ===================================================================== *)
(** * Vocabulary of the properties *)
(* ===================================================================== *)

(** ** Results of the decoder *)

(** The two shapes of a dict that [parse_danmu_message] hands out. *)
Definition chat_shape (d : gmap string value) : Prop :=
  exists (user content : value) (l : Z) (a : bool) (e : string),
    d = <["user" := user]> (<["content" := content]> (<["logid" := VInt l]>
        (<["needAck" := VBool a]> (<["internalExt" := VStr e]> ∅)))).

Definition ack_shape (d : gmap string value) : Prop :=
  exists (l : Z) (e : string),
    d = <["needAck" := VBool true]> (<["logid" := VInt l]>
        (<["internalExt" := VStr e]> ∅)).

Definition valid_result (r : option (gmap string value)) : Prop :=
  match r with
  | None => True
  | Some d => chat_shape d \/ ack_shape d
  end.

Definition is_chat (m : Message) : bool :=
  String.eqb (method m) "WebcastChatMessage".

(** ** Lines of a text *)

Definition is_linebreak (c : ascii) : bool := Ascii.eqb c LF || Ascii.eqb c CR.

Fixpoint no_linebreak (s : string) : bool :=
  match s with
  | "" => true
  | String c s' => negb (is_linebreak c) && no_linebreak s'
  end.

Fixpoint no_cr (s : string) : bool :=
  match s with
  | "" => true
  | String c s' => negb (Ascii.eqb c CR) && no_cr s'
  end.

(** A line as [readlines] yields it inside a file: its only line break is
    the LF that ends it. *)
Fixpoint proper_line (l : string) : bool :=
  match l with
  | "" => false
  | String c "" => Ascii.eqb c LF
  | String c l' => negb (is_linebreak c) && proper_line l'
  end.

(** ** The document in a segment file *)

Definition header_lines : list string :=
  [ "<?xml version=" +:+ DQUOTE +:+ "1.0" +:+ DQUOTE +:+ " encoding=" +:+ DQUOTE +:+
    "utf-8" +:+ DQUOTE +:+ "?>" +:+ String LF "";
    "<?xml-stylesheet type=" +:+ DQUOTE +:+ "text/xsl" +:+ DQUOTE +:+ " href=" +:+
    DQUOTE +:+ "#s" +:+ DQUOTE +:+ "?>" +:+ String LF "";
    "<i>" +:+ String LF "" ].

(** The file holds the header, the lines [ds] and the closing tag, each
    line of [ds] on a line of its own. *)
Definition segment_document (ds : list string) (raw : string) : Prop :=
  raw = writelines (header_lines ++ ds ++ [close_tag_line]) /\
  forallb proper_line ds = true.

(** Read back, the file is the header, some body and the closing tag. *)
Definition complete_document (raw : string) : Prop :=
  exists body, readlines raw = header_lines ++ body ++ [close_tag_line].

Definition is_d_line (l : string) : bool := String.prefix "  <d " l.

(** The number of comment lines of a file. *)
Definition d_line_count (raw : string) : nat :=
  length (List.filter is_d_line (readlines raw)).

(** ** States of the recorder *)

(** The file [write_danmu] writes to, when one is set. *)
Definition active_file (st : Recorder) : option string :=
  if truthy_str (current_segment_file st) then current_segment_file st
  else if truthy_str (filename st) then filename st
  else None.

(** The instant the offsets of [write_danmu] count from, when there is one. *)
Definition offset_basis (st : Recorder) : option Q :=
  if truthy_str (current_segment_file st) && truthy_float (segment_start_time st)
  then segment_start_time st
  else inject_Z <$> start_time_t st.

Definition is_log (e : event) : bool :=
  match e with
  | Log _ _ => true
  | _ => false
  end.

(** The events of a trace other than log lines. *)
Definition effects (tr : list event) : list event :=
  List.filter (fun e => negb (is_log e)) tr.

(** What a caller can observe of the recorder apart from the log. *)
Definition observable (w : world) : Recorder * gmap string string :=
  (self w, files w).

(** The same world at a later instant. *)
Definition with_clock (c : Q) (w : world) : world :=
  {| self := self w; files := files w; clock := c; trace := trace w |}.

(** The files after the close handler of the demo script has put the
    closing tag at the end of its file, when it has a file. *)
Definition demo_finished_files (w : world) : gmap string string :=
  if truthy_str (filename (self w)) then
    match files w !! default "" (filename (self w)) with
    | Some text => <[default "" (filename (self w)) := text +:+ "</i>"]> (files w)
    | None => files w
    end
  else files w.

(** [n] closes of the connection in a row. *)
Fixpoint closes (n : nat) (ws : WebSocketApp) (w : world) : world :=
  match n with
  | O => w
  | S k => closes k ws (snd (_on_close ws w))
  end.

(** The comment lines of a run of appends whose offsets count from [b]. *)
Definition lines_of (b : Q) (calls : list (string * string * Q)) : list string :=
  map (fun '(user, content, ts) => danmu_line (ts - b) ts user content) calls.

(** A call whose user name and content have no line break. *)
Definition plain_call (call : string * string * Q) : bool :=
  let '(user, content, _) := call in no_linebreak user && no_linebreak content.

(** A run of [write_danmu] calls, each given as (user, content, timestamp). *)
Fixpoint appends `{Platform} (calls : list (string * string * Q)) (w : world) : world :=
  match calls with
  | [] => w
  | (user, content, timestamp) :: rest =>
      appends rest (snd (write_danmu user content timestamp w))
  end.

(** ** What a recorder can go through *)

(** The recorder has no file of the normal mode and its segment index is
    set. *)
Definition segment_mode (st : Recorder) : Prop :=
  filename st = None /\ is_Some (segment_index st).

(** What can happen to a recorder: a call of one of its methods, by the
    owner or by the socket library, or time going by. *)
Inductive call : Type :=
  | CallSetVideoFilename (name : string)
  | CallStartNewSegment
  | CallWriteDanmu (user content : string) (timestamp : Q)
  | CallStart (room_json : option (gmap string value)) (enable_segment : bool)
              (segment_time : Z)
  | CallStop
  | CallOnOpen (ws : WebSocketApp)
  | CallOnMessage (ws : WebSocketApp) (message : bytes)
  | CallOnError (ws : WebSocketApp) (error : exn)
  | CallOnClose (ws : WebSocketApp)
  | ClockAt (c : Q).

Definition run_call `{Codec} `{Platform} (c : call) (w : world) : world :=
  match c with
  | CallSetVideoFilename name => snd (set_video_filename name w)
  | CallStartNewSegment => snd (start_new_segment w)
  | CallWriteDanmu user content timestamp => snd (write_danmu user content timestamp w)
  | CallStart room_json enable_segment segment_time =>
      snd (start room_json enable_segment segment_time w)
  | CallStop => snd (stop w)
  | CallOnOpen ws => snd (_on_open ws w)
  | CallOnMessage ws message => snd (_on_message ws message w)
  | CallOnError ws error => snd (_on_error ws error w)
  | CallOnClose ws => snd (_on_close ws w)
  | ClockAt c => with_clock c w
  end.

Definition run_calls `{Codec} `{Platform} (calls : list call) (w : world) : world :=
  fold_left (fun w c => run_call c w) calls w.

(** A statement, or a method, under which a property of the recorder's
    attributes is kept. *)
Definition keeps {R A} (P : Recorder -> Prop) (m : M R A) : Prop :=
  forall w, P (self w) -> P (self (snd (m w))).

Definition method_keeps {R} (P : Recorder -> Prop) (f : F R) : Prop :=
  forall w, P (self w) -> P (self (snd (f w))).

(** ** A concrete codec, platform and worlds, to run the model *)

Module Example.
(** A [stem] for a bare file name: what stands before the first dot. *)
Fixpoint upto_dot (s : string) : string :=
  match s with
  | "" => ""
  | String c s' => if Ascii.eqb c "."%char then "" else String c (upto_dot s')
  end.

Definition platform : Platform :=
  {| stem := upto_dot;
     py_str := fun v => match v with VStr s => s | _ => "?" end;
     get_danmu_ws_url := fun _ => Ok "wss://example/webcast/im/push/v2/";
     ws_send := fun w _ => if keep_running w then Ok tt else Raise WebSocketException |}.

Definition chat (text : string) : Message :=
  {| method := "WebcastChatMessage"; msg_payload := text |}.

Definition member : Message :=
  {| method := "WebcastMemberMessage"; msg_payload := "enter" |}.

(** A codec whose frames carry their text in the clear: every frame has
    log id 7 and a batch of a member message, a chat message with the
    frame's text and a second chat message. *)
Definition batch_of (b : bytes) : Response :=
  {| messagesList := [member; chat b; chat "second"];
     needAck := true; internalExt := "ext" |}.

Definition codec : Codec :=
  {| PushFrame_ParseFromString := fun b =>
       if String.eqb b "" then Raise DecodeError
       else Ok {| logid := 7; payloadType := "msg"; payload := b |};
     PushFrame_SerializeToString := fun f => Ok (payloadType f);
     gzip_decompress := fun b => Ok b;
     Response_ParseFromString := fun b => Ok (batch_of b);
     ChatMessage := string;
     ChatMessage_ParseFromString := fun b => Ok b;
     MessageToDict := fun c =>
       Ok (<["user" := VDict (<["nickName" := VStr "alice"]> ∅)]>
           (<["content" := VStr c]> ∅)) |}.

Definition sock : WebSocketApp :=
  {| ws_url := "wss://example/webcast/im/push/v2/"; keep_running := true |}.

(** A recorder just constructed, at instant 1000. *)
Definition fresh (video : option string) : world :=
  {| self := Recorder_init "66186758468" "out" video;
     files := ∅; clock := 1000%Q; trace := [] |}.

(** A recorder whose three retries are used up. *)
Definition exhausted : world :=
  {| self := put_retry 3 (Recorder_init "66186758468" "out" None);
     files := ∅; clock := 1000%Q; trace := [] |}.

(** A recorder with an open, empty segment that began at instant 1000. *)
Definition open_recorder : Recorder :=
  put_start_time_t (Some 990)
    (put_segment_start_time (Some 1000%Q)
       (put_current_segment_file (Some "v.xml")
          (Recorder_init "66186758468" "out" (Some "v.mp4")))).

Definition open_segment : world :=
  {| self := open_recorder;
     files := <["out/v.xml" := xml_template]> ∅; clock := 1001%Q; trace := [] |}.

(** The same recorder after its file was removed from the directory. *)
Definition deleted_segment : world :=
  {| self := open_recorder; files := ∅; clock := 1001%Q; trace := [] |}.

(** A comment text that carries a line break and the start of a second
    comment element. *)
Definition two_line_content : string :=
  "x</d>" +:+ String LF "" +:+ "  <d p=" +:+ DQUOTE +:+ "0" +:+ DQUOTE +:+ ">y".

Definition live_room : gmap string value :=
  <["id_str" := VStr "7300000000000000001"]> (<["status" := VInt 2]> ∅).

Definition ended_room : gmap string value :=
  <["id_str" := VStr "7300000000000000001"]> (<["status" := VInt 4]> ∅).

(** The comment line for [user] and [content] with the printed offset
    [offset] and the printed milliseconds [millis]. *)
Definition line_text (offset millis user content : string) : string :=
  "  <d p=" +:+ DQUOTE +:+ offset +:+ ",1,25,16777215," +:+ millis +:+
  ",0,1602022773,0" +:+ DQUOTE +:+ " user=" +:+ DQUOTE +:+ user +:+ DQUOTE +:+
  ">" +:+ content +:+ "</d>" +:+ String LF "".

(** A comment that arrives before the video file name is known, then the
    name, then a second comment. *)
Definition waiting : world :=
  snd (@write_danmu platform "alice" "hi" 1000%Q (fresh None)).

Definition waiting_run : world :=
  snd (@write_danmu platform "bob" "yo" 1001%Q
         (snd (set_video_filename "v.mp4" (with_clock 1001%Q waiting)))).

(** A recording without segmentation: [start] at instant 1000 on a live
    room, a first comment at 1003.14 and a second one at 1010. *)
Definition started : world :=
  snd (@start platform (Some live_room) false 1800 (fresh (Some "v.mp4"))).

Definition first_comment : world :=
  snd (@write_danmu platform "alice" "hi" (100314 # 100)
         (with_clock (100314 # 100) started)).

Definition second_comment : world :=
  snd (@write_danmu platform "bob" "yo" 1010%Q (with_clock 1010%Q first_comment)).
End Example.

(* ===================================================================== *)
(** * Vocabulary of the further properties *)
(* ===================================================================== *)

(** The frames sent over the socket, in order. *)
Definition sent (tr : list event) : list bytes :=
  flat_map (fun e => match e with Send data => [data] | _ => [] end) tr.

(** The seconds slept. *)
Definition slept (tr : list event) : Z :=
  foldr (fun e acc => match e with Sleep n => n + acc | _ => acc end) 0 tr.

(** The envelope of an inbound frame: the push frame and the batch in its
    decompressed payload. *)
Definition envelope `{Codec} (message : bytes) : res (PushFrame * Response) :=
  (frame <- PushFrame_ParseFromString message ;;
   body <- gzip_decompress (payload frame) ;;
   batch <- Response_ParseFromString body ;;
   Ok (frame, batch))%res.


(** The state of the world after a call, seen from the state before it:
    what was logged and nothing else. *)
Definition logs_only (w w' : world) : Prop :=
  exists tr, trace w' = trace w ++ tr /\ forallb is_log tr = true.

(** No file was removed: every path that held a file still holds one. *)
Definition no_file_removed (w w' : world) : Prop :=
  forall path, is_Some (files w !! path) -> is_Some (files w' !! path).

(** A statement, or a method, whose every execution relates the world
    before it to the world after it. *)
Definition follows {R A} (Rel : world -> world -> Prop) (m : M R A) : Prop :=
  forall w, Rel w (snd (m w)).

Definition method_follows {R} (Rel : world -> world -> Prop) (f : F R) : Prop :=
  forall w, Rel w (snd (f w)).

(** The age of the open segment, when there is one. *)
Definition segment_age (w : world) : option Q :=
  if truthy_float (segment_start_time (self w))
  then (fun s => clock w - s)%Q <$> segment_start_time (self w)
  else None.

(** The retry counter is within its bounds. *)
Definition retry_in_bounds (st : Recorder) : Prop :=
  max_retry st = 3 /\ 0 <= retry st <= 3.

(** The waits before a reconnection: the sleeps of 2 seconds. *)
Definition reconnect_waits (tr : list event) : Z :=
  foldr (fun e acc => match e with
                      | Sleep n => if n =? 2 then 1 + acc else acc
                      | _ => acc
                      end) 0 tr.

(** From one world to a later one the retry counter has not gone down,
    and it has gone up by the number of waits before a reconnection. *)
Definition retries_counted (w w' : world) : Prop :=
  retry (self w) <= retry (self w') /\
  reconnect_waits (trace w') - reconnect_waits (trace w) =
    retry (self w') - retry (self w).

(** The byte of a character lies between [lo] and [hi]. *)
Definition byte_in (lo hi : Z) (c : ascii) : bool :=
  let n := Z.of_nat (nat_of_ascii c) in (lo <=? n) && (n <=? hi).

(** The text is well-formed UTF-8, as the codec of
    [open(..., encoding='UTF-8')] reads and writes it: no overlong form,
    no surrogate, nothing above U+10FFFF.  A file that is not cannot be
    read as text, and a [str] always is. *)
Fixpoint utf8_valid (s : string) : bool :=
  match s with
  | "" => true
  | String c s1 =>
      if byte_in 0 127 c then utf8_valid s1
      else
        match s1 with
        | "" => false
        | String c1 s2 =>
            if byte_in 194 223 c then byte_in 128 191 c1 && utf8_valid s2
            else
              match s2 with
              | "" => false
              | String c2 s3 =>
                  if byte_in 224 224 c
                  then byte_in 160 191 c1 && byte_in 128 191 c2 && utf8_valid s3
                  else if byte_in 225 236 c || byte_in 238 239 c
                  then byte_in 128 191 c1 && byte_in 128 191 c2 && utf8_valid s3
                  else if byte_in 237 237 c
                  then byte_in 128 159 c1 && byte_in 128 191 c2 && utf8_valid s3
                  else
                    match s3 with
                    | "" => false
                    | String c3 s4 =>
                        if byte_in 240 240 c
                        then byte_in 144 191 c1 && byte_in 128 191 c2 &&
                             byte_in 128 191 c3 && utf8_valid s4
                        else if byte_in 241 243 c
                        then byte_in 128 191 c1 && byte_in 128 191 c2 &&
                             byte_in 128 191 c3 && utf8_valid s4
                        else if byte_in 244 244 c
                        then byte_in 128 143 c1 && byte_in 128 191 c2 &&
                             byte_in 128 191 c3 && utf8_valid s4
                        else false
                    end
              end
        end
  end.

(** The same, character by character. *)
Inductive utf8_text : string -> Prop :=
  | utf8_end : utf8_text ""
  | utf8_one c s :
      byte_in 0 127 c = true -> utf8_text s -> utf8_text (String c s)
  | utf8_two c c1 s :
      byte_in 194 223 c = true -> byte_in 128 191 c1 = true ->
      utf8_text s -> utf8_text (String c (String c1 s))
  | utf8_three c c1 c2 s :
      (byte_in 224 224 c && byte_in 160 191 c1 ||
       (byte_in 225 236 c || byte_in 238 239 c) && byte_in 128 191 c1 ||
       byte_in 237 237 c && byte_in 128 159 c1) = true ->
      byte_in 128 191 c2 = true ->
      utf8_text s -> utf8_text (String c (String c1 (String c2 s)))
  | utf8_four c c1 c2 c3 s :
      (byte_in 240 240 c && byte_in 144 191 c1 ||
       byte_in 241 243 c && byte_in 128 191 c1 ||
       byte_in 244 244 c && byte_in 128 143 c1) = true ->
      byte_in 128 191 c2 = true -> byte_in 128 191 c3 = true ->
      utf8_text s -> utf8_text (String c (String c1 (String c2 (String c3 s)))).

(** What can happen to a recorder besides the calls of its methods: one
    of its threads runs for some passes of its loop. *)
Inductive activity : Type :=
  | Method (c : call)
  | HeartbeatRounds (rounds : nat) (ws : WebSocketApp)
  | SegmentCheckerRounds (rounds : nat) (segment_time : Z).

Definition run_activity `{Codec} `{Platform} (a : activity) (w : world) : world :=
  match a with
  | Method c => run_call c w
  | HeartbeatRounds rounds ws => snd (_heartbeat rounds ws w)
  | SegmentCheckerRounds rounds segment_time => snd (segment_checker rounds segment_time w)
  end.

Definition run_activities `{Codec} `{Platform} (acts : list activity) (w : world) : world :=
  fold_left (fun w a => run_activity a w) acts w.


(** ** More codecs, sockets and worlds, to run the model *)

Module Sample.
(** A batch without a chat message that asks for an acknowledgement. *)
Definition quiet_batch : Response :=
  {| messagesList := [Example.member]; needAck := true; internalExt := "ext" |}.

(** The example codec with every batch replaced by the quiet one. *)
Definition quiet_codec : Codec :=
  {| PushFrame_ParseFromString := @PushFrame_ParseFromString Example.codec;
     PushFrame_SerializeToString := @PushFrame_SerializeToString Example.codec;
     gzip_decompress := @gzip_decompress Example.codec;
     Response_ParseFromString := fun _ => Ok quiet_batch;
     ChatMessage := string;
     ChatMessage_ParseFromString := fun b => Ok b;
     MessageToDict := fun c => Ok (<["content" := VStr c]> ∅) |}.

(** The example codec with chat messages whose user is left out. *)
Definition anonymous_codec : Codec :=
  {| PushFrame_ParseFromString := @PushFrame_ParseFromString Example.codec;
     PushFrame_SerializeToString := @PushFrame_SerializeToString Example.codec;
     gzip_decompress := @gzip_decompress Example.codec;
     Response_ParseFromString := @Response_ParseFromString Example.codec;
     ChatMessage := string;
     ChatMessage_ParseFromString := fun b => Ok b;
     MessageToDict := fun c => Ok (<["content" := VStr c]> ∅) |}.

(** The frame and the batch that the example codec reads out of the
    message ["hi"]. *)
Definition frame : PushFrame := {| logid := 7; payloadType := "msg"; payload := "hi" |}.
Definition batch : Response := Example.batch_of "hi".

(** A socket that is closed: sending on it fails. *)
Definition closed_sock : WebSocketApp :=
  {| ws_url := "wss://example/webcast/im/push/v2/"; keep_running := false |}.

(** The open example segment after a first comment. *)
Definition commented_segment : world :=
  snd (@write_danmu Example.platform "alice" "hi" (100314 # 100) Example.open_segment).

(** The open example segment after [stop]. *)
Definition stopped : world := snd (stop Example.open_segment).

(** A session of the script: local time printed as a number of seconds,
    and a connection that is over at once. *)
Definition session : Demo.Session :=
  {| Demo.strftime := fun t => str_int t;
     Demo.get_request_headers := Ok (<["user-agent" := "Mozilla/5.0"]> ∅);
     Demo.run_forever := fun app w => (Ok tt, w) |}.

Definition demo_path : string := Demo.output_path +:+ "/1000.xml".

(** The script's recorder some time after a [start] at instant 1000, with
    one comment in its file. *)
Definition demo_recorder : Recorder :=
  put_filename (Some demo_path)
    (put_start_time_t (Some 1000)
       (put_start_time (Some 1000) (Recorder_init "66186758468" "" None))).

Definition demo_text : string :=
  Demo.header_text +:+ Example.line_text "3.14" "1003140" "alice" "hi".

Definition demo_world : world :=
  {| self := demo_recorder; files := <[demo_path := demo_text]> ∅;
     clock := 1010%Q; trace := [] |}.

(** The example codec on a frame whose payload is not gzip data. *)
Definition plain_codec : Codec :=
  {| PushFrame_ParseFromString := @PushFrame_ParseFromString Example.codec;
     PushFrame_SerializeToString := @PushFrame_SerializeToString Example.codec;
     gzip_decompress := fun _ => Raise BadGzipFile;
     Response_ParseFromString := @Response_ParseFromString Example.codec;
     ChatMessage := string;
     ChatMessage_ParseFromString := fun b => Ok b;
     MessageToDict := fun c => Ok (<["content" := VStr c]> ∅) |}.

(** A recorder whose segment file was named but is not there, and on
    which [start] has not run: no segment start and no session start. *)
Definition unstarted_segment : world :=
  {| self := put_current_segment_file (Some "v.xml")
               (Recorder_init "66186758468" "out" (Some "v.mp4"));
     files := ∅; clock := 1001%Q; trace := [] |}.

(** A new recorder for the same video, in a directory that holds the
    file of an earlier recording with one comment. *)
Definition restarted : world :=
  {| self := Recorder_init "66186758468" "out" (Some "v.mp4");
     files := files commented_segment; clock := 2000%Q; trace := [] |}.

(** A document whose closing tag is followed by a no-break space
    (U+00A0), and the open example segment with that file. *)
Definition spaced_document : string :=
  writelines (header_lines ++ ["</i>" +:+ utf8 [194; 160] +:+ String LF ""]).

Definition spaced_segment : world :=
  {| self := Example.open_recorder;
     files := <["out/v.xml" := spaced_document]> ∅; clock := 1001%Q; trace := [] |}.

(** A comment text in Chinese (UTF-8). *)
Definition greeting : string := "你好".
End Sample.
(* ===================================================================== *)
(** * Properties of the frame codec *)
(* ===================================================================== *)

Section FrameCodecFacts.
Context `{Codec}.

Lemma chat_result_shape data l pp : chat_shape (chat_result data l pp).
Proof. unfold chat_shape, chat_result. eauto 10. Qed.

Lemma ack_result_shape l pp : ack_shape (ack_result l pp).
Proof. unfold ack_shape, ack_result. eauto. Qed.

(** The loop either raises or hands out nothing or a chat dict. *)
Lemma for_messages_shape l pp msgs r :
  for_messages l pp msgs = Ok r -> r = None \/ exists d, r = Some d /\ chat_shape d.
Proof.
  induction msgs as [|m rest IH]; cbn.
  - intros [= <-]. by left.
  - destruct (String.eqb (method m) "WebcastChatMessage"); [|exact IH].
    destruct (ChatMessage_ParseFromString (msg_payload m)) as [c|]; cbn; [|done].
    destruct (MessageToDict c) as [data|]; cbn; [|done].
    intros [= <-]. right. eexists. split; [done|]. apply chat_result_shape.
Qed.

(** The loop stops at the first chat message: what follows it is not
    looked at. *)
Lemma for_messages_first_chat l pp pre m post :
  forallb (fun x => negb (is_chat x)) pre = true ->
  is_chat m = true ->
  for_messages l pp (pre ++ m :: post) =
    match Res.bind (ChatMessage_ParseFromString (msg_payload m)) MessageToDict with
    | Ok data => Ok (Some (chat_result data l pp))
    | Raise e => Raise e
    end.
Proof.
  unfold is_chat. intros Hpre Hm.
  induction pre as [|x pre IH]; cbn in *.
  - rewrite Hm.
    destruct (ChatMessage_ParseFromString (msg_payload m)) as [c|]; cbn; [|done].
    by destruct (MessageToDict c).
  - apply andb_prop in Hpre as [Hx Hpre].
    apply negb_true_iff in Hx. rewrite Hx. by apply IH.
Qed.

(** C2.  [parse_danmu_message] is total and never raises: on every byte
    sequence, and whatever the protobuf, gzip and JSON libraries do
    (return or raise), it returns [None] or a dict of one of the two
    documented shapes.  The function takes the message alone and has no
    access to the recorder or to the files, so no shared state can be left
    half-changed. *)
Theorem parse_danmu_message_never_raises (message : bytes) :
  exists r, parse_danmu_message message = Ok r /\ valid_result r.
Proof.
  unfold parse_danmu_message, Res.try_except.
  destruct (PushFrame_ParseFromString message) as [frame|]; cbn;
    [|by exists None].
  destruct (gzip_decompress (payload frame)) as [body|]; cbn;
    [|by exists None].
  destruct (Response_ParseFromString body) as [pp|]; cbn;
    [|by exists None].
  destruct (for_messages (logid frame) pp (messagesList pp)) as [r|] eqn:Hloop; cbn;
    [|by exists None].
  destruct (for_messages_shape _ _ _ _ Hloop) as [->|(d & -> & Hd)].
  - destruct (needAck pp).
    + eexists. split; [done|]. right. apply ack_result_shape.
    + by exists None.
  - exists (Some d). split; [done|]. by left.
Qed.

Lemma set_logid_in_range (l : Z) (obj : PushFrame) :
  0 <= l < 2 ^ 64 ->
  set_logid l obj = Ok {| logid := l; payloadType := payloadType obj; payload := payload obj |}.
Proof.
  intros Hl. unfold set_logid.
  replace ((0 <=? l) && (l <? 2 ^ 64)) with true; [done|].
  symmetry. apply andb_true_iff. split; [apply Z.leb_le | apply Z.ltb_lt]; lia.
Qed.

(** C1 (the code departs from the specification).  What [create_ack_frame] and
    the inline construction of the demo script serialize, for a [logid]
    that fits a [uint64]: a frame whose [payloadType] is the internal
    extension.  The tag ['ack'] assigned first is overwritten by the second
    assignment to the same field, so the frame carries no acknowledgement
    tag and the extension has no field of its own. *)
Theorem create_ack_frame_overwrites_tag (l : Z) (internal_ext : string) (pp : Response) :
  0 <= l < 2 ^ 64 ->
  create_ack_frame l internal_ext =
    match PushFrame_SerializeToString
            {| logid := l; payloadType := internal_ext; payload := "" |} with
    | Ok b => b
    | Raise _ => "ack"
    end
  /\ Demo.ack_frame l pp =
       PushFrame_SerializeToString
         {| logid := l; payloadType := internalExt pp; payload := "" |}.
Proof.
  intros Hl. unfold create_ack_frame, Demo.ack_frame.
  by rewrite !set_logid_in_range.
Qed.

(** An acknowledgement of log id 0 whose extension is the text [hb] is,
    byte for byte, a heartbeat (when the frame serializes). *)
Lemma create_ack_frame_as_heartbeat (b : bytes) :
  PushFrame_SerializeToString {| logid := 0; payloadType := "hb"; payload := "" |} = Ok b ->
  create_ack_frame 0 "hb" = b /\ create_heartbeat_frame = b.
Proof.
  intros Hb. unfold create_ack_frame, create_heartbeat_frame.
  rewrite set_logid_in_range by (split; [lia | reflexivity]).
  cbn. unfold set_payloadType, PushFrame_new. cbn. by rewrite Hb.
Qed.
End FrameCodecFacts.

(* ===================================================================== *)
(** * Properties of texts *)
(* ===================================================================== *)

Lemma app_cons c s t : String c s +:+ t = String c (s +:+ t).
Proof. reflexivity. Qed.

Lemma app_empty_l t : "" +:+ t = t.
Proof. reflexivity. Qed.

Lemma app_assoc_s s t u : (s +:+ t) +:+ u = s +:+ (t +:+ u).
Proof. induction s as [|c s IH]; [done|]. by rewrite !app_cons, IH. Qed.

Lemma no_linebreak_app s t : no_linebreak (s +:+ t) = no_linebreak s && no_linebreak t.
Proof.
  induction s as [|c s IH]; [done|].
  rewrite app_cons. cbn. rewrite IH. by rewrite andb_assoc.
Qed.

Lemma no_cr_app s t : no_cr (s +:+ t) = no_cr s && no_cr t.
Proof.
  induction s as [|c s IH]; [done|].
  rewrite app_cons. cbn. rewrite IH. by rewrite andb_assoc.
Qed.

Lemma proper_line_snoc t : no_linebreak t = true -> proper_line (t +:+ String LF "") = true.
Proof.
  induction t as [|c t IH]; [done|].
  rewrite app_cons. cbn [no_linebreak proper_line]. intros [Hc Ht]%andb_prop.
  rewrite Hc, (IH Ht). by destruct t.
Qed.

Lemma proper_line_no_cr l : proper_line l = true -> no_cr l = true.
Proof.
  induction l as [|c l IH]; [done|]. cbn [proper_line no_cr].
  destruct l as [|c' l'].
  - intros Hc. apply Ascii.eqb_eq in Hc as ->. done.
  - intros [Hc Hl]%andb_prop. rewrite (IH Hl), andb_true_r.
    unfold is_linebreak in Hc. apply negb_true_iff, orb_false_elim in Hc as [_ Hc].
    by rewrite Hc.
Qed.

(** A text without CR is read as it is. *)
Lemma universal_newlines_id s : no_cr s = true -> universal_newlines s = s.
Proof.
  induction s as [|c s IH]; [done|]. cbn. intros [Hc Hs]%andb_prop.
  apply negb_true_iff in Hc. rewrite Hc. by rewrite IH.
Qed.

Lemma split_keepends_line l s :
  proper_line l = true -> split_keepends (l +:+ s) = l :: split_keepends s.
Proof.
  induction l as [|c l IH]; [done|]. cbn [proper_line].
  destruct l as [|c' l'].
  - intros Hc. rewrite app_cons, app_empty_l. cbn. by rewrite Hc.
  - intros [Hc Hl]%andb_prop. rewrite app_cons. cbn [split_keepends].
    unfold is_linebreak in Hc. apply negb_true_iff, orb_false_elim in Hc as [Hc _].
    rewrite Hc, (IH Hl). done.
Qed.

Lemma writelines_cons l ls : writelines (l :: ls) = l +:+ writelines ls.
Proof. reflexivity. Qed.

Lemma split_keepends_writelines ls :
  forallb proper_line ls = true -> split_keepends (writelines ls) = ls.
Proof.
  induction ls as [|l ls IH]; [done|]. cbn [forallb]. intros [Hl Hls]%andb_prop.
  rewrite writelines_cons, split_keepends_line by done. by rewrite IH.
Qed.

Lemma no_cr_writelines ls : forallb proper_line ls = true -> no_cr (writelines ls) = true.
Proof.
  induction ls as [|l ls IH]; [done|]. cbn [forallb]. intros [Hl Hls]%andb_prop.
  rewrite writelines_cons, no_cr_app, (proper_line_no_cr _ Hl). by apply IH.
Qed.

(** Lines written and read back are the same lines. *)
Lemma readlines_writelines ls :
  forallb proper_line ls = true -> readlines (writelines ls) = ls.
Proof.
  intros Hls. unfold readlines.
  rewrite universal_newlines_id by by apply no_cr_writelines.
  by apply split_keepends_writelines.
Qed.

Lemma py_insert_before_last {A} (x a : A) (l : list A) :
  py_insert (-1) x (l ++ [a]) = l ++ [x; a].
Proof.
  unfold py_insert. rewrite length_app. cbn [length].
  replace (Z.to_nat _) with (length l).
  - by rewrite take_app_length, drop_app_length.
  - cbn. lia.
Qed.

Lemma insert_danmu_line_closed (ls : list string) (line : string) :
  insert_danmu_line (ls ++ [close_tag_line]) line = ls ++ [line; close_tag_line].
Proof.
  unfold insert_danmu_line. rewrite last_snoc.
  replace (String.eqb (strip close_tag_line) "</i>") with true by reflexivity.
  apply py_insert_before_last.
Qed.

Lemma digit_not_linebreak d : 0 <= d < 10 -> is_linebreak (digit d) = false.
Proof.
  intros Hd.
  assert (d = 0 \/ d = 1 \/ d = 2 \/ d = 3 \/ d = 4 \/ d = 5 \/ d = 6 \/ d = 7
          \/ d = 8 \/ d = 9) as Hcases by lia.
  repeat (destruct Hcases as [->|Hcases]; [reflexivity|]). by subst.
Qed.

Lemma digits_no_linebreak fuel n acc :
  no_linebreak acc = true -> no_linebreak (digits fuel n acc) = true.
Proof.
  revert n acc. induction fuel as [|fuel IH]; intros n acc Hacc; [done|].
  cbn [digits].
  assert (no_linebreak (String (digit (n mod 10)) acc) = true) as Hacc'.
  { cbn [no_linebreak]. rewrite digit_not_linebreak, Hacc; [done|].
    apply Z.mod_pos_bound. lia. }
  destruct (n <? 10); [done|]. by apply IH.
Qed.

Lemma str_nat_no_linebreak n : no_linebreak (str_nat n) = true.
Proof. by apply digits_no_linebreak. Qed.

Lemma str_int_no_linebreak z : no_linebreak (str_int z) = true.
Proof.
  unfold str_int. destruct (z <? 0).
  - rewrite no_linebreak_app. by rewrite str_nat_no_linebreak.
  - apply str_nat_no_linebreak.
Qed.

Lemma repr_round2_no_linebreak x : no_linebreak (repr_round2 x) = true.
Proof.
  unfold repr_round2. rewrite !no_linebreak_app, str_nat_no_linebreak.
  assert (0 <= Z.abs (round2 x) `mod` 100 < 100) as Hf by (apply Z.mod_pos_bound; lia).
  set (f := Z.abs (round2 x) `mod` 100) in *.
  replace (no_linebreak (if Qnum x <? 0 then "-" else "")) with true
    by by destruct (Qnum x <? 0).
  destruct (f `mod` 10 =? 0).
  - by rewrite str_nat_no_linebreak.
  - cbn. rewrite !digit_not_linebreak; [done| |].
    + apply Z.mod_pos_bound. lia.
    + split; [apply Z.div_pos; lia | apply Z.div_lt_upper_bound; lia].
Qed.

(** A comment whose user name and content have no line break is one line. *)
Lemma danmu_line_proper second ts user content :
  no_linebreak user = true -> no_linebreak content = true ->
  proper_line (danmu_line second ts user content) = true.
Proof.
  intros Hu Hc. unfold danmu_line.
  repeat rewrite <- app_assoc_s.
  apply proper_line_snoc.
  rewrite !no_linebreak_app, repr_round2_no_linebreak, str_int_no_linebreak, Hu, Hc.
  reflexivity.
Qed.

Lemma danmu_line_is_d_line second ts user content :
  is_d_line (danmu_line second ts user content) = true.
Proof. reflexivity. Qed.

Lemma segment_document_readlines ds raw :
  segment_document ds raw -> readlines raw = header_lines ++ ds ++ [close_tag_line].
Proof.
  intros [-> Hds]. apply readlines_writelines.
  rewrite !forallb_app, Hds. reflexivity.
Qed.

(** The file that [create_danmu_file] writes is a document without
    comments. *)
Lemma xml_template_document : segment_document [] xml_template.
Proof. split; reflexivity. Qed.

Lemma segment_document_snoc ds line :
  forallb proper_line ds = true -> proper_line line = true ->
  segment_document (ds ++ [line])
    (writelines (header_lines ++ ds ++ [line; close_tag_line])).
Proof.
  intros Hds Hline. split.
  - by rewrite <- (app_assoc ds).
  - rewrite forallb_app, Hds. cbn. by rewrite Hline.
Qed.

(* ===================================================================== *)
(** * Properties of the recorder *)
(* ===================================================================== *)

Arguments truthy_str : simpl never.
Arguments truthy_float : simpl never.
Arguments generate_filename : simpl never.
Arguments create_danmu_file : simpl never.
Arguments close_danmu_file : simpl never.
Arguments write_danmu_ensure_file : simpl never.
Arguments write_danmu_locked : simpl never.
Arguments write_danmu : simpl never.
Arguments incr_segment_index : simpl never.
Arguments xml_template : simpl never.
Arguments danmu_line : simpl never.
Arguments path_join : simpl never.
Arguments _on_close : simpl never.
Arguments _on_message : simpl never.
Arguments start : simpl never.
Arguments stop : simpl never.
Arguments start_new_segment : simpl never.

(** Runs the statements of a method body that is in the goal. *)
Ltac py_run :=
  unfold Py.def, Py.try_except, Py.bind, Py.call, Py.ret, Py.return_, Py.throw,
    Py.lift, Py.get_self, Py.modify, Py.emit, Py.log, Py.time_time, Py.time_sleep,
    Py.path_exists, Py.read_lines, Py.write_file; cbn.

Lemma effects_app tr1 tr2 : effects (tr1 ++ tr2) = effects tr1 ++ effects tr2.
Proof. apply List.filter_app. Qed.

Lemma xml_name_truthy s : truthy_str (Some (s +:+ ".xml")) = true.
Proof. by destruct s. Qed.

Lemma active_file_truthy st f :
  active_file st = Some f ->
  negb (truthy_str (filename st)) && negb (truthy_str (current_segment_file st)) = false.
Proof.
  unfold active_file.
  destruct (truthy_str (current_segment_file st)); [by rewrite andb_false_r|].
  by destruct (truthy_str (filename st)).
Qed.

Lemma active_file_none st :
  active_file st = None ->
  truthy_str (current_segment_file st) = false /\ truthy_str (filename st) = false.
Proof.
  unfold active_file.
  destruct (truthy_str (current_segment_file st)) eqn:Hcs.
  - destruct (current_segment_file st); [done|]. by cbv in Hcs.
  - destruct (truthy_str (filename st)) eqn:Hfn; [|done].
    destruct (filename st); [done|]. by cbv in Hfn.
Qed.

(** Counting a comment leaves the file name and the offset basis alone. *)
Lemma counted_active_file st n ts :
  active_file (put_last_danmu_time ts (put_danmu_amount n st)) = active_file st.
Proof. by destruct st. Qed.

Lemma counted_offset_basis st n ts :
  offset_basis (put_last_danmu_time ts (put_danmu_amount n st)) = offset_basis st.
Proof. by destruct st. Qed.

Section WriterFacts.
Context `{Platform}.

Lemma generate_filename_set (w : world) idx v :
  video_filename (self w) = Some v -> v <> "" ->
  generate_filename idx w = (Ok (Some (stem v +:+ ".xml")), w).
Proof.
  intros Hv Hne. destruct w as [st fs ck tr]. cbn in Hv.
  unfold generate_filename. py_run. rewrite Hv.
  replace (truthy_str (Some v)) with true; [done|].
  symmetry. by apply negb_true_iff, String.eqb_neq.
Qed.

Lemma generate_filename_unset (w : world) idx :
  truthy_str (video_filename (self w)) = false ->
  generate_filename idx w =
    (Ok None, {| self := self w; files := files w; clock := clock w;
                 trace := trace w ++ [Log WARNING "video file name not set yet"] |}).
Proof. intros Hv. unfold generate_filename. py_run. by rewrite Hv. Qed.

Lemma generate_filename_self (w : world) idx :
  self (snd (generate_filename idx w)) = self w /\
  files (snd (generate_filename idx w)) = files w /\
  exists r, fst (generate_filename idx w) = Ok r.
Proof.
  unfold generate_filename. py_run.
  destruct (truthy_str (video_filename (self w))); cbn; eauto.
Qed.

Lemma create_danmu_file_eq (w : world) name :
  create_danmu_file name w =
    (Ok tt, {| self := self w;
               files := <[path_join (output_dir (self w)) name := xml_template]> (files w);
               clock := clock w;
               trace := trace w ++ [Log INFO "danmu file created"] |}).
Proof. reflexivity. Qed.

(** With a file name set, the first part of [write_danmu] does nothing. *)
Lemma write_danmu_ensure_file_set (w : world) f :
  active_file (self w) = Some f -> write_danmu_ensure_file w = (Next tt, w).
Proof.
  intros Ha. unfold write_danmu_ensure_file, Py.bind, Py.get_self.
  by rewrite (active_file_truthy _ _ Ha).
Qed.

(** The block under the lock, once a file name is set and an offset
    basis is known: the offset counts from [offset_basis]. *)
Lemma write_danmu_locked_set (w : world) user content ts f b :
  active_file (self w) = Some f ->
  offset_basis (self w) = Some b ->
  write_danmu_locked user content ts w =
    (Next tt,
     {| self := put_last_danmu_time ts
                  (put_danmu_amount (danmu_amount (self w) + 1) (self w));
        files :=
          match files w !! path_join (output_dir (self w)) f with
          | Some raw =>
              <[path_join (output_dir (self w)) f :=
                  writelines (insert_danmu_line (readlines raw)
                                (danmu_line (ts - b) ts user content))]> (files w)
          | None => files w
          end;
        clock := clock w; trace := trace w |}).
Proof.
  destruct w as [st fs ck tr]. cbn [self files clock trace].
  unfold active_file, offset_basis, write_danmu_locked.
  destruct (truthy_str (current_segment_file st)) eqn:Hcs.
  - intros Ha. cbn [andb].
    destruct (truthy_float (segment_start_time st)) eqn:Hss.
    + intros Hb. py_run. rewrite Hcs, Hss, Ha, Hb. cbn.
      destruct (fs !! path_join (output_dir st) f) as [raw|] eqn:Hf; cbn.
      * by rewrite ?Hf.
      * done.
    + destruct (start_time_t st) as [t0|] eqn:Ht0; [|done]. intros [= <-].
      py_run. rewrite Hcs, Hss, Ha, Ht0. cbn.
      destruct (fs !! path_join (output_dir st) f) as [raw|] eqn:Hf; cbn.
      * by rewrite ?Hf.
      * done.
  - destruct (truthy_str (filename st)) eqn:Hfn; [|done]. intros Ha. cbn [andb].
    destruct (start_time_t st) as [t0|] eqn:Ht0; [|done]. intros [= <-].
    py_run. rewrite Hcs, Hfn, Ha, Ht0. cbn.
    destruct (fs !! path_join (output_dir st) f) as [raw|] eqn:Hf; cbn.
    * by rewrite ?Hf.
    * done.
Qed.

(** [write_danmu] once a file name is set and an offset basis is known. *)
Lemma write_danmu_open (w : world) user content ts f b :
  active_file (self w) = Some f ->
  offset_basis (self w) = Some b ->
  write_danmu user content ts w =
    (Ok tt,
     {| self := put_last_danmu_time ts
                  (put_danmu_amount (danmu_amount (self w) + 1) (self w));
        files :=
          match files w !! path_join (output_dir (self w)) f with
          | Some raw =>
              <[path_join (output_dir (self w)) f :=
                  writelines (insert_danmu_line (readlines raw)
                                (danmu_line (ts - b) ts user content))]> (files w)
          | None => files w
          end;
        clock := clock w; trace := trace w |}).
Proof.
  intros Ha Hb. unfold write_danmu, Py.def, Py.try_except, Py.bind.
  rewrite (write_danmu_ensure_file_set _ _ Ha).
  by rewrite (write_danmu_locked_set _ _ _ _ _ _ Ha Hb).
Qed.

(** One append to a document: the comment line goes in front of the
    closing tag. *)
Lemma write_danmu_append (w : world) user content ts f b ds raw :
  active_file (self w) = Some f ->
  offset_basis (self w) = Some b ->
  files w !! path_join (output_dir (self w)) f = Some raw ->
  segment_document ds raw ->
  write_danmu user content ts w =
    (Ok tt,
     {| self := put_last_danmu_time ts
                  (put_danmu_amount (danmu_amount (self w) + 1) (self w));
        files := <[path_join (output_dir (self w)) f :=
                     writelines (header_lines ++ ds ++
                                 [danmu_line (ts - b) ts user content; close_tag_line])]>
                   (files w);
        clock := clock w; trace := trace w |}).
Proof.
  intros Ha Hb Hf Hdoc.
  rewrite (write_danmu_open _ _ _ _ _ _ Ha Hb), Hf.
  rewrite (segment_document_readlines _ _ Hdoc).
  by rewrite (app_assoc header_lines), insert_danmu_line_closed,
    <- (app_assoc header_lines).
Qed.

(** C3 (amended).  An append to an open segment whose file holds a
    complete document, for a user name and a content without line break:
    the call returns, the file again holds a complete document (header,
    root tag, comment lines, closing tag as last line), read back it has
    the new comment line immediately before the closing tag and exactly
    one comment line more than before; the segment stays open with the
    same offset basis, so the same holds after every further append. *)
Theorem write_danmu_keeps_document (w : world) user content ts f b ds raw :
  active_file (self w) = Some f ->
  offset_basis (self w) = Some b ->
  files w !! path_join (output_dir (self w)) f = Some raw ->
  segment_document ds raw ->
  no_linebreak user = true ->
  no_linebreak content = true ->
  exists w' raw',
    write_danmu user content ts w = (Ok tt, w') /\
    files w' !! path_join (output_dir (self w)) f = Some raw' /\
    segment_document (ds ++ [danmu_line (ts - b) ts user content]) raw' /\
    complete_document raw' /\
    readlines raw' =
      header_lines ++ ds ++ [danmu_line (ts - b) ts user content; close_tag_line] /\
    d_line_count raw' = S (d_line_count raw) /\
    active_file (self w') = Some f /\
    offset_basis (self w') = Some b.
Proof.
  intros Ha Hb Hf Hdoc Hu Hc.
  pose proof (segment_document_readlines _ _ Hdoc) as Hread.
  pose proof (danmu_line_proper (ts - b) ts _ _ Hu Hc) as Hline.
  pose proof (segment_document_snoc ds _ (proj2 Hdoc) Hline) as Hdoc'.
  pose proof (segment_document_readlines _ _ Hdoc') as Hread'.
  rewrite <- (app_assoc ds) in Hread'. cbn [app] in Hread'.
  eexists _, _.
  rewrite (write_danmu_append _ _ _ _ _ _ _ _ Ha Hb Hf Hdoc).
  split; [reflexivity|]. cbn [files self].
  split; [apply lookup_insert_eq|].
  split; [exact Hdoc'|].
  split; [by eexists (ds ++ [_]); rewrite Hread', <- (app_assoc ds)|].
  split; [exact Hread'|].
  split; [|by rewrite counted_active_file, counted_offset_basis].
  unfold d_line_count. rewrite Hread', Hread.
  rewrite !List.filter_app, !length_app.
  replace (List.filter is_d_line [danmu_line (ts - b) ts user content; close_tag_line])
    with [danmu_line (ts - b) ts user content] by reflexivity.
  replace (List.filter is_d_line [close_tag_line]) with (@nil string) by reflexivity.
  cbn [length]. lia.
Qed.

(** Every sequence of appends to an open segment leaves the header, the
    comment lines in the order of the calls, and the closing tag. *)
Lemma appends_document (calls : list (string * string * Q)) (w : world) f b ds raw :
  active_file (self w) = Some f ->
  offset_basis (self w) = Some b ->
  files w !! path_join (output_dir (self w)) f = Some raw ->
  segment_document ds raw ->
  forallb plain_call calls = true ->
  files (appends calls w) !! path_join (output_dir (self w)) f =
    Some (writelines (header_lines ++ (ds ++ lines_of b calls) ++ [close_tag_line]))
  /\ danmu_amount (self (appends calls w)) =
       danmu_amount (self w) + Z.of_nat (length calls).
Proof.
  revert w ds raw.
  induction calls as [|[[user content] ts] calls IH]; intros w ds raw Ha Hb Hf Hdoc Hcalls.
  - cbn. rewrite app_nil_r, Hf. destruct Hdoc as [-> _]. split; [done|lia].
  - cbn [forallb plain_call] in Hcalls.
    apply andb_prop in Hcalls as [[Hu Hc]%andb_prop Hcalls].
    cbn [appends]. rewrite (write_danmu_append _ _ _ _ _ _ _ _ Ha Hb Hf Hdoc). cbn [snd].
    pose proof (danmu_line_proper (ts - b) ts _ _ Hu Hc) as Hline.
    pose proof (segment_document_snoc ds _ (proj2 Hdoc) Hline) as Hdoc'.
    match goal with |- context [appends calls ?w0] => set (w1 := w0) end.
    assert (active_file (self w1) = Some f) as Ha1
      by (subst w1; cbn [self]; by rewrite counted_active_file).
    assert (offset_basis (self w1) = Some b) as Hb1
      by (subst w1; cbn [self]; by rewrite counted_offset_basis).
    assert (output_dir (self w1) = output_dir (self w)) as Ho
      by by destruct w as [[] ? ? ?].
    assert (danmu_amount (self w1) = danmu_amount (self w) + 1) as Hn
      by by destruct w as [[] ? ? ?].
    assert (files w1 !! path_join (output_dir (self w1)) f =
              Some (writelines (header_lines ++ ds ++
                      [danmu_line (ts - b) ts user content; close_tag_line]))) as Hf1
      by (rewrite Ho; apply lookup_insert_eq).
    destruct (IH w1 _ _ Ha1 Hb1 Hf1 Hdoc' Hcalls) as [IHf IHn].
    rewrite Ho in IHf. split.
    + rewrite IHf. cbn [lines_of map]. by rewrite <- (app_assoc ds).
    + rewrite IHn, Hn. cbn [length]. lia.
Qed.

(** The first part of [write_danmu] when no file is set yet and the video
    file name is known: the segment branch runs (the attribute
    [segment_index] is never [None]), whatever [enable_segment] was. *)
Lemma write_danmu_ensure_file_first (w : world) i v :
  active_file (self w) = None ->
  segment_index (self w) = Some i ->
  video_filename (self w) = Some v ->
  v <> "" ->
  write_danmu_ensure_file w =
    (Next tt,
     {| self := put_segment_index (Some (i + 1))
                  (put_segment_start_time (Some (clock w))
                     (put_current_segment_file (Some (stem v +:+ ".xml")) (self w)));
        files := <[path_join (output_dir (self w)) (stem v +:+ ".xml") := xml_template]>
                   (files w);
        clock := clock w;
        trace := trace w ++ [Log INFO "danmu file created";
                             Log INFO "danmu segment file created"] |}).
Proof.
  intros [Hcs Hfn]%active_file_none Hi Hv Hne.
  unfold write_danmu_ensure_file. py_run. rewrite Hcs, Hfn, Hi. cbn.
  rewrite (generate_filename_set _ _ _ Hv Hne), xml_name_truthy. cbn.
  rewrite create_danmu_file_eq. cbn.
  unfold incr_segment_index. py_run. rewrite Hi. cbn.
  by rewrite <- app_assoc.
Qed.

(** The first comment of a recording: the file is created and the offset
    counts from the instant of the creation. *)
Lemma write_danmu_first (w : world) user content ts i v :
  active_file (self w) = None ->
  segment_index (self w) = Some i ->
  video_filename (self w) = Some v ->
  v <> "" ->
  Qnum (clock w) <> 0 ->
  write_danmu user content ts w =
    (Ok tt,
     {| self := put_last_danmu_time ts
                  (put_danmu_amount (danmu_amount (self w) + 1)
                     (put_segment_index (Some (i + 1))
                        (put_segment_start_time (Some (clock w))
                           (put_current_segment_file (Some (stem v +:+ ".xml"))
                              (self w)))));
        files := <[path_join (output_dir (self w)) (stem v +:+ ".xml") :=
                     writelines (header_lines ++
                                 [danmu_line (ts - clock w) ts user content;
                                  close_tag_line])]>
                   (<[path_join (output_dir (self w)) (stem v +:+ ".xml") :=
                        xml_template]> (files w));
        clock := clock w;
        trace := trace w ++ [Log INFO "danmu file created";
                             Log INFO "danmu segment file created"] |}).
Proof.
  intros Ha Hi Hv Hne Hck.
  unfold write_danmu, Py.def, Py.try_except, Py.bind.
  rewrite (write_danmu_ensure_file_first _ _ _ Ha Hi Hv Hne).
  assert (truthy_float (Some (clock w)) = true) as Hckt.
  { by apply negb_true_iff, Z.eqb_neq. }
  erewrite (write_danmu_locked_set _ _ _ _ (stem v +:+ ".xml") (clock w)).
  - cbn. rewrite lookup_insert_eq.
    replace (readlines xml_template) with (header_lines ++ [close_tag_line])
      by reflexivity.
    by rewrite insert_danmu_line_closed.
  - unfold active_file. cbn. by rewrite xml_name_truthy.
  - unfold offset_basis. cbn. by rewrite xml_name_truthy, Hckt.
Qed.

(** C4 (amended).  An append while no base name is available (no file is
    set and the video file name is not set): the call returns, and neither
    the recorder nor any file has changed; the comment is kept nowhere and
    is not counted.  Only warnings are logged. *)
Theorem write_danmu_no_name (w : world) user content ts :
  active_file (self w) = None ->
  truthy_str (video_filename (self w)) = false ->
  exists tr,
    write_danmu user content ts w =
      (Ok tt, {| self := self w; files := files w; clock := clock w;
                 trace := trace w ++ tr |})
    /\ forallb is_log tr = true.
Proof.
  destruct w as [st fs ck tr]. cbn [self files clock trace].
  intros [Hcs Hfn]%active_file_none Hv.
  unfold write_danmu, write_danmu_ensure_file.
  py_run. rewrite Hcs, Hfn. cbn.
  destruct (segment_index st); cbn; rewrite generate_filename_unset by done; cbn;
    change (truthy_str None) with false; cbn; rewrite <- app_assoc; eauto.
Qed.

(** With a file name set and no offset basis (no segment start that
    counts and no session start), the block under the lock raises at its
    first statement: the offset is a float minus [None]. *)
Lemma write_danmu_locked_no_basis (w : world) user content ts f :
  active_file (self w) = Some f ->
  offset_basis (self w) = None ->
  write_danmu_locked user content ts w = (Throw TypeError, w).
Proof.
  destruct w as [st fs ck tr]. cbn [self].
  unfold active_file, offset_basis, write_danmu_locked.
  intros _ Hb. py_run.
  destruct (truthy_str (current_segment_file st) && truthy_float (segment_start_time st))
    eqn:Hc.
  - apply andb_prop in Hc as [_ Hc].
    destruct (segment_start_time st); [done|]. done.
  - by destruct (start_time_t st).
Qed.

(** C10 (amended).  A file name is set but no file is at that path.  The
    call returns and no file is written or created.  When an offset basis
    is known (a segment start, or the session start that [start] sets),
    the comment counter goes up by one and the last-comment time is the
    new time stamp, although no line was written.  When none is known,
    the offset cannot be computed: the exception is caught inside
    [write_danmu], an error is logged, and nothing is counted. *)
Theorem write_danmu_missing_file (w : world) user content ts f :
  active_file (self w) = Some f ->
  files w !! path_join (output_dir (self w)) f = None ->
  write_danmu user content ts w =
    (Ok tt,
     match offset_basis (self w) with
     | Some _ =>
         {| self := put_last_danmu_time ts
                      (put_danmu_amount (danmu_amount (self w) + 1) (self w));
            files := files w; clock := clock w; trace := trace w |}
     | None =>
         {| self := self w; files := files w; clock := clock w;
            trace := trace w ++ [Log ERROR "writing danmu failed"] |}
     end).
Proof.
  intros Ha Hf.
  destruct (offset_basis (self w)) as [b|] eqn:Hb.
  - by rewrite (write_danmu_open _ _ _ _ _ _ Ha Hb), Hf.
  - unfold write_danmu, Py.def, Py.try_except, Py.bind.
    rewrite (write_danmu_ensure_file_set _ _ Ha).
    by rewrite (write_danmu_locked_no_basis _ _ _ _ _ Ha Hb).
Qed.

Lemma write_danmu_ensure_file_amount (w : world) :
  danmu_amount (self (snd (write_danmu_ensure_file w))) = danmu_amount (self w).
Proof.
  unfold write_danmu_ensure_file. py_run.
  destruct (negb _ && negb _); [|done].
  destruct (segment_index (self w)) eqn:Hi.
  - destruct (generate_filename_self w (Some z)) as (Hs & _ & r & Hr).
    destruct (generate_filename (Some z) w) as [o w1]. cbn in *. subst o.
    destruct (truthy_str r); cbn; [|by rewrite Hs].
    rewrite create_danmu_file_eq. cbn.
    unfold incr_segment_index. py_run. rewrite Hs, Hi. cbn. by rewrite ?Hs.
  - destruct (generate_filename_self w None) as (Hs & _ & r & Hr).
    destruct (generate_filename None w) as [o w1]. cbn in *. subst o.
    destruct (truthy_str r); cbn; [|by rewrite Hs].
    rewrite create_danmu_file_eq. cbn. by rewrite ?Hs.
Qed.

Lemma write_danmu_locked_amount (w : world) user content ts :
  danmu_amount (self w)
    <= danmu_amount (self (snd (write_danmu_locked user content ts w)))
    <= danmu_amount (self w) + 1.
Proof.
  unfold write_danmu_locked. py_run.
  destruct w as [st fs ck tr]. cbn.
  repeat (case_match; simplify_eq/=; try lia).
Qed.

(** [write_danmu] never raises, and counts at most one comment. *)
Lemma write_danmu_total (w : world) user content ts :
  fst (write_danmu user content ts w) = Ok tt /\
  danmu_amount (self w)
    <= danmu_amount (self (snd (write_danmu user content ts w)))
    <= danmu_amount (self w) + 1.
Proof.
  unfold write_danmu, Py.def, Py.try_except, Py.bind.
  pose proof (write_danmu_ensure_file_amount w) as He.
  destruct (write_danmu_ensure_file w) as [[[]|[]|e] w1]; cbn in *.
  - pose proof (write_danmu_locked_amount w1 user content ts) as Hl.
    destruct (write_danmu_locked user content ts w1) as [[[]|[]|e] w2]; cbn in *;
      (split; [done|lia]).
  - split; [done|lia].
  - split; [done|lia].
Qed.
End WriterFacts.

Section LifecycleFacts.
Context `{Codec} `{Platform}.

(** One close that the user did not ask for. *)
Lemma _on_close_not_stopped (w : world) (sock : WebSocketApp) :
  stop_signal (self w) = false ->
  _on_close sock w =
    (Ok tt,
     if retry (self w) <? max_retry (self w) then
       {| self := put_retry (retry (self w) + 1) (self w);
          files := files w;
          clock := (clock w + inject_Z 2)%Q;
          trace := trace w ++ [Log INFO "danmu connection closed";
                               Log INFO "trying to reconnect to the danmu server";
                               Sleep 2] |}
     else
       {| self := self w; files := files w; clock := clock w;
          trace := trace w ++ [Log INFO "danmu connection closed"] |}).
Proof.
  intros Hs. unfold _on_close. py_run. rewrite Hs.
  destruct (retry (self w) <? max_retry (self w)); cbn; [|done].
  by rewrite <- !app_assoc.
Qed.

(** The retry counter and the effects of [n] closes in a row. *)
Lemma closes_count_retries (w : world) (sock : WebSocketApp) (n : nat) :
  stop_signal (self w) = false ->
  max_retry (self w) = 3 ->
  0 <= retry (self w) <= 3 ->
  let w' := closes n sock w in
  retry (self w') = Z.min 3 (retry (self w) + Z.of_nat n) /\
  effects (trace w') =
    effects (trace w) ++
    replicate (Z.to_nat (retry (self w') - retry (self w))) (Sleep 2) /\
  stop_signal (self w') = false /\
  ws (self w') = ws (self w) /\
  files w' = files w.
Proof.
  revert w. induction n as [|n IH]; intros w Hs Hm Hr; cbn zeta.
  - cbn [closes]. rewrite Z.sub_diag. cbn. rewrite app_nil_r.
    repeat split; try done. lia.
  - cbn [closes]. rewrite (_on_close_not_stopped _ _ Hs), Hm. cbn [snd].
    destruct (retry (self w) <? 3) eqn:Hlt.
    + apply Z.ltb_lt in Hlt.
      match goal with |- context [closes n sock ?w1] => specialize (IH w1) end.
      destruct IH as (IHr & IHe & IHs & IHw & IHf);
        [by destruct w as [[] ? ? ?] | by destruct w as [[] ? ? ?]
        | destruct w as [[] ? ? ?]; cbn in *; lia |].
      replace (retry (self {| self := put_retry (retry (self w) + 1) (self w);
               files := files w; clock := (clock w + inject_Z 2)%Q;
               trace := trace w ++ [Log INFO "danmu connection closed";
                          Log INFO "trying to reconnect to the danmu server"; Sleep 2] |}))
        with (retry (self w) + 1) in * by by destruct w as [[] ? ? ?].
      split; [lia|].
      split.
      { rewrite IHe. cbn [trace]. rewrite effects_app. cbn.
        rewrite <- app_assoc. f_equal. cbn.
        replace (Z.to_nat (retry (self (closes n sock _)) - retry (self w)))
          with (S (Z.to_nat (retry (self (closes n sock
               {| self := put_retry (retry (self w) + 1) (self w);
               files := files w; clock := (clock w + inject_Z 2)%Q;
               trace := trace w ++ [Log INFO "danmu connection closed";
                          Log INFO "trying to reconnect to the danmu server"; Sleep 2] |}))
                - (retry (self w) + 1)))); [done|].
        lia. }
      split; [done|]. split; [|done].
      rewrite IHw. by destruct w as [[] ? ? ?].
    + apply Z.ltb_ge in Hlt.
      match goal with |- context [closes n sock ?w1] => specialize (IH w1) end.
      destruct IH as (IHr & IHe & IHs & IHw & IHf); [done..|].
      cbn [self trace files] in *.
      split; [lia|].
      split; [|done].
      rewrite IHe, effects_app. cbn. by rewrite app_nil_r.
Qed.

(** C5 (amended).  Closes that the user did not ask for, any number of
    them in a row, starting with at most three retries counted: each close
    returns normally, also the ones after the third; the retry counter
    goes up by one per close until it is 3 and stays there; the only
    effect besides log lines is one sleep of 2 seconds per counted retry.
    No connection is opened (the socket attribute is what it was), the
    stop flag stays unset, no file changes, and nothing reports that the
    retries are used up. *)
Theorem _on_close_bounded_retries (w : world) (sock : WebSocketApp) (n : nat) :
  stop_signal (self w) = false ->
  max_retry (self w) = 3 ->
  0 <= retry (self w) <= 3 ->
  let w' := closes n sock w in
  retry (self w') = Z.min 3 (retry (self w) + Z.of_nat n) /\
  effects (trace w') =
    effects (trace w) ++
    replicate (Z.to_nat (retry (self w') - retry (self w))) (Sleep 2) /\
  stop_signal (self w') = false /\
  ws (self w') = ws (self w) /\
  files w' = files w /\
  fst (_on_close sock w') = Ok tt.
Proof.
  intros Hs Hm Hr. cbn zeta.
  destruct (closes_count_retries w sock n Hs Hm Hr) as (H1 & H2 & H3 & H4 & H5).
  repeat (split; [assumption|]).
  by rewrite (_on_close_not_stopped _ _ H3).
Qed.

(** The close handler of the demo script: it puts the closing tag at the
    end of its file; then, below three retries and not stopped, it counts
    the retry, sleeps 2 seconds and calls [start] again; otherwise it
    returns, and nothing says that the retries are used up. *)
Lemma demo_on_close_restarts (start : F unit) (w : world) (sock : WebSocketApp) :
  Demo._on_close start sock w =
    if negb (stop_signal (self w)) && (retry (self w) <? 3) then
      start {| self := put_retry (retry (self w) + 1) (self w);
               files := demo_finished_files w;
               clock := (clock w + inject_Z 2)%Q;
               trace := trace w ++ [Log INFO "danmu connection closed";
                                    Log INFO "danmu recording ended";
                                    Log INFO "file saved";
                                    Log INFO "trying to reconnect";
                                    Sleep 2] |}
    else
      (Ok tt, {| self := self w; files := demo_finished_files w; clock := clock w;
                 trace := trace w ++ [Log INFO "danmu connection closed";
                                      Log INFO "danmu recording ended";
                                      Log INFO "file saved"] |}).
Proof.
  unfold Demo._on_close, Demo.append_file, demo_finished_files. py_run.
  destruct (truthy_str (filename (self w))); cbn.
  - destruct (files w !! default "" (filename (self w))) as [text|] eqn:Hf; cbn.
    + rewrite Hf. cbn.
      destruct (negb (stop_signal (self w)) && (retry (self w) <? 3)); cbn.
      * rewrite <- !app_assoc. cbn. by destruct (start _) as [[[]|] ?].
      * by rewrite <- !app_assoc.
    + destruct (negb (stop_signal (self w)) && (retry (self w) <? 3)); cbn.
      * rewrite <- !app_assoc. cbn. by destruct (start _) as [[[]|] ?].
      * by rewrite <- !app_assoc.
  - destruct (negb (stop_signal (self w)) && (retry (self w) <? 3)); cbn.
    + rewrite <- !app_assoc. cbn. by destruct (start _) as [[[]|] ?].
    + by rewrite <- !app_assoc.
Qed.

Lemma close_danmu_file_eq (w : world) (name : option string) :
  exists tr,
    close_danmu_file name w =
      (Ok tt, {| self := self w; files := files w; clock := clock w;
                 trace := trace w ++ tr |})
    /\ forallb is_log tr = true.
Proof.
  destruct w as [st fs ck tr0]. unfold close_danmu_file. py_run.
  destruct (truthy_str name); cbn.
  - destruct (bool_decide _); cbn; [by eexists [_]|].
    exists []. by rewrite app_nil_r.
  - exists []. by rewrite app_nil_r.
Qed.

(** A rotation: the new segment file is the empty document and the
    offsets of the comments that follow count from the instant of the
    rotation. *)
Lemma start_new_segment_restarts_offsets (w : world) i v :
  segment_index (self w) = Some i ->
  video_filename (self w) = Some v ->
  v <> "" ->
  Qnum (clock w) <> 0 ->
  exists w',
    start_new_segment w = (Ok tt, w') /\
    active_file (self w') = Some (stem v +:+ ".xml") /\
    offset_basis (self w') = Some (clock w) /\
    files w' !! path_join (output_dir (self w)) (stem v +:+ ".xml") = Some xml_template.
Proof.
  intros Hi Hv Hne Hck.
  assert (truthy_float (Some (clock w)) = true) as Hckt
    by by apply negb_true_iff, Z.eqb_neq.
  unfold start_new_segment. py_run.
  destruct (truthy_str (current_segment_file (self w))); cbn.
  - destruct (close_danmu_file_eq w (current_segment_file (self w))) as (tr & -> & _).
    cbn. erewrite generate_filename_set; [|exact Hv|exact Hne].
    rewrite xml_name_truthy. cbn.
    rewrite create_danmu_file_eq. cbn.
    unfold incr_segment_index. py_run. rewrite Hi. cbn.
    eexists. split; [reflexivity|]. cbn.
    unfold active_file, offset_basis. cbn. rewrite xml_name_truthy, Hckt. cbn.
    by rewrite lookup_insert_eq.
  - rewrite (generate_filename_set _ _ _ Hv Hne), xml_name_truthy. cbn.
    rewrite create_danmu_file_eq. cbn.
    unfold incr_segment_index. py_run. rewrite Hi. cbn.
    eexists. split; [reflexivity|]. cbn.
    unfold active_file, offset_basis. cbn. rewrite xml_name_truthy, Hckt. cbn.
    by rewrite lookup_insert_eq.
Qed.

Lemma stop_eq (w : world) :
  stop w =
    (Ok tt,
     {| self := match ws (self w) with
                | Some a => put_ws (Some (WebSocketApp_close a))
                              (put_stop_signal true (self w))
                | None => put_stop_signal true (self w)
                end;
        files := files w; clock := clock w;
        trace := trace w ++ [Log INFO "stopping danmu recording"] |}).
Proof.
  unfold stop. py_run. destruct w as [st fs ck tr]. cbn.
  by destruct (ws st).
Qed.

(** C8.  Closing twice is closing once.  [close_danmu_file] returns
    without an exception and leaves the recorder and every file as they
    were, the first time and the second time.  [stop] returns without an
    exception and touches no file, and a second [stop] leaves the recorder
    and the files exactly as the first one left them. *)
Theorem close_and_stop_idempotent (w : world) (name : option string) :
  (fst (close_danmu_file name w) = Ok tt /\
   fst (close_danmu_file name (snd (close_danmu_file name w))) = Ok tt /\
   observable (snd (close_danmu_file name w)) = observable w /\
   observable (snd (close_danmu_file name (snd (close_danmu_file name w)))) =
     observable (snd (close_danmu_file name w))) /\
  (fst (stop w) = Ok tt /\
   fst (stop (snd (stop w))) = Ok tt /\
   files (snd (stop w)) = files w /\
   observable (snd (stop (snd (stop w)))) = observable (snd (stop w))).
Proof.
  split.
  - destruct (close_danmu_file_eq w name) as (tr1 & E1 & _). rewrite E1. cbn [fst snd].
    match goal with |- context [close_danmu_file name ?w1] =>
      destruct (close_danmu_file_eq w1 name) as (tr2 & E2 & _) end.
    rewrite E2. done.
  - rewrite !stop_eq. cbn [fst snd self files].
    repeat split.
    unfold observable. cbn [self files]. f_equal.
    destruct w as [st fs ck tr]. cbn [self].
    destruct (ws st) as [a|] eqn:Hws; destruct st; cbn in *; by subst.
Qed.

(** C7.  The room is not live (its status is not 2): [start] returns
    [None]; no file is created or changed; of the recorder only the real
    room id is set, so no socket object exists that did not exist before;
    and the call did nothing but log: no thread was started, no connection
    attempted. *)
Theorem start_not_live (w : world) (room_json : gmap string value)
    (enable_segment : bool) (segment_time : Z) :
  py_ne_int (dict_get room_json "status" (VInt 0)) 2 = true ->
  exists tr,
    start (Some room_json) enable_segment segment_time w =
      (Ok None,
       {| self := put_room_real_id
                    (Some (dict_get room_json "id_str" (VStr (room_id (self w)))))
                    (self w);
          files := files w; clock := clock w; trace := trace w ++ tr |})
    /\ forallb is_log tr = true.
Proof.
  intros Hs. unfold start. py_run. rewrite Hs. cbn.
  eexists [_; _; _; _]. by rewrite <- !app_assoc.
Qed.

(** The lookup of the room failed: [start] returns as well. *)
Lemma start_lookup_failed (w : world) (enable_segment : bool) (segment_time : Z) :
  exists tr,
    start None enable_segment segment_time w =
      (Ok None, {| self := self w; files := files w; clock := clock w;
                   trace := trace w ++ tr |})
    /\ forallb is_log tr = true.
Proof. unfold start. py_run. eexists [_; _; _]. by rewrite <- !app_assoc. Qed.

(** [start] leaves the attribute [segment_index] set, with segmentation
    or without it. *)
Lemma start_keeps_segment_index (w : world) room_json enable_segment segment_time :
  is_Some (segment_index (self w)) ->
  is_Some (segment_index (self (snd (start room_json enable_segment segment_time w)))).
Proof.
  intros Hi. unfold start. py_run.
  destruct room_json as [rj|]; cbn; [|done].
  destruct (py_ne_int _ 2); cbn; [done|].
  destruct (start_time (self w)); cbn;
    destruct enable_segment; cbn;
    destruct (get_danmu_ws_url _); cbn; done.
Qed.

(** One inbound frame counts at most one comment. *)
Lemma _on_message_amount (w : world) (sock : WebSocketApp) (message : bytes) :
  fst (_on_message sock message w) = Ok tt /\
  danmu_amount (self (snd (_on_message sock message w))) <= danmu_amount (self w) + 1.
Proof.
  unfold _on_message. py_run.
  destruct (parse_danmu_message message) as [[d|]|e]; cbn.
  - destruct (dict_truthy d); cbn.
    + destruct (bool_decide (is_Some (d !! "user")) &&
                bool_decide (is_Some (d !! "content"))); cbn.
      * destruct (d !! "user") as [u|]; cbn; [|split; [done|lia]].
        destruct (subscript u "nickName") as [user|]; cbn; [|split; [done|lia]].
        destruct (d !! "content") as [content|]; cbn; [|split; [done|lia]].
        destruct (write_danmu_total w (py_str user) (py_str content) (clock w))
          as [Hr Ha].
        destruct (write_danmu (py_str user) (py_str content) (clock w) w) as [r w1].
        cbn in Hr, Ha. subst r. cbn.
        destruct (String.length message); cbn; (split; [done|lia]).
      * destruct (bool_decide (is_Some (d !! "needAck")) &&
                  value_truthy (dict_get d "needAck" VNone)); cbn.
        -- destruct (ws_send sock _); cbn;
             destruct (String.length message); cbn; (split; [done|lia]).
        -- destruct (String.length message); cbn; (split; [done|lia]).
    + destruct (String.length message); cbn; (split; [done|lia]).
  - destruct (String.length message); cbn; (split; [done|lia]).
  - split; [done|lia].
Qed.

End LifecycleFacts.

(* ===================================================================== *)
(** * What every run of the recorder keeps *)
(* ===================================================================== *)

Section Keeps.
Context {R : Type} (P : Recorder -> Prop).

Lemma keeps_ret {A} (a : A) : keeps (R:=R) P (Py.ret a).
Proof. by intros w. Qed.

Lemma keeps_return {A} (r : R) : keeps (A:=A) P (Py.return_ r).
Proof. by intros w. Qed.

Lemma keeps_throw {A} (e : exn) : keeps (R:=R) (A:=A) P (Py.throw e).
Proof. by intros w. Qed.

Lemma keeps_lift {A} (r : res A) : keeps (R:=R) P (Py.lift r).
Proof. intros w. by destruct r. Qed.

Lemma keeps_emit (e : event) : keeps (R:=R) P (Py.emit e).
Proof. by intros w. Qed.

Lemma keeps_log lvl msg : keeps (R:=R) P (Py.log lvl msg).
Proof. by intros w. Qed.

Lemma keeps_time_time : keeps (R:=R) P Py.time_time.
Proof. by intros w. Qed.

Lemma keeps_time_sleep n : keeps (R:=R) P (Py.time_sleep n).
Proof. by intros w. Qed.

Lemma keeps_path_exists path : keeps (R:=R) P (Py.path_exists path).
Proof. by intros w. Qed.

Lemma keeps_read_lines path : keeps (R:=R) P (Py.read_lines path).
Proof. intros w. unfold Py.read_lines. by destruct (files w !! path). Qed.

Lemma keeps_write_file path text : keeps (R:=R) P (Py.write_file path text).
Proof. by intros w. Qed.

Lemma keeps_modify (f : Recorder -> Recorder) :
  (forall st, P st -> P (f st)) -> keeps (R:=R) P (Py.modify f).
Proof. intros Hf w. apply Hf. Qed.

Lemma keeps_bind {A B} (m : M R A) (k : A -> M R B) :
  keeps P m -> (forall a, keeps P (k a)) -> keeps P (Py.bind m k).
Proof.
  intros Hm Hk w Hw. unfold Py.bind. specialize (Hm w Hw).
  destruct (m w) as [[a|r|e] w1]; cbn in *; [by apply Hk|done..].
Qed.

(** After [st <- get_self], the property holds of [st]. *)
Lemma keeps_bind_get {B} (k : Recorder -> M R B) :
  (forall st, P st -> keeps P (k st)) -> keeps P (Py.bind Py.get_self k).
Proof. intros Hk w Hw. unfold Py.bind, Py.get_self. by apply Hk. Qed.

Lemma keeps_try {A} (body : M R A) (handler : exn -> M R A) :
  keeps P body -> (forall e, keeps P (handler e)) -> keeps P (Py.try_except body handler).
Proof.
  intros Hb Hh w Hw. unfold Py.try_except. specialize (Hb w Hw).
  destruct (body w) as [[a|r|e] w1]; cbn in *; [done..|by apply Hh].
Qed.

Lemma keeps_def (fall : R) (body : M R unit) :
  keeps P body -> method_keeps P (Py.def fall body).
Proof.
  intros Hb w Hw. unfold Py.def. specialize (Hb w Hw).
  by destruct (body w) as [[a|r|e] w1].
Qed.

Lemma keeps_call {A} (f : F A) : method_keeps P f -> keeps (R:=R) P (Py.call f).
Proof.
  intros Hf w Hw. unfold Py.call. specialize (Hf w Hw).
  by destruct (f w) as [[a|e] w1].
Qed.
End Keeps.

(** Takes a body apart, statement by statement. *)
Ltac keeps_steps :=
  repeat first
    [ apply keeps_def
    | apply keeps_bind_get; intros ? ?
    | apply keeps_bind; [|intros ?]
    | apply keeps_try; [|intros ?]
    | apply keeps_call
    | apply keeps_ret | apply keeps_return | apply keeps_throw | apply keeps_lift
    | apply keeps_emit | apply keeps_log | apply keeps_time_time | apply keeps_time_sleep
    | apply keeps_path_exists | apply keeps_read_lines | apply keeps_write_file
    | apply keeps_modify; intros ? ?
    | match goal with
      | |- keeps _ (match ?c with _ => _ end) => destruct c eqn:?
      | |- keeps _ (if ?c then _ else _) => destruct c eqn:?
      end ].

Section ReachableStates.
Context `{Codec} `{Platform}.

Lemma segment_mode_put st :
  segment_mode st ->
  (forall v, segment_mode (put_room_real_id v st)) /\
  (forall v, segment_mode (put_video_filename v st)) /\
  (forall v, segment_mode (put_start_time v st)) /\
  (forall v, segment_mode (put_start_time_t v st)) /\
  (forall v, segment_mode (put_ws v st)) /\
  (forall v, segment_mode (put_stop_signal v st)) /\
  (forall v, segment_mode (put_danmu_amount v st)) /\
  (forall v, segment_mode (put_last_danmu_time v st)) /\
  (forall v, segment_mode (put_retry v st)) /\
  (forall v, segment_mode (put_segment_index (Some v) st)) /\
  (forall v, segment_mode (put_segment_start_time v st)) /\
  (forall v, segment_mode (put_current_segment_file v st)).
Proof. intros [Hf [i Hi]]. destruct st; cbn in *. repeat split; eauto. Qed.

Ltac segment_mode_steps :=
  keeps_steps;
  try match goal with
      | Hst : segment_mode ?st |- segment_mode _ =>
          solve [ apply (segment_mode_put _ Hst) ]
      | Hst : segment_mode ?st, E : segment_index ?st = None |- _ =>
          exfalso; destruct Hst as [_ [? Hi]]; congruence
      end.

Lemma generate_filename_segment_mode idx : method_keeps segment_mode (generate_filename idx).
Proof. unfold generate_filename. segment_mode_steps. Qed.

Lemma create_danmu_file_segment_mode name : method_keeps segment_mode (create_danmu_file name).
Proof. unfold create_danmu_file. segment_mode_steps. Qed.

Lemma close_danmu_file_segment_mode name : method_keeps segment_mode (close_danmu_file name).
Proof. unfold close_danmu_file. segment_mode_steps. Qed.

Lemma write_danmu_segment_mode user content ts :
  method_keeps segment_mode (write_danmu user content ts).
Proof.
  unfold write_danmu, write_danmu_ensure_file, write_danmu_locked, incr_segment_index.
  segment_mode_steps.
  all: first [apply generate_filename_segment_mode | apply create_danmu_file_segment_mode].
Qed.

Lemma start_new_segment_segment_mode : method_keeps segment_mode start_new_segment.
Proof.
  unfold start_new_segment, incr_segment_index. segment_mode_steps.
  all: first [apply generate_filename_segment_mode | apply create_danmu_file_segment_mode
             | apply close_danmu_file_segment_mode].
Qed.

Lemma start_segment_mode room_json enable_segment segment_time :
  method_keeps segment_mode (start room_json enable_segment segment_time).
Proof. unfold start. segment_mode_steps. Qed.

Lemma stop_segment_mode : method_keeps segment_mode stop.
Proof. unfold stop. segment_mode_steps. Qed.

Lemma _on_message_segment_mode sock message :
  method_keeps segment_mode (_on_message sock message).
Proof. unfold _on_message. segment_mode_steps. Qed.

Lemma _on_close_segment_mode sock : method_keeps segment_mode (_on_close sock).
Proof. unfold _on_close. segment_mode_steps. all: apply close_danmu_file_segment_mode. Qed.

Lemma run_call_segment_mode (c : call) (w : world) :
  segment_mode (self w) -> segment_mode (self (run_call c w)).
Proof.
  destruct c as [name| |user content ts|room_json enable_segment segment_time| |sock
                |sock message|sock error|sock|c];
    cbn [run_call].
  - unfold set_video_filename. revert w. change (method_keeps segment_mode
      (Py.def tt (Py.bind (Py.modify (put_video_filename (Some name)))
                    (fun _ => Py.log INFO "video file name set")))).
    segment_mode_steps.
  - apply start_new_segment_segment_mode.
  - apply write_danmu_segment_mode.
  - apply start_segment_mode.
  - apply stop_segment_mode.
  - revert w. change (method_keeps segment_mode (_on_open sock)).
    unfold _on_open. segment_mode_steps.
  - apply _on_message_segment_mode.
  - revert w. change (method_keeps segment_mode (_on_error sock error)).
    unfold _on_error. segment_mode_steps.
  - apply _on_close_segment_mode.
  - done.
Qed.

(** Whatever is called on a recorder made by [__init__], the attribute
    [filename] stays [None] and [segment_index] stays set: the recorder
    never leaves the branch of [write_danmu] that creates segment files. *)
Lemma normal_mode_unreachable (calls : list call) room_id output_dir video c :
  segment_mode (self (run_calls calls
    {| self := Recorder_init room_id output_dir video; files := ∅; clock := c;
       trace := [] |})).
Proof.
  unfold run_calls.
  set (w0 := {| self := Recorder_init room_id output_dir video; files := ∅; clock := c;
                trace := [] |}).
  assert (segment_mode (self w0)) as Hw0 by (split; cbn; eauto).
  revert Hw0. generalize w0. clear w0.
  induction calls as [|x calls IH]; intros w Hw; [done|].
  cbn [fold_left]. apply IH. by apply run_call_segment_mode.
Qed.
End ReachableStates.

(* ===================================================================== *)
(** * The properties on concrete runs *)
(* ===================================================================== *)

(** The acknowledgement for log id 1 and an extension, with the example
    codec. *)
Lemma create_ack_frame_overwrites_tag_witness :
  0 <= 1 < 2 ^ 64 /\
  (@create_ack_frame Example.codec 1 "internal_src:dim" =
     match @PushFrame_SerializeToString Example.codec
             {| logid := 1; payloadType := "internal_src:dim"; payload := "" |} with
     | Ok b => b
     | Raise _ => "ack"
     end
   /\ @Demo.ack_frame Example.codec 1 (Example.batch_of "hi") =
        @PushFrame_SerializeToString Example.codec
          {| logid := 1; payloadType := "ext"; payload := "" |}).
Proof.
  assert (0 <= 1 < 2 ^ 64) as Hl by (split; [lia | reflexivity]).
  split; [exact Hl|].
  exact (@create_ack_frame_overwrites_tag Example.codec 1 "internal_src:dim"
           (Example.batch_of "hi") Hl).
Defined.

(** One append to the open example segment. *)
Lemma write_danmu_keeps_document_witness :
  active_file (self Example.open_segment) = Some "v.xml" /\
  offset_basis (self Example.open_segment) = Some 1000%Q /\
  files Example.open_segment !! path_join (output_dir (self Example.open_segment)) "v.xml"
    = Some xml_template /\
  segment_document [] xml_template /\
  no_linebreak "alice" = true /\
  no_linebreak "hi" = true /\
  exists w' raw',
    @write_danmu Example.platform "alice" "hi" (100314 # 100) Example.open_segment
      = (Ok tt, w') /\
    files w' !! path_join (output_dir (self Example.open_segment)) "v.xml" = Some raw' /\
    segment_document
      ([] ++ [danmu_line ((100314 # 100) - 1000) (100314 # 100) "alice" "hi"]) raw' /\
    complete_document raw' /\
    readlines raw' =
      header_lines ++ [] ++
      [danmu_line ((100314 # 100) - 1000) (100314 # 100) "alice" "hi"; close_tag_line] /\
    d_line_count raw' = S (d_line_count xml_template) /\
    active_file (self w') = Some "v.xml" /\
    offset_basis (self w') = Some 1000%Q.
Proof.
  assert (active_file (self Example.open_segment) = Some "v.xml") as H1 by reflexivity.
  assert (offset_basis (self Example.open_segment) = Some 1000%Q) as H2 by reflexivity.
  assert (files Example.open_segment
            !! path_join (output_dir (self Example.open_segment)) "v.xml"
          = Some xml_template) as H3 by (vm_compute; reflexivity).
  assert (no_linebreak "alice" = true) as H5 by reflexivity.
  assert (no_linebreak "hi" = true) as H6 by reflexivity.
  refine (conj H1 (conj H2 (conj H3 (conj xml_template_document (conj H5 (conj H6 _)))))).
  exact (@write_danmu_keeps_document Example.platform Example.open_segment "alice" "hi"
           (100314 # 100) "v.xml" 1000%Q [] xml_template H1 H2 H3
           xml_template_document H5 H6).
Defined.

(** C3 (as stated, it fails).  An append to the open example segment, whose
    file holds the complete document without comments, with a content that
    carries a line break: afterwards the file has two comment lines more, not
    one. *)
Lemma append_with_line_break_adds_two_lines :
  active_file (self Example.open_segment) = Some "v.xml" /\
  files Example.open_segment !! "out/v.xml" = Some xml_template /\
  segment_document [] xml_template /\
  d_line_count xml_template = 0%nat /\
  fst (@write_danmu Example.platform "mallory" Example.two_line_content 1001%Q
         Example.open_segment) = Ok tt /\
  d_line_count <$>
    (files (snd (@write_danmu Example.platform "mallory" Example.two_line_content 1001%Q
                   Example.open_segment)) !! "out/v.xml") = Some 2%nat.
Proof.
  split; [reflexivity|].
  split; [vm_compute; reflexivity|].
  split; [exact xml_template_document|].
  repeat split; vm_compute; reflexivity.
Qed.

(** An append while the video file name is unknown. *)
Lemma write_danmu_no_name_witness :
  active_file (self (Example.fresh None)) = None /\
  truthy_str (video_filename (self (Example.fresh None))) = false /\
  exists tr,
    @write_danmu Example.platform "alice" "hi" 1000%Q (Example.fresh None) =
      (Ok tt, {| self := self (Example.fresh None); files := files (Example.fresh None);
                 clock := clock (Example.fresh None);
                 trace := trace (Example.fresh None) ++ tr |})
    /\ forallb is_log tr = true.
Proof.
  assert (active_file (self (Example.fresh None)) = None) as H1 by reflexivity.
  assert (truthy_str (video_filename (self (Example.fresh None))) = false) as H2
    by reflexivity.
  refine (conj H1 (conj H2 _)).
  exact (@write_danmu_no_name Example.platform (Example.fresh None) "alice" "hi" 1000%Q
           H1 H2).
Defined.

(** C4 (as stated, it fails).  A comment arrives before the video file name
    is known, then the name is set, then a second comment arrives.  The
    first call leaves the recorder and the files as they were: nothing is
    buffered.  In the end the file holds the second comment alone and one
    comment is counted: the first one is lost. *)
Lemma comment_before_video_name_is_lost :
  observable Example.waiting = observable (Example.fresh None) /\
  files Example.waiting_run !! "out/v.xml" =
    Some (writelines (header_lines ++
                      [Example.line_text "0.0" "1001000" "bob" "yo"; close_tag_line])) /\
  d_line_count <$> (files Example.waiting_run !! "out/v.xml") = Some 1%nat /\
  danmu_amount (self Example.waiting_run) = 1.
Proof. repeat split; vm_compute; reflexivity. Qed.

(** Five closes in a row of a recorder just constructed. *)
Lemma _on_close_bounded_retries_witness :
  stop_signal (self (Example.fresh None)) = false /\
  max_retry (self (Example.fresh None)) = 3 /\
  0 <= retry (self (Example.fresh None)) <= 3 /\
  (retry (self (closes 5 Example.sock (Example.fresh None))) =
     Z.min 3 (retry (self (Example.fresh None)) + Z.of_nat 5) /\
   effects (trace (closes 5 Example.sock (Example.fresh None))) =
     effects (trace (Example.fresh None)) ++
     replicate (Z.to_nat (retry (self (closes 5 Example.sock (Example.fresh None)))
                          - retry (self (Example.fresh None)))) (Sleep 2) /\
   stop_signal (self (closes 5 Example.sock (Example.fresh None))) = false /\
   ws (self (closes 5 Example.sock (Example.fresh None))) = ws (self (Example.fresh None)) /\
   files (closes 5 Example.sock (Example.fresh None)) = files (Example.fresh None) /\
   fst (_on_close Example.sock (closes 5 Example.sock (Example.fresh None))) = Ok tt).
Proof.
  assert (stop_signal (self (Example.fresh None)) = false) as H1 by reflexivity.
  assert (max_retry (self (Example.fresh None)) = 3) as H2 by reflexivity.
  assert (0 <= retry (self (Example.fresh None)) <= 3) as H3 by (cbn; lia).
  refine (conj H1 (conj H2 (conj H3 _))).
  exact (_on_close_bounded_retries (Example.fresh None) Example.sock 5 H1 H2 H3).
Defined.

(** C5 (as stated, it fails).  A close of a recorder just constructed, stop
    flag unset: the retry is counted and 2 seconds are slept, but no thread
    is started and the socket attribute stays [None]: no connection is
    retried.  A close when the three retries are used up, stop flag unset:
    the call returns normally and changes nothing but the log; the stop flag
    stays unset and no failure is raised or returned. *)
Lemma exhausted_retries_report_nothing :
  _on_close Example.sock (Example.fresh None) =
    (Ok tt,
     {| self := put_retry 1 (self (Example.fresh None));
        files := ∅;
        clock := (1000 + inject_Z 2)%Q;
        trace := [Log INFO "danmu connection closed";
                  Log INFO "trying to reconnect to the danmu server";
                  Sleep 2] |}) /\
  ws (put_retry 1 (self (Example.fresh None))) = None /\
  retry (self Example.exhausted) = max_retry (self Example.exhausted) /\
  stop_signal (self Example.exhausted) = false /\
  _on_close Example.sock Example.exhausted =
    (Ok tt,
     {| self := self Example.exhausted; files := ∅; clock := 1000%Q;
        trace := [Log INFO "danmu connection closed"] |}).
Proof. repeat split; vm_compute; reflexivity. Qed.

(** C6 (the code departs from the specification).  A recording started without
    segmentation at instant 1000 (so the session start is 1000), a first
    comment at 1003.14 and a second one at 1010.  The first comment creates
    the file as a segment and sets the segment start to its own instant, and
    both offsets count from there: the lines carry 0.0 and 6.86, not the
    3.14 and 10.0 that counting from the session start gives. *)
Theorem unsegmented_offsets_count_from_first_comment :
  start_time_t (self Example.started) = Some 1000 /\
  filename (self Example.second_comment) = None /\
  current_segment_file (self Example.second_comment) = Some "v.xml" /\
  segment_start_time (self Example.second_comment) = Some (100314 # 100) /\
  files Example.second_comment !! "out/v.xml" =
    Some (writelines (header_lines ++
                      [Example.line_text "0.0" "1003140" "alice" "hi";
                       Example.line_text "6.86" "1010000" "bob" "yo";
                       close_tag_line])).
Proof. repeat split; vm_compute; reflexivity. Qed.

(** With segmentation the lines are as the specification says: in the open example
    segment, which began at instant 1000, a comment at 1003.14 gets the
    offset 3.14. *)
Lemma segmented_offset_example :
  files (snd (@write_danmu Example.platform "alice" "hi" (100314 # 100)
                Example.open_segment)) !! "out/v.xml" =
    Some (writelines (header_lines ++
                      [Example.line_text "3.14" "1003140" "alice" "hi"; close_tag_line])).
Proof. vm_compute. reflexivity. Qed.

(** [start] on a room that has ended. *)
Lemma start_not_live_witness :
  py_ne_int (dict_get Example.ended_room "status" (VInt 0)) 2 = true /\
  exists tr,
    @start Example.platform (Some Example.ended_room) true 1800
      (Example.fresh (Some "v.mp4")) =
      (Ok None,
       {| self := put_room_real_id
                    (Some (dict_get Example.ended_room "id_str"
                             (VStr (room_id (self (Example.fresh (Some "v.mp4")))))))
                    (self (Example.fresh (Some "v.mp4")));
          files := files (Example.fresh (Some "v.mp4"));
          clock := clock (Example.fresh (Some "v.mp4"));
          trace := trace (Example.fresh (Some "v.mp4")) ++ tr |})
    /\ forallb is_log tr = true.
Proof.
  assert (py_ne_int (dict_get Example.ended_room "status" (VInt 0)) 2 = true) as H1
    by (vm_compute; reflexivity).
  refine (conj H1 _).
  exact (@start_not_live Example.platform (Example.fresh (Some "v.mp4"))
           Example.ended_room true 1800 H1).
Defined.

(** An append after the file of the open example segment was removed. *)
Lemma write_danmu_missing_file_witness :
  active_file (self Example.deleted_segment) = Some "v.xml" /\
  offset_basis (self Example.deleted_segment) = Some 1000%Q /\
  files Example.deleted_segment
    !! path_join (output_dir (self Example.deleted_segment)) "v.xml" = None /\
  @write_danmu Example.platform "alice" "hi" (100314 # 100) Example.deleted_segment =
    (Ok tt,
     {| self := put_last_danmu_time (100314 # 100)
                  (put_danmu_amount (danmu_amount (self Example.deleted_segment) + 1)
                     (self Example.deleted_segment));
        files := files Example.deleted_segment;
        clock := clock Example.deleted_segment;
        trace := trace Example.deleted_segment |}).
Proof.
  assert (active_file (self Example.deleted_segment) = Some "v.xml") as H1 by reflexivity.
  assert (files Example.deleted_segment
            !! path_join (output_dir (self Example.deleted_segment)) "v.xml" = None) as H3
    by (vm_compute; reflexivity).
  refine (conj H1 (conj eq_refl (conj H3 _))).
  exact (@write_danmu_missing_file Example.platform Example.deleted_segment "alice" "hi"
           (100314 # 100) "v.xml" H1 H3).
Defined.

(** C10 (as stated, it fails).  A recorder whose segment file is named but
    is not there, and which has neither a segment start nor a session
    start ([start] has not run): the call returns, writes nothing, logs an
    error, and the counter and the last-comment time stay as they were. *)
Lemma missing_file_without_basis_counts_nothing :
  active_file (self Sample.unstarted_segment) = Some "v.xml" /\
  files Sample.unstarted_segment !! "out/v.xml" = None /\
  offset_basis (self Sample.unstarted_segment) = None /\
  @write_danmu Example.platform "alice" "hi" 1001%Q Sample.unstarted_segment =
    (Ok tt,
     {| self := self Sample.unstarted_segment; files := ∅; clock := 1001%Q;
        trace := [Log ERROR "writing danmu failed"] |}) /\
  danmu_amount (self (snd (@write_danmu Example.platform "alice" "hi" 1001%Q
                             Sample.unstarted_segment))) = 0 /\
  last_danmu_time (self (snd (@write_danmu Example.platform "alice" "hi" 1001%Q
                                Sample.unstarted_segment))) = 0%Q.
Proof. repeat split; vm_compute; reflexivity. Qed.

(* ===================================================================== *)
(** * Further properties: how a call relates the world before and after *)
(* ===================================================================== *)

Section Follows.
Context {R : Type} (Rel : world -> world -> Prop) `{!PreOrder Rel}.

Lemma follows_ret {A} (a : A) : follows (R:=R) Rel (Py.ret a).
Proof. intros w. reflexivity. Qed.

Lemma follows_return {A} (r : R) : follows (A:=A) Rel (Py.return_ r).
Proof. intros w. reflexivity. Qed.

Lemma follows_throw {A} (e : exn) : follows (R:=R) (A:=A) Rel (Py.throw e).
Proof. intros w. reflexivity. Qed.

Lemma follows_lift {A} (r : res A) : follows (R:=R) Rel (Py.lift r).
Proof. intros w. unfold Py.lift. destruct r; reflexivity. Qed.

Lemma follows_get_self : follows (R:=R) Rel Py.get_self.
Proof. intros w. reflexivity. Qed.

Lemma follows_time_time : follows (R:=R) Rel Py.time_time.
Proof. intros w. reflexivity. Qed.

Lemma follows_path_exists path : follows (R:=R) Rel (Py.path_exists path).
Proof. intros w. reflexivity. Qed.

Lemma follows_read_lines path : follows (R:=R) Rel (Py.read_lines path).
Proof. intros w. unfold Py.read_lines. destruct (files w !! path); reflexivity. Qed.

Lemma follows_bind {A B} (m : M R A) (k : A -> M R B) :
  follows Rel m -> (forall a, follows Rel (k a)) -> follows Rel (Py.bind m k).
Proof.
  intros Hm Hk w. unfold Py.bind. specialize (Hm w).
  destruct (m w) as [[a|r|e] w1]; cbn in *; [|done..].
  etransitivity; [exact Hm | apply Hk].
Qed.

Lemma follows_try {A} (body : M R A) (handler : exn -> M R A) :
  follows Rel body -> (forall e, follows Rel (handler e)) ->
  follows Rel (Py.try_except body handler).
Proof.
  intros Hb Hh w. unfold Py.try_except. specialize (Hb w).
  destruct (body w) as [[a|r|e] w1]; cbn in *; [done..|].
  etransitivity; [exact Hb | apply Hh].
Qed.

Lemma follows_def (fall : R) (body : M R unit) :
  follows Rel body -> method_follows Rel (Py.def fall body).
Proof.
  intros Hb w. unfold Py.def. specialize (Hb w).
  by destruct (body w) as [[a|r|e] w1].
Qed.

Lemma follows_call {A} (f : F A) : method_follows Rel f -> follows (R:=R) Rel (Py.call f).
Proof.
  intros Hf w. unfold Py.call. specialize (Hf w).
  by destruct (f w) as [[a|e] w1].
Qed.
End Follows.

(** Takes a body apart, statement by statement; what is left are the
    statements that change the world, and the calls. *)
Ltac follows_steps :=
  repeat first
    [ match goal with |- PreOrder _ => apply _ end
    | apply follows_def
    | apply follows_bind; [| |intros ?]
    | apply follows_try; [| |intros ?]
    | apply follows_call
    | apply follows_ret | apply follows_return | apply follows_throw | apply follows_lift
    | apply follows_get_self | apply follows_time_time
    | apply follows_path_exists | apply follows_read_lines
    | match goal with
      | |- follows _ (match ?c with _ => _ end) => destruct c eqn:?
      | |- follows _ (if ?c then _ else _) => destruct c eqn:?
      end ].

#[local] Instance logs_only_preorder : PreOrder logs_only.
Proof.
  split.
  - intros w. exists []. by rewrite app_nil_r.
  - intros w1 w2 w3 (tr1 & E1 & H1) (tr2 & E2 & H2).
    exists (tr1 ++ tr2). rewrite E2, E1, <- app_assoc. split; [done|].
    by rewrite forallb_app, H1, H2.
Qed.

#[local] Instance no_file_removed_preorder : PreOrder no_file_removed.
Proof.
  split.
  - by intros w path.
  - intros w1 w2 w3 F1 F2 path Hp. by apply F2, F1.
Qed.

Lemma logs_only_sent w w' : logs_only w w' -> sent (trace w') = sent (trace w).
Proof.
  intros (tr & -> & Htr). unfold sent. rewrite flat_map_app.
  rewrite <- (app_nil_r (flat_map _ (trace w))) at 2. f_equal.
  induction tr as [|[] tr IH]; cbn in *; try done. by apply IH.
Qed.

Lemma logs_only_effects w w' : logs_only w w' -> effects (trace w') = effects (trace w).
Proof.
  intros (tr & -> & Htr). rewrite effects_app.
  rewrite <- (app_nil_r (effects (trace w))) at 2. f_equal.
  induction tr as [|[] tr IH]; cbn in *; try done. by apply IH.
Qed.

(** The statements that only log, under [logs_only]. *)
Ltac logs_only_steps :=
  follows_steps;
  try match goal with
      | |- follows logs_only (Py.modify _) => intros ?; exists []; cbn; by rewrite app_nil_r
      | |- follows logs_only (Py.write_file _ _) => intros ?; exists []; cbn; by rewrite app_nil_r
      | |- follows logs_only (Py.log _ _) => intros ?; by eexists [_]
      end.

Section LogsOnly.
Context `{Codec} `{Platform}.

Lemma generate_filename_logs_only idx : method_follows logs_only (generate_filename idx).
Proof. unfold generate_filename. logs_only_steps. Qed.

Lemma create_danmu_file_logs_only name : method_follows logs_only (create_danmu_file name).
Proof. unfold create_danmu_file. logs_only_steps. Qed.

Lemma close_danmu_file_logs_only name : method_follows logs_only (close_danmu_file name).
Proof. unfold close_danmu_file. logs_only_steps. Qed.

Lemma write_danmu_logs_only user content ts :
  method_follows logs_only (write_danmu user content ts).
Proof.
  unfold write_danmu, write_danmu_ensure_file, write_danmu_locked, incr_segment_index.
  logs_only_steps.
  all: first [apply generate_filename_logs_only | apply create_danmu_file_logs_only].
Qed.

Lemma start_new_segment_logs_only : method_follows logs_only start_new_segment.
Proof.
  unfold start_new_segment, incr_segment_index. logs_only_steps.
  all: first [apply generate_filename_logs_only | apply create_danmu_file_logs_only
             | apply close_danmu_file_logs_only].
Qed.
End LogsOnly.

(* ===================================================================== *)
(** * Inbound frames: from the frame to the writer *)
(* ===================================================================== *)

Section InboundFacts.
Context `{Codec} `{Platform}.

(** The decoder, by the envelope of the frame. *)
Lemma parse_danmu_message_envelope (message : bytes) :
  parse_danmu_message message =
    match envelope message with
    | Ok (frame, batch) =>
        match for_messages (logid frame) batch (messagesList batch) with
        | Ok (Some d) => Ok (Some d)
        | Ok None =>
            if needAck batch then Ok (Some (ack_result (logid frame) batch)) else Ok None
        | Raise _ => Ok None
        end
    | Raise _ => Ok None
    end.
Proof.
  unfold parse_danmu_message, envelope, Res.try_except.
  destruct (PushFrame_ParseFromString message) as [frame|]; cbn; [|done].
  destruct (gzip_decompress (payload frame)) as [body|]; cbn; [|done].
  destruct (Response_ParseFromString body) as [batch|]; cbn; [|done].
  destruct (for_messages (logid frame) batch (messagesList batch)) as [[d|]|]; cbn; try done.
  by destruct (needAck batch).
Qed.

Lemma first_chat_split (msgs : list Message) :
  existsb is_chat msgs = true ->
  exists pre m post,
    msgs = pre ++ m :: post /\
    forallb (fun x => negb (is_chat x)) pre = true /\ is_chat m = true.
Proof.
  induction msgs as [|x msgs IH]; cbn; [done|].
  destruct (is_chat x) eqn:Hx; cbn.
  - intros _. by exists [], x, msgs.
  - intros (pre & m & post & -> & Hpre & Hm)%IH.
    exists (x :: pre), m, post. cbn. by rewrite Hx.
Qed.

Lemma for_messages_no_chat l pp (msgs : list Message) :
  existsb is_chat msgs = false -> for_messages l pp msgs = Ok None.
Proof.
  induction msgs as [|x msgs IH]; cbn; [done|].
  intros [Hx Hrest]%orb_false_elim. unfold is_chat in Hx. rewrite Hx. by apply IH.
Qed.

(** What the dict of an acknowledgement request holds. *)
Lemma ack_result_fields l pp :
  dict_truthy (ack_result l pp) = true /\
  ack_result l pp !! "user" = None /\
  ack_result l pp !! "needAck" = Some (VBool true) /\
  ack_result l pp !! "logid" = Some (VInt l) /\
  ack_result l pp !! "internalExt" = Some (VStr (internalExt pp)).
Proof. repeat split; vm_compute; reflexivity. Qed.

(** What the dict of a chat message holds. *)
Lemma chat_result_fields data l pp :
  dict_truthy (chat_result data l pp) = true /\
  chat_result data l pp !! "user" = Some (dict_get data "user" (VDict ∅)) /\
  chat_result data l pp !! "content" = Some (dict_get data "content" (VStr "")).
Proof.
  unfold chat_result. split; [|split].
  - unfold dict_truthy. apply negb_true_iff, bool_decide_eq_false.
    apply insert_non_empty.
  - apply lookup_insert_eq.
  - rewrite lookup_insert_ne by done. apply lookup_insert_eq.
Qed.

(** The handler on a frame from which the decoder gets nothing. *)
Lemma _on_message_nothing (w : world) (sock : WebSocketApp) (message : bytes) :
  parse_danmu_message message = Ok None ->
  _on_message sock message w =
    (Ok tt,
     {| self := if (0 <? String.length message)%nat
                then put_last_danmu_time (clock w) (self w) else self w;
        files := files w; clock := clock w; trace := trace w |}).
Proof.
  intros Hp. unfold _on_message. py_run. rewrite Hp. cbn.
  destruct w as [st fs ck tr]. by destruct (String.length message).
Qed.

(** The handler on a frame with a chat message. *)
Lemma _on_message_chat (w : world) (sock : WebSocketApp) (message : bytes) data l pp :
  parse_danmu_message message = Ok (Some (chat_result data l pp)) ->
  _on_message sock message w =
    match subscript (dict_get data "user" (VDict ∅)) "nickName" with
    | Ok user =>
        let w1 := snd (write_danmu (py_str user)
                         (py_str (dict_get data "content" (VStr ""))) (clock w) w) in
        (Ok tt, {| self := put_last_danmu_time (clock w) (self w1); files := files w1;
                   clock := clock w1; trace := trace w1 ++ [Log DEBUG "danmu"] |})
    | Raise _ =>
        (Ok tt, {| self := self w; files := files w; clock := clock w;
                   trace := trace w ++ [Log ERROR "handling danmu message failed"] |})
    end.
Proof.
  intros Hp. destruct (chat_result_fields data l pp) as (Ht & Hu & Hc).
  unfold _on_message. py_run. rewrite Hp. cbn. rewrite Ht, Hu, Hc. cbn.
  destruct (subscript (dict_get data "user" (VDict ∅)) "nickName") as [user|e]; cbn;
    [|done].
  destruct (write_danmu_total w (py_str user)
              (py_str (dict_get data "content" (VStr ""))) (clock w)) as [Hr _].
  destruct (write_danmu _ _ _ w) as [r w1]. cbn in Hr. subst r. cbn.
  destruct (String.length message); cbn; [done|].
  by destruct w1 as [[] ? ? ?].
Qed.

(** The handler on a frame that only asks for an acknowledgement. *)
Lemma _on_message_ack (w : world) (sock : WebSocketApp) (message : bytes) l pp :
  parse_danmu_message message = Ok (Some (ack_result l pp)) ->
  _on_message sock message w =
    (Ok tt,
     {| self := if (0 <? String.length message)%nat
                then put_last_danmu_time (clock w) (self w) else self w;
        files := files w; clock := clock w;
        trace := trace w ++
                 [match ws_send sock (create_ack_frame l (internalExt pp)) with
                  | Ok _ => Send (create_ack_frame l (internalExt pp))
                  | Raise _ => Log DEBUG "sending ACK failed"
                  end] |}).
Proof.
  intros Hp. destruct (ack_result_fields l pp) as (Ht & Hu & Hn & Hl & He).
  unfold _on_message. py_run. rewrite Hp. cbn. rewrite Ht, Hu. cbn.
  unfold dict_get. rewrite Hn, Hl, He. cbn.
  destruct (ws_send sock (create_ack_frame l (internalExt pp))); cbn;
    by destruct (String.length message).
Qed.

(** C9.  A frame whose batch has a first chat message [m].  The result
    of [parse_danmu_message] is made from [m] and from the log id, the
    acknowledgement flag and the extension of the frame, and from nothing
    else: the messages [post] after [m], chat messages included, are not
    decoded and none of their content is in it.  [_on_message] hands the
    name and the text of [m] to the writer in one call of [write_danmu],
    and nothing else; when [m] does not decode, or its user has no name,
    nothing is written at all.  So a frame counts at most one comment. *)
Theorem first_chat_message_only (w : world) (sock : WebSocketApp)
    (message : bytes) (frame : PushFrame) (body : bytes) (batch : Response)
    (pre post : list Message) (m : Message) :
  PushFrame_ParseFromString message = Ok frame ->
  gzip_decompress (payload frame) = Ok body ->
  Response_ParseFromString body = Ok batch ->
  messagesList batch = pre ++ m :: post ->
  forallb (fun x => negb (is_chat x)) pre = true ->
  is_chat m = true ->
  match Res.bind (ChatMessage_ParseFromString (msg_payload m)) MessageToDict with
  | Ok data =>
      parse_danmu_message message =
        Ok (Some (<["user" := dict_get data "user" (VDict ∅)]>
                  (<["content" := dict_get data "content" (VStr "")]>
                  (<["logid" := VInt (logid frame)]>
                  (<["needAck" := VBool (needAck batch)]>
                  (<["internalExt" := VStr (internalExt batch)]> ∅)))))) /\
      _on_message sock message w =
        match subscript (dict_get data "user" (VDict ∅)) "nickName" with
        | Ok nick =>
            let w1 := snd (write_danmu (py_str nick)
                             (py_str (dict_get data "content" (VStr ""))) (clock w) w) in
            (Ok tt, {| self := put_last_danmu_time (clock w) (self w1);
                       files := files w1; clock := clock w1;
                       trace := trace w1 ++ [Log DEBUG "danmu"] |})
        | Raise _ =>
            (Ok tt, {| self := self w; files := files w; clock := clock w;
                       trace := trace w ++ [Log ERROR "handling danmu message failed"] |})
        end
  | Raise _ =>
      parse_danmu_message message = Ok None /\
      _on_message sock message w =
        (Ok tt,
         {| self := if (0 <? String.length message)%nat
                    then put_last_danmu_time (clock w) (self w) else self w;
            files := files w; clock := clock w; trace := trace w |})
  end
  /\ danmu_amount (self (snd (_on_message sock message w))) <= danmu_amount (self w) + 1.
Proof.
  intros Hf Hz Hb Hl Hpre Hm. split; [|apply _on_message_amount].
  assert (envelope message = Ok (frame, batch)) as He.
  { unfold envelope. rewrite Hf. cbn. rewrite Hz. cbn. by rewrite Hb. }
  pose proof (parse_danmu_message_envelope message) as Hp.
  rewrite He, Hl, (for_messages_first_chat _ _ _ _ _ Hpre Hm) in Hp.
  destruct (Res.bind (ChatMessage_ParseFromString (msg_payload m)) MessageToDict)
    as [data|e].
  - split; [exact Hp|]. by apply (_on_message_chat _ _ _ _ (logid frame) batch).
  - split; [exact Hp|]. by apply _on_message_nothing.
Qed.

(** X1.  A frame whose batch carries a chat message is never
    acknowledged: whatever the batch says in [needAck], and whether the
    comment could be written or not, [_on_message] returns without having
    sent anything; it has only logged. *)
Theorem chat_frame_never_acknowledged (w : world) (sock : WebSocketApp)
    (message : bytes) (frame : PushFrame) (batch : Response) :
  envelope message = Ok (frame, batch) ->
  existsb is_chat (messagesList batch) = true ->
  fst (_on_message sock message w) = Ok tt /\
  logs_only w (snd (_on_message sock message w)) /\
  sent (trace (snd (_on_message sock message w))) = sent (trace w).
Proof.
  intros He (pre & m & post & Hl & Hpre & Hm)%first_chat_split.
  assert (fst (_on_message sock message w) = Ok tt /\
          logs_only w (snd (_on_message sock message w))) as [Hr Hlog];
    [|by split; [|split; [|apply logs_only_sent]]].
  pose proof (parse_danmu_message_envelope message) as Hp.
  rewrite He, Hl, (for_messages_first_chat _ _ _ _ _ Hpre Hm) in Hp.
  destruct (Res.bind (ChatMessage_ParseFromString (msg_payload m)) MessageToDict)
    as [data|e].
  - rewrite (_on_message_chat _ _ _ _ _ _ Hp).
    destruct (subscript (dict_get data "user" (VDict ∅)) "nickName") as [user|e]; cbn.
    + split; [done|].
      destruct (write_danmu_logs_only (py_str user)
                  (py_str (dict_get data "content" (VStr ""))) (clock w) w)
        as (tr & Htr & Hlogs).
      exists (tr ++ [Log DEBUG "danmu"]). cbn. rewrite Htr, <- app_assoc.
      split; [done|]. by rewrite forallb_app, Hlogs.
    + split; [done|]. by eexists [_].
  - rewrite (_on_message_nothing _ _ _ Hp). cbn. split; [done|].
    exists []. cbn. by rewrite app_nil_r.
Qed.

(** X2.  A frame without a chat message whose batch asks for an
    acknowledgement: [_on_message] makes one attempt to send
    [create_ack_frame] of the frame's log id and the batch's extension.
    A failure of the send is logged and goes no further.  In both cases
    the call returns, no file changes, and of the recorder only the time
    of the last frame is set (for a frame that is not empty). *)
Theorem ack_only_frame_acknowledged (w : world) (sock : WebSocketApp)
    (message : bytes) (frame : PushFrame) (batch : Response) :
  envelope message = Ok (frame, batch) ->
  existsb is_chat (messagesList batch) = false ->
  needAck batch = true ->
  _on_message sock message w =
    (Ok tt,
     {| self := if (0 <? String.length message)%nat
                then put_last_danmu_time (clock w) (self w) else self w;
        files := files w; clock := clock w;
        trace := trace w ++
                 [match ws_send sock (create_ack_frame (logid frame) (internalExt batch)) with
                  | Ok _ => Send (create_ack_frame (logid frame) (internalExt batch))
                  | Raise _ => Log DEBUG "sending ACK failed"
                  end] |}).
Proof.
  intros He Hno Hack. apply _on_message_ack.
  by rewrite parse_danmu_message_envelope, He, (for_messages_no_chat _ _ _ Hno), Hack.
Qed.

(** X3.  A first chat message whose user has no [nickName] (protobuf
    leaves a field at its default out of the dict): the comment is
    dropped.  The call returns; no file and no attribute of the recorder
    changes, not even the time of the last frame; one error line is
    logged. *)
Theorem chat_without_nickname_dropped (w : world) (sock : WebSocketApp)
    (message : bytes) (frame : PushFrame) (batch : Response)
    (pre post : list Message) (m : Message) (data u : gmap string value) :
  envelope message = Ok (frame, batch) ->
  messagesList batch = pre ++ m :: post ->
  forallb (fun x => negb (is_chat x)) pre = true ->
  is_chat m = true ->
  Res.bind (ChatMessage_ParseFromString (msg_payload m)) MessageToDict = Ok data ->
  dict_get data "user" (VDict ∅) = VDict u ->
  u !! "nickName" = None ->
  _on_message sock message w =
    (Ok tt, {| self := self w; files := files w; clock := clock w;
               trace := trace w ++ [Log ERROR "handling danmu message failed"] |}).
Proof.
  intros He Hl Hpre Hm Hd Hu Hn.
  pose proof (parse_danmu_message_envelope message) as Hp.
  rewrite He, Hl, (for_messages_first_chat _ _ _ _ _ Hpre Hm), Hd in Hp.
  rewrite (_on_message_chat _ _ _ _ _ _ Hp), Hu. cbn. by rewrite Hn.
Qed.

(** X4.  From the frame to the file.  The first chat message of a frame
    decodes to a user with a [nickName]; a segment is open and its file
    holds a document: [_on_message] returns, the file holds the document
    with one more line, the comment line for the printed name and text,
    stamped with the instant at which the handler began and with the
    offset of that instant from the basis; the counter is one up and the
    time of the last comment is that instant.  Nothing is sent. *)
Theorem chat_frame_written (w : world) (sock : WebSocketApp)
    (message : bytes) (frame : PushFrame) (batch : Response)
    (pre post : list Message) (m : Message) (data u : gmap string value)
    (nick : value) (f : string) (b : Q) (ds : list string) (raw : string) :
  envelope message = Ok (frame, batch) ->
  messagesList batch = pre ++ m :: post ->
  forallb (fun x => negb (is_chat x)) pre = true ->
  is_chat m = true ->
  Res.bind (ChatMessage_ParseFromString (msg_payload m)) MessageToDict = Ok data ->
  dict_get data "user" (VDict ∅) = VDict u ->
  u !! "nickName" = Some nick ->
  active_file (self w) = Some f ->
  offset_basis (self w) = Some b ->
  files w !! path_join (output_dir (self w)) f = Some raw ->
  segment_document ds raw ->
  _on_message sock message w =
    (Ok tt,
     {| self := put_last_danmu_time (clock w)
                  (put_danmu_amount (danmu_amount (self w) + 1) (self w));
        files := <[path_join (output_dir (self w)) f :=
                     writelines (header_lines ++ ds ++
                       [danmu_line (clock w - b) (clock w) (py_str nick)
                          (py_str (dict_get data "content" (VStr "")));
                        close_tag_line])]> (files w);
        clock := clock w;
        trace := trace w ++ [Log DEBUG "danmu"] |}).
Proof.
  intros He Hl Hpre Hm Hd Hu Hn Ha Hb Hf Hdoc.
  pose proof (parse_danmu_message_envelope message) as Hp.
  rewrite He, Hl, (for_messages_first_chat _ _ _ _ _ Hpre Hm), Hd in Hp.
  rewrite (_on_message_chat _ _ _ _ _ _ Hp), Hu. cbn. rewrite Hn.
  rewrite (write_danmu_append _ _ _ _ _ _ _ _ Ha Hb Hf Hdoc). cbn.
  by destruct w as [[] ? ? ?].
Qed.

(** X5.  A frame that cannot be decoded (the push frame, the
    decompression or the batch fails), and likewise a frame whose first
    chat message cannot be decoded: [_on_message] returns, sends nothing,
    logs nothing and changes no file; all it does is to take the frame,
    when it is not empty, as a sign of life: the time of the last frame is
    set. *)
Theorem undecodable_frame_ignored (w : world) (sock : WebSocketApp)
    (message : bytes) (e : exn) :
  envelope message = Raise e \/
  (exists frame batch pre m post,
     envelope message = Ok (frame, batch) /\
     messagesList batch = pre ++ m :: post /\
     forallb (fun x => negb (is_chat x)) pre = true /\
     is_chat m = true /\
     Res.bind (ChatMessage_ParseFromString (msg_payload m)) MessageToDict = Raise e) ->
  _on_message sock message w =
    (Ok tt,
     {| self := if (0 <? String.length message)%nat
                then put_last_danmu_time (clock w) (self w) else self w;
        files := files w; clock := clock w; trace := trace w |}).
Proof.
  intros Hfail. apply _on_message_nothing. rewrite parse_danmu_message_envelope.
  destruct Hfail as [->|(frame & batch & pre & m & post & -> & Hl & Hpre & Hm & Hd)];
    [done|].
  by rewrite Hl, (for_messages_first_chat _ _ _ _ _ Hpre Hm), Hd.
Qed.
End InboundFacts.

(* ===================================================================== *)
(** * Further properties: the writer on any file *)
(* ===================================================================== *)

Lemma app_empty_r s : s +:+ "" = s.
Proof. induction s as [|c s IH]; [done|]. by rewrite app_cons, IH. Qed.

Lemma writelines_app ls1 ls2 : writelines (ls1 ++ ls2) = writelines ls1 +:+ writelines ls2.
Proof.
  induction ls1 as [|l ls1 IH]; [done|].
  cbn [app]. by rewrite !writelines_cons, IH, app_assoc_s.
Qed.

(** Cutting a text into lines loses nothing. *)
Lemma writelines_split_keepends t : writelines (split_keepends t) = t.
Proof.
  induction t as [|c t IH]; [done|]. cbn [split_keepends].
  destruct (Ascii.eqb c LF).
  - by rewrite writelines_cons, IH.
  - destruct (split_keepends t) as [|l ls]; cbn in *; by rewrite <- IH.
Qed.

(** Reading goes line by line: what stands behind a line feed is read on
    its own. *)
Lemma universal_newlines_lf a :
  exists b, universal_newlines (a +:+ String LF "") = b +:+ String LF "".
Proof.
  induction a as [|c a IH]; [by exists ""|].
  destruct IH as [b IH]. rewrite app_cons. cbn [universal_newlines].
  destruct (Ascii.eqb c CR).
  - destruct a as [|c' a'].
    + by exists "".
    + rewrite app_cons in *. destruct (Ascii.eqb c' LF).
      * by exists b.
      * exists (String LF b). by rewrite IH.
  - exists (String c b). by rewrite IH.
Qed.

Lemma universal_newlines_app_lf a b :
  universal_newlines (a +:+ String LF b) =
    universal_newlines (a +:+ String LF "") +:+ universal_newlines b.
Proof.
  induction a as [|c a IH]; [done|].
  rewrite !app_cons. cbn [universal_newlines].
  destruct (Ascii.eqb c CR).
  - destruct a as [|c' a'].
    + done.
    + rewrite !app_cons in *. destruct (Ascii.eqb c' LF).
      * exact IH.
      * by rewrite IH.
  - by rewrite IH.
Qed.

Lemma split_keepends_lf_nonempty a : split_keepends (a +:+ String LF "") <> [].
Proof.
  induction a as [|c a IH]; [done|]. rewrite app_cons. cbn [split_keepends].
  destruct (Ascii.eqb c LF); [done|].
  by destruct (split_keepends (a +:+ String LF "")).
Qed.

Lemma split_keepends_app_lf a b :
  split_keepends (a +:+ String LF b) =
    split_keepends (a +:+ String LF "") ++ split_keepends b.
Proof.
  induction a as [|c a IH]; [done|].
  rewrite !app_cons. cbn [split_keepends].
  destruct (Ascii.eqb c LF); [by rewrite IH|].
  rewrite IH. pose proof (split_keepends_lf_nonempty a) as Hne.
  by destruct (split_keepends (a +:+ String LF "")).
Qed.

Lemma readlines_app_lf a b :
  readlines (a +:+ String LF b) = readlines (a +:+ String LF "") ++ readlines b.
Proof.
  unfold readlines. rewrite universal_newlines_app_lf.
  destruct (universal_newlines_lf a) as [a' ->].
  rewrite app_assoc_s, app_cons, app_empty_l.
  apply split_keepends_app_lf.
Qed.

(** Every line that [readlines] yields is read back as that one line. *)
Lemma split_keepends_single t :
  Forall (fun l => split_keepends l = [l]) (split_keepends t).
Proof.
  induction t as [|c t IH]; [by constructor|]. cbn [split_keepends].
  destruct (Ascii.eqb c LF) eqn:Hc.
  - constructor; [|done]. cbn. by rewrite Hc.
  - destruct (split_keepends t) as [|l ls].
    + constructor; [|done]. cbn. by rewrite Hc.
    + inversion IH as [|? ? Hl Hls]; subst. constructor; [|done].
      cbn [split_keepends]. by rewrite Hc, Hl.
Qed.

Lemma no_cr_universal_newlines s : no_cr (universal_newlines s) = true.
Proof.
  induction s as [|c s IH]; [done|]. cbn [universal_newlines].
  destruct (Ascii.eqb c CR) eqn:Hc.
  - destruct s as [|c' s']; [done|].
    destruct (Ascii.eqb c' LF); [done|]. cbn [no_cr]. by rewrite IH.
  - cbn [no_cr]. by rewrite Hc, IH.
Qed.

Lemma no_cr_split_keepends t :
  no_cr t = true -> Forall (fun l => no_cr l = true) (split_keepends t).
Proof.
  induction t as [|c t IH]; [by constructor|].
  cbn [no_cr split_keepends]. intros [Hc Ht]%andb_prop.
  specialize (IH Ht). destruct (Ascii.eqb c LF).
  - constructor; [|done]. cbn. by rewrite Hc.
  - destruct (split_keepends t) as [|l ls].
    + constructor; [|done]. cbn. by rewrite Hc.
    + inversion IH as [|? ? Hl Hls]; subst. constructor; [|done].
      cbn [no_cr]. by rewrite Hc, Hl.
Qed.

Lemma readlines_single raw l : l ∈ readlines raw -> readlines l = [l].
Proof.
  unfold readlines. intros Hl.
  pose proof (split_keepends_single (universal_newlines raw)) as H1.
  pose proof (no_cr_split_keepends _ (no_cr_universal_newlines raw)) as H2.
  rewrite Forall_forall in H1, H2.
  rewrite universal_newlines_id by by apply H2.
  by apply H1.
Qed.

Lemma writelines_readlines raw : writelines (readlines raw) = universal_newlines raw.
Proof. apply writelines_split_keepends. Qed.

(** A comment line ends with a line feed, whatever its texts are. *)
Lemma danmu_line_ends second ts user content :
  exists body, danmu_line second ts user content = body +:+ String LF "".
Proof. unfold danmu_line. repeat rewrite <- app_assoc_s. by eexists. Qed.

(** ** Texts in UTF-8 *)

(** The tests on a byte, as arithmetic. *)
Ltac byte_ranges :=
  unfold byte_in in *; cbv zeta in *;
  repeat match goal with
         | H : _ && _ = true |- _ => apply andb_prop in H as [? ?]
         | H : _ || _ = true |- _ => apply orb_prop in H as [?|?]
         | H : _ && _ = false |- _ => apply andb_false_iff in H as [?|?]
         | H : _ || _ = false |- _ => apply orb_false_elim in H as [? ?]
         | H : (_ <=? _) = true |- _ => apply Z.leb_le in H
         | H : (_ <=? _) = false |- _ => apply Z.leb_gt in H
         end.

Lemma utf8_valid_text s : utf8_valid s = true -> utf8_text s.
Proof.
  remember (String.length s) as n eqn:Hn.
  revert s Hn. induction (lt_wf n) as [n _ IH]. intros s -> Hs.
  assert (forall t, (String.length t < String.length s)%nat ->
            utf8_valid t = true -> utf8_text t) as IH'.
  { intros t Ht. by apply (IH (String.length t)). }
  clear IH.
  destruct s as [|c s1]; [constructor|]. cbn [utf8_valid] in Hs.
  destruct (byte_in 0 127 c) eqn:H1.
  { apply utf8_one; [done|]. apply IH'; [cbn; lia|done]. }
  destruct s1 as [|c1 s2]; [done|].
  destruct (byte_in 194 223 c) eqn:H2.
  { apply andb_prop in Hs as [Hc1 Hs]. apply utf8_two; [done..|].
    apply IH'; [cbn; lia|done]. }
  destruct s2 as [|c2 s3]; [done|].
  destruct (byte_in 224 224 c) eqn:H3.
  { apply andb_prop in Hs as [[Hc1 Hc2]%andb_prop Hs].
    apply utf8_three; [by rewrite H3, Hc1|done|]. apply IH'; [cbn; lia|done]. }
  destruct (byte_in 225 236 c || byte_in 238 239 c) eqn:H4.
  { apply andb_prop in Hs as [[Hc1 Hc2]%andb_prop Hs].
    apply utf8_three; [by rewrite H3, H4, Hc1|done|]. apply IH'; [cbn; lia|done]. }
  destruct (byte_in 237 237 c) eqn:H5.
  { apply andb_prop in Hs as [[Hc1 Hc2]%andb_prop Hs].
    apply utf8_three; [by rewrite H3, H4, H5, Hc1|done|]. apply IH'; [cbn; lia|done]. }
  destruct s3 as [|c3 s4]; [done|].
  destruct (byte_in 240 240 c) eqn:H6.
  { apply andb_prop in Hs as [[[Hc1 Hc2]%andb_prop Hc3]%andb_prop Hs].
    apply utf8_four; [by rewrite H6, Hc1|done..|]. apply IH'; [cbn; lia|done]. }
  destruct (byte_in 241 243 c) eqn:H7.
  { apply andb_prop in Hs as [[[Hc1 Hc2]%andb_prop Hc3]%andb_prop Hs].
    apply utf8_four; [by rewrite H6, H7, Hc1|done..|]. apply IH'; [cbn; lia|done]. }
  destruct (byte_in 244 244 c) eqn:H8; [|done].
  apply andb_prop in Hs as [[[Hc1 Hc2]%andb_prop Hc3]%andb_prop Hs].
  apply utf8_four; [by rewrite H6, H7, H8, Hc1|done..|]. apply IH'; [cbn; lia|done].
Qed.

Lemma utf8_text_valid s : utf8_text s -> utf8_valid s = true.
Proof.
  induction 1 as [|c s Hc _ IH|c c1 s Hc Hc1 _ IH|c c1 c2 s Hc Hc2 _ IH
                 |c c1 c2 c3 s Hc Hc2 Hc3 _ IH]; cbn [utf8_valid].
  - done.
  - by rewrite Hc.
  - replace (byte_in 0 127 c) with false by (symmetry; apply not_true_is_false; intros ?; byte_ranges; lia).
    by rewrite Hc, Hc1.
  - replace (byte_in 0 127 c) with false
      by (symmetry; apply not_true_is_false; intros ?; byte_ranges; lia).
    replace (byte_in 194 223 c) with false
      by (symmetry; apply not_true_is_false; intros ?; byte_ranges; lia).
    rewrite Hc2, IH, !andb_true_r.
    destruct (byte_in 224 224 c) eqn:H3.
    { destruct (byte_in 160 191 c1) eqn:E; [done|]. byte_ranges; lia. }
    destruct (byte_in 225 236 c || byte_in 238 239 c) eqn:H4.
    { destruct (byte_in 128 191 c1) eqn:E; [done|]. byte_ranges; lia. }
    destruct (byte_in 237 237 c) eqn:H5.
    { destruct (byte_in 128 159 c1) eqn:E; [done|]. byte_ranges; lia. }
    cbn in Hc. by rewrite ?andb_false_l in Hc.
  - replace (byte_in 0 127 c) with false
      by (symmetry; apply not_true_is_false; intros ?; byte_ranges; lia).
    replace (byte_in 194 223 c) with false
      by (symmetry; apply not_true_is_false; intros ?; byte_ranges; lia).
    replace (byte_in 224 224 c) with false
      by (symmetry; apply not_true_is_false; intros ?; byte_ranges; lia).
    replace (byte_in 225 236 c || byte_in 238 239 c) with false
      by (symmetry; apply not_true_is_false; intros ?; byte_ranges; lia).
    replace (byte_in 237 237 c) with false
      by (symmetry; apply not_true_is_false; intros ?; byte_ranges; lia).
    rewrite Hc2, Hc3, IH, !andb_true_r.
    destruct (byte_in 240 240 c) eqn:H3.
    { destruct (byte_in 144 191 c1) eqn:E; [done|]. byte_ranges; lia. }
    destruct (byte_in 241 243 c) eqn:H4.
    { destruct (byte_in 128 191 c1) eqn:E; [done|]. byte_ranges; lia. }
    destruct (byte_in 244 244 c) eqn:H5.
    { destruct (byte_in 128 143 c1) eqn:E; [done|]. byte_ranges; lia. }
    cbn in Hc. by rewrite ?andb_false_l in Hc.
Qed.

Lemma utf8_text_app a b : utf8_text a -> utf8_text b -> utf8_text (a +:+ b).
Proof.
  intros Ha Hb. induction Ha; rewrite ?app_cons; [done|..]; by constructor.
Qed.

(** A byte above the ASCII range is neither a line feed nor a carriage
    return. *)
Lemma high_byte_no_linebreak lo hi c :
  byte_in lo hi c = true -> 13 < lo ->
  Ascii.eqb c LF = false /\ Ascii.eqb c CR = false.
Proof.
  intros Hc Hlo. split; apply Ascii.eqb_neq; intros ->; byte_ranges.
  - change (Z.of_nat (nat_of_ascii LF)) with 10 in *. lia.
  - change (Z.of_nat (nat_of_ascii CR)) with 13 in *. lia.
Qed.

Ltac high_bytes :=
  repeat match goal with
         | H : byte_in ?lo ?hi ?c = true |- context [Ascii.eqb ?c LF] =>
             rewrite (proj1 (high_byte_no_linebreak lo hi c H ltac:(lia)))
         | H : byte_in ?lo ?hi ?c = true |- context [Ascii.eqb ?c CR] =>
             rewrite (proj2 (high_byte_no_linebreak lo hi c H ltac:(lia)))
         end.

(** The lead byte of a character of three or four bytes. *)
Lemma lead_byte_high (c c1 : ascii) (t : bool) :
  (byte_in 224 224 c && byte_in 160 191 c1 ||
   (byte_in 225 236 c || byte_in 238 239 c) && byte_in 128 191 c1 ||
   byte_in 237 237 c && byte_in 128 159 c1) = true \/
  (byte_in 240 240 c && byte_in 144 191 c1 ||
   byte_in 241 243 c && byte_in 128 191 c1 ||
   byte_in 244 244 c && byte_in 128 143 c1) = true ->
  byte_in 224 244 c = true /\ byte_in 128 191 c1 = true.
Proof.
  intros [Hc|Hc]; byte_ranges; split; apply andb_true_intro; split; apply Z.leb_le; lia.
Qed.

Lemma utf8_text_universal_newlines s : utf8_text s -> utf8_text (universal_newlines s).
Proof.
  induction 1 as [|c s Hc Hs IH|c c1 s Hc Hc1 _ IH|c c1 c2 s Hc Hc2 _ IH
                 |c c1 c2 c3 s Hc Hc2 Hc3 _ IH].
  - constructor.
  - cbn [universal_newlines]. destruct (Ascii.eqb c CR).
    + destruct s as [|c' s']; [by apply utf8_one|].
      destruct (Ascii.eqb c' LF); [done|]. by apply utf8_one.
    + by apply utf8_one.
  - cbn [universal_newlines]. high_bytes. by apply utf8_two.
  - destruct (lead_byte_high c c1 true (or_introl Hc)) as [Hl Hl1].
    cbn [universal_newlines]. high_bytes. by apply utf8_three.
  - destruct (lead_byte_high c c1 true (or_intror Hc)) as [Hl Hl1].
    cbn [universal_newlines]. high_bytes. by apply utf8_four.
Qed.

Lemma utf8_text_split_keepends t : utf8_text t -> Forall utf8_text (split_keepends t).
Proof.
  induction 1 as [|c s Hc Hs IH|c c1 s Hc Hc1 _ IH|c c1 c2 s Hc Hc2 _ IH
                 |c c1 c2 c3 s Hc Hc2 Hc3 _ IH].
  - constructor.
  - cbn [split_keepends]. destruct (Ascii.eqb c LF).
    + constructor; [|done]. apply utf8_one; [done|constructor].
    + destruct (split_keepends s) as [|l ls].
      * constructor; [|done]. apply utf8_one; [done|constructor].
      * inversion IH; subst. constructor; [|done]. by apply utf8_one.
  - cbn [split_keepends]. high_bytes.
    destruct (split_keepends s) as [|l ls].
    + constructor; [|done]. apply utf8_two; [done..|constructor].
    + inversion IH; subst. constructor; [|done]. by apply utf8_two.
  - destruct (lead_byte_high c c1 true (or_introl Hc)) as [Hl Hl1].
    cbn [split_keepends]. high_bytes.
    destruct (split_keepends s) as [|l ls].
    + constructor; [|done]. apply utf8_three; [done..|constructor].
    + inversion IH; subst. constructor; [|done]. by apply utf8_three.
  - destruct (lead_byte_high c c1 true (or_intror Hc)) as [Hl Hl1].
    cbn [split_keepends]. high_bytes.
    destruct (split_keepends s) as [|l ls].
    + constructor; [|done]. apply utf8_four; [done..|constructor].
    + inversion IH; subst. constructor; [|done]. by apply utf8_four.
Qed.

Lemma utf8_text_readlines raw : utf8_text raw -> Forall utf8_text (readlines raw).
Proof. intros Hraw. by apply utf8_text_split_keepends, utf8_text_universal_newlines. Qed.

Lemma utf8_text_writelines ls : Forall utf8_text ls -> utf8_text (writelines ls).
Proof.
  induction 1 as [|l ls Hl _ IH]; [constructor|].
  rewrite writelines_cons. by apply utf8_text_app.
Qed.

Lemma utf8_text_digit d s : 0 <= d < 10 -> utf8_text s -> utf8_text (String (digit d) s).
Proof.
  intros Hd Hs. apply utf8_one; [|done].
  assert (d = 0 \/ d = 1 \/ d = 2 \/ d = 3 \/ d = 4 \/ d = 5 \/ d = 6 \/ d = 7
          \/ d = 8 \/ d = 9) as Hcases by lia.
  repeat (destruct Hcases as [->|Hcases]; [reflexivity|]). by subst.
Qed.

Lemma utf8_text_digits fuel n acc : utf8_text acc -> utf8_text (digits fuel n acc).
Proof.
  revert n acc. induction fuel as [|fuel IH]; intros n acc Hacc; [done|].
  cbn [digits].
  assert (utf8_text (String (digit (n mod 10)) acc)) as Hacc'.
  { apply utf8_text_digit; [|done]. apply Z.mod_pos_bound. lia. }
  destruct (n <? 10); [done|]. by apply IH.
Qed.

Lemma utf8_text_str_nat n : utf8_text (str_nat n).
Proof. apply utf8_text_digits. constructor. Qed.

Lemma utf8_text_str_int z : utf8_text (str_int z).
Proof.
  unfold str_int. destruct (z <? 0); [|apply utf8_text_str_nat].
  apply utf8_text_app; [by apply utf8_valid_text|apply utf8_text_str_nat].
Qed.

Lemma utf8_text_repr_round2 x : utf8_text (repr_round2 x).
Proof.
  unfold repr_round2.
  assert (0 <= Z.abs (round2 x) `mod` 100 < 100) as Hf by (apply Z.mod_pos_bound; lia).
  set (f := Z.abs (round2 x) `mod` 100) in *.
  repeat apply utf8_text_app.
  - by destruct (Qnum x <? 0); apply utf8_valid_text.
  - apply utf8_text_str_nat.
  - by apply utf8_valid_text.
  - destruct (f `mod` 10 =? 0); [apply utf8_text_str_nat|].
    apply utf8_text_digit.
    + split; [apply Z.div_pos; lia | apply Z.div_lt_upper_bound; lia].
    + apply utf8_text_digit; [|constructor]. apply Z.mod_pos_bound. lia.
Qed.

(** A comment line for a name and a text in UTF-8 is in UTF-8. *)
Lemma utf8_text_danmu_line second ts user content :
  utf8_text user -> utf8_text content -> utf8_text (danmu_line second ts user content).
Proof.
  intros Hu Hc. unfold danmu_line.
  pose proof (utf8_text_repr_round2 second) as Hoffset.
  pose proof (utf8_text_str_int (py_int (ts * 1000))) as Hstamp.
  set (offset := repr_round2 second) in *.
  set (stamp := str_int (py_int (ts * 1000))) in *.
  clearbody offset stamp.
  repeat apply utf8_text_app; first [ assumption | by apply utf8_valid_text ].
Qed.

Lemma utf8_text_insert_danmu_line ls line :
  Forall utf8_text ls -> utf8_text line -> Forall utf8_text (insert_danmu_line ls line).
Proof.
  intros Hls Hline.
  assert (Forall utf8_text (ls ++ [line; close_tag_line])) as Happend.
  { apply Forall_app. split; [done|].
    apply List.Forall_cons; [done|].
    apply List.Forall_cons; [by apply utf8_valid_text|]. apply List.Forall_nil. }
  unfold insert_danmu_line. destruct (last ls) as [l|]; [|done].
  destruct (String.eqb (strip l) "</i>"); [|done].
  unfold py_insert. apply Forall_app. split.
  - by apply Forall_take.
  - constructor; [done|]. by apply Forall_drop.
Qed.

Section WriterOnAnyFile.
Context `{Platform}.

(** X6.  An append to an existing file of an open segment, for a file
    that holds UTF-8 text, whatever that text is, and for a user name and
    a content that are texts, whatever they are (line breaks and markup
    included): the call returns, and afterwards the last line of the file
    is the closing tag, with or without white space around it.  The file
    holds UTF-8 text again and the segment is open as before, so the same
    is true after every further append: each one finds the tag and puts
    its line in front of it. *)
Theorem write_danmu_closing_tag_last (w : world) user content ts f b raw :
  active_file (self w) = Some f ->
  offset_basis (self w) = Some b ->
  files w !! path_join (output_dir (self w)) f = Some raw ->
  utf8_valid raw = true ->
  utf8_valid user = true ->
  utf8_valid content = true ->
  exists w' raw' l,
    write_danmu user content ts w = (Ok tt, w') /\
    files w' !! path_join (output_dir (self w')) f = Some raw' /\
    last (readlines raw') = Some l /\
    strip l = "</i>" /\
    utf8_valid raw' = true /\
    active_file (self w') = Some f /\
    offset_basis (self w') = Some b.
Proof.
  intros Ha Hb Hf Hraw Huser Hcontent.
  rewrite (write_danmu_open _ _ _ _ _ _ Ha Hb), Hf.
  assert (utf8_valid (writelines (insert_danmu_line (readlines raw)
                        (danmu_line (ts - b) ts user content))) = true) as Hvalid.
  { apply utf8_text_valid, utf8_text_writelines, utf8_text_insert_danmu_line.
    - by apply utf8_text_readlines, utf8_valid_text.
    - apply utf8_text_danmu_line; by apply utf8_valid_text. }
  assert (exists l,
    last (readlines (writelines (insert_danmu_line (readlines raw)
                       (danmu_line (ts - b) ts user content)))) = Some l /\
    strip l = "</i>") as (l & Hlast & Hl).
  { destruct (danmu_line_ends (ts - b) ts user content) as [body Hline].
    unfold insert_danmu_line.
    destruct (last (readlines raw)) as [l|] eqn:Hlast.
    - destruct (String.eqb (strip l) "</i>") eqn:Hl.
      + apply String.eqb_eq in Hl.
        apply last_Some in Hlast as [init Hinit].
        assert (readlines l = [l]) as Hsingle.
        { apply (readlines_single raw). rewrite Hinit. set_solver. }
        rewrite Hinit, py_insert_before_last.
        exists l. split; [|done].
        rewrite writelines_app, !writelines_cons, Hline.
        change (writelines []) with "". rewrite app_empty_r.
        rewrite (app_assoc_s body), app_cons, app_empty_l, <- app_assoc_s.
        by rewrite readlines_app_lf, Hsingle, last_snoc.
      + exists close_tag_line. split; [|done].
        rewrite writelines_app, !writelines_cons, Hline.
        change (writelines []) with "". rewrite app_empty_r.
        rewrite (app_assoc_s body), app_cons, app_empty_l, <- app_assoc_s.
        rewrite readlines_app_lf.
        replace (readlines close_tag_line) with [close_tag_line] by reflexivity.
        by rewrite last_snoc.
    - exists close_tag_line. split; [|done].
      rewrite writelines_app, !writelines_cons, Hline.
      change (writelines []) with "". rewrite app_empty_r.
      rewrite (app_assoc_s body), app_cons, app_empty_l, <- app_assoc_s.
      rewrite readlines_app_lf.
      replace (readlines close_tag_line) with [close_tag_line] by reflexivity.
      by rewrite last_snoc. }
  eexists _, _, l. split; [reflexivity|]. cbn [self files].
  split.
  { replace (output_dir (put_last_danmu_time ts
               (put_danmu_amount (danmu_amount (self w) + 1) (self w))))
      with (output_dir (self w)) by by destruct (self w).
    apply lookup_insert_eq. }
  split; [exact Hlast|]. split; [exact Hl|]. split; [exact Hvalid|].
  by rewrite counted_active_file, counted_offset_basis.
Qed.

(** X7.  An append takes nothing out of a file of UTF-8 text.  When the
    last line of the file is the closing tag (with or without white space
    around it), the new text is the old text with the comment line put in
    front of that last line.  When it is not, or the file is empty, the
    new text is the old text followed by the comment line and a closing
    tag.  The line ends of the old text are read as line feeds.  Every
    other file is as it was. *)
Theorem write_danmu_keeps_text (w : world) user content ts f b raw :
  active_file (self w) = Some f ->
  offset_basis (self w) = Some b ->
  files w !! path_join (output_dir (self w)) f = Some raw ->
  utf8_valid raw = true ->
  utf8_valid user = true ->
  utf8_valid content = true ->
  let line := danmu_line (ts - b) ts user content in
  let w' := snd (write_danmu user content ts w) in
  (forall init l,
     readlines raw = init ++ [l] -> strip l = "</i>" ->
     universal_newlines raw = writelines init +:+ l /\
     files w' =
       <[path_join (output_dir (self w)) f := writelines init +:+ line +:+ l]> (files w)) /\
  ((forall init l, readlines raw = init ++ [l] -> strip l <> "</i>") ->
   files w' =
     <[path_join (output_dir (self w)) f :=
         universal_newlines raw +:+ line +:+ close_tag_line]> (files w)).
Proof.
  intros Ha Hb Hf _ _ _. cbn zeta.
  rewrite (write_danmu_open _ _ _ _ _ _ Ha Hb), Hf. cbn [snd files].
  pose proof (writelines_readlines raw) as Hraw.
  unfold insert_danmu_line. split.
  - intros init l Hinit Hl. rewrite Hinit in *. rewrite last_snoc, Hl.
    rewrite String.eqb_refl, py_insert_before_last.
    rewrite writelines_app in Hraw. cbn in Hraw. rewrite app_empty_r in Hraw.
    split; [done|]. rewrite writelines_app, !writelines_cons.
    change (writelines []) with "". by rewrite app_empty_r.
  - intros Hno.
    destruct (last (readlines raw)) as [l|] eqn:Hlast.
    + apply last_Some in Hlast as [init Hinit].
      specialize (Hno init l Hinit).
      apply String.eqb_neq in Hno. rewrite Hno.
      by rewrite writelines_app, Hraw, !writelines_cons.
    + by rewrite writelines_app, Hraw, !writelines_cons.
Qed.

(** X8.  The first comment of a recorder whose output directory already
    holds a file with the name of its video (the file of an earlier
    recording of a video of that name), for texts free of line breaks:
    [write_danmu] opens that file for writing and leaves in it a complete
    document with the one new comment line.  What the file held before is
    gone.  The segment is open, its offsets count from the instant of the
    call, and the segment index has gone up by one, with segmentation
    enabled or not. *)
Theorem first_comment_replaces_existing_file (w : world) user content ts i v old :
  active_file (self w) = None ->
  segment_index (self w) = Some i ->
  video_filename (self w) = Some v ->
  v <> "" ->
  Qnum (clock w) <> 0 ->
  no_linebreak user = true ->
  no_linebreak content = true ->
  files w !! path_join (output_dir (self w)) (stem v +:+ ".xml") = Some old ->
  exists w',
    write_danmu user content ts w = (Ok tt, w') /\
    active_file (self w') = Some (stem v +:+ ".xml") /\
    offset_basis (self w') = Some (clock w) /\
    segment_index (self w') = Some (i + 1) /\
    danmu_amount (self w') = danmu_amount (self w) + 1 /\
    files w' =
      <[path_join (output_dir (self w)) (stem v +:+ ".xml") :=
          writelines (header_lines ++
                      [danmu_line (ts - clock w) ts user content; close_tag_line])]>
        (files w) /\
    segment_document [danmu_line (ts - clock w) ts user content]
      (writelines (header_lines ++
                   [danmu_line (ts - clock w) ts user content; close_tag_line])) /\
    d_line_count (writelines (header_lines ++
                    [danmu_line (ts - clock w) ts user content; close_tag_line])) = 1%nat /\
    dom (files w') = dom (files w).
Proof.
  intros Ha Hi Hv Hne Hck Hu Hc Hold.
  assert (truthy_float (Some (clock w)) = true) as Hckt
    by by apply negb_true_iff, Z.eqb_neq.
  pose proof (danmu_line_proper (ts - clock w) ts _ _ Hu Hc) as Hline.
  pose proof (segment_document_snoc [] _ eq_refl Hline) as Hdoc.
  cbn [app] in Hdoc.
  eexists.
  rewrite (write_danmu_first _ _ _ _ _ _ Ha Hi Hv Hne Hck).
  split; [reflexivity|]. cbn [self files].
  split; [unfold active_file; cbn; by rewrite xml_name_truthy|].
  split; [unfold offset_basis; cbn; by rewrite xml_name_truthy, Hckt|].
  split; [done|].
  split; [done|].
  split; [by rewrite insert_insert_eq|].
  split; [exact Hdoc|].
  split.
  - unfold d_line_count. rewrite (segment_document_readlines _ _ Hdoc).
    rewrite !List.filter_app. cbn [app].
    replace (List.filter is_d_line header_lines) with (@nil string) by reflexivity.
    replace (List.filter is_d_line [danmu_line (ts - clock w) ts user content])
      with [danmu_line (ts - clock w) ts user content] by reflexivity.
    replace (List.filter is_d_line [close_tag_line]) with (@nil string) by reflexivity.
    reflexivity.
  - rewrite insert_insert_eq. apply set_eq. intros p.
    rewrite dom_insert, elem_of_union, elem_of_singleton.
    split; [|by right]. intros [->|Hp]; [|done]. by apply elem_of_dom.
Qed.
End WriterOnAnyFile.

(* ===================================================================== *)
(** * Further properties: the life of a recorder *)
(* ===================================================================== *)

Arguments segment_checker : simpl never.
Arguments _heartbeat : simpl never.

Section Invariant.
Context `{Codec} `{Platform}.

(** A property of the attributes that every assignment of the methods
    keeps: any assignment to an attribute other than [retry] and
    [stop_signal], setting [stop_signal], and counting a retry below the
    bound. *)
Variable P : Recorder -> Prop.

Hypothesis P_put : forall st, P st ->
  (forall v, P (put_room_real_id v st)) /\
  (forall v, P (put_video_filename v st)) /\
  (forall v, P (put_start_time v st)) /\
  (forall v, P (put_start_time_t v st)) /\
  (forall v, P (put_ws v st)) /\
  P (put_stop_signal true st) /\
  (forall v, P (put_danmu_amount v st)) /\
  (forall v, P (put_last_danmu_time v st)) /\
  (forall v, P (put_filename v st)) /\
  (forall v, P (put_segment_index v st)) /\
  (forall v, P (put_segment_start_time v st)) /\
  (forall v, P (put_current_segment_file v st)).

Hypothesis P_retry : forall st st', P st -> P st' ->
  (retry st <? max_retry st) = true -> P (put_retry (retry st + 1) st').

Ltac invariant_steps :=
  keeps_steps;
  try match goal with
      | Hst : P ?st |- P (put_retry _ ?st) => solve [ by apply P_retry ]
      | Hst : P ?st |- P _ => solve [ apply (P_put _ Hst) ]
      end.

Lemma generate_filename_keeps idx : method_keeps P (generate_filename idx).
Proof. unfold generate_filename. invariant_steps. Qed.

Lemma create_danmu_file_keeps name : method_keeps P (create_danmu_file name).
Proof. unfold create_danmu_file. invariant_steps. Qed.

Lemma close_danmu_file_keeps name : method_keeps P (close_danmu_file name).
Proof. unfold close_danmu_file. invariant_steps. Qed.

Lemma set_video_filename_keeps name : method_keeps P (set_video_filename name).
Proof. unfold set_video_filename. invariant_steps. Qed.

Lemma write_danmu_keeps user content ts : method_keeps P (write_danmu user content ts).
Proof.
  unfold write_danmu, write_danmu_ensure_file, write_danmu_locked, incr_segment_index.
  invariant_steps.
  all: first [apply generate_filename_keeps | apply create_danmu_file_keeps].
Qed.

Lemma start_new_segment_keeps : method_keeps P start_new_segment.
Proof.
  unfold start_new_segment, incr_segment_index. invariant_steps.
  all: first [apply generate_filename_keeps | apply create_danmu_file_keeps
             | apply close_danmu_file_keeps].
Qed.

Lemma start_keeps room_json enable_segment segment_time :
  method_keeps P (start room_json enable_segment segment_time).
Proof. unfold start. invariant_steps. Qed.

Lemma stop_keeps : method_keeps P stop.
Proof. unfold stop. invariant_steps. Qed.

Lemma _on_open_keeps sock : method_keeps P (_on_open sock).
Proof. unfold _on_open. invariant_steps. Qed.

Lemma _on_message_keeps sock message : method_keeps P (_on_message sock message).
Proof. unfold _on_message. invariant_steps. all: apply write_danmu_keeps. Qed.

Lemma _on_error_keeps sock error : method_keeps P (_on_error sock error).
Proof. unfold _on_error. invariant_steps. Qed.

Lemma _on_close_keeps sock : method_keeps P (_on_close sock).
Proof. unfold _on_close. invariant_steps. all: apply close_danmu_file_keeps. Qed.

Lemma segment_checker_loop_keeps rounds segment_time :
  keeps P (segment_checker_loop rounds segment_time).
Proof.
  induction rounds as [|rounds IH]; cbn [segment_checker_loop]; invariant_steps;
    first [exact IH | apply start_new_segment_keeps].
Qed.

Lemma _heartbeat_loop_keeps rounds sock t : keeps P (_heartbeat_loop rounds sock t).
Proof.
  revert t. induction rounds as [|rounds IH]; intros t; cbn [_heartbeat_loop];
    invariant_steps; apply IH.
Qed.

Lemma run_activity_keeps (a : activity) (w : world) :
  P (self w) -> P (self (run_activity a w)).
Proof.
  destruct a as [c|rounds sock|rounds segment_time]; cbn [run_activity].
  - destruct c as [name| |user content ts|room_json enable_segment segment_time| |sock
                  |sock message|sock error|sock|c];
      cbn [run_call].
    + apply set_video_filename_keeps.
    + apply start_new_segment_keeps.
    + apply write_danmu_keeps.
    + apply start_keeps.
    + apply stop_keeps.
    + apply _on_open_keeps.
    + apply _on_message_keeps.
    + apply _on_error_keeps.
    + apply _on_close_keeps.
    + done.
  - revert w. apply keeps_def, _heartbeat_loop_keeps.
  - revert w. apply keeps_def, segment_checker_loop_keeps.
Qed.

Lemma run_activities_keeps (acts : list activity) (w : world) :
  P (self w) -> P (self (run_activities acts w)).
Proof.
  unfold run_activities. revert w.
  induction acts as [|a acts IH]; intros w Hw; [done|].
  cbn [fold_left]. by apply IH, run_activity_keeps.
Qed.
End Invariant.

Section LifeFacts.
Context `{Codec} `{Platform}.

(** X10.  [stop] is final.  After [stop], whatever is done with the
    recorder, a new [start] included, the stop flag stays set; so every
    heartbeat loop and every segment checker returns at its next check,
    without a heartbeat, a sleep or a rotation. *)
Theorem stop_is_final (acts : list activity) (w : world) (rounds : nat)
    (sock : WebSocketApp) (segment_time : Z) :
  let w' := run_activities acts (snd (stop w)) in
  stop_signal (self w') = true /\
  _heartbeat (S rounds) sock w' = (Ok Returned, w') /\
  segment_checker (S rounds) segment_time w' = (Ok Returned, w').
Proof.
  cbn zeta.
  assert (stop_signal (self (run_activities acts (snd (stop w)))) = true) as Hs.
  { apply (run_activities_keeps (fun st => stop_signal st = true)).
    - intros st Hst. by destruct st.
    - intros st st' _ Hst' _. by destruct st'.
    - rewrite stop_eq. cbn. by destruct (ws (self w)), (self w). }
  split; [exact Hs|].
  unfold _heartbeat, segment_checker. cbn [_heartbeat_loop segment_checker_loop].
  py_run. by rewrite Hs.
Qed.

(** A rotation, once the video file name is known. *)
Lemma start_new_segment_eq (w : world) i v :
  segment_index (self w) = Some i ->
  video_filename (self w) = Some v ->
  v <> "" ->
  exists tr,
    start_new_segment w =
      (Ok tt,
       {| self := put_segment_index (Some (i + 1))
                    (put_segment_start_time (Some (clock w))
                       (put_current_segment_file (Some (stem v +:+ ".xml")) (self w)));
          files := <[path_join (output_dir (self w)) (stem v +:+ ".xml") := xml_template]>
                     (files w);
          clock := clock w;
          trace := trace w ++ tr |})
    /\ forallb is_log tr = true.
Proof.
  intros Hi Hv Hne.
  unfold start_new_segment. py_run.
  destruct (truthy_str (current_segment_file (self w))); cbn.
  - destruct (close_danmu_file_eq w (current_segment_file (self w))) as (tr & -> & Htr).
    cbn. erewrite generate_filename_set; [|exact Hv|exact Hne].
    rewrite xml_name_truthy. cbn.
    rewrite create_danmu_file_eq. cbn.
    unfold incr_segment_index. py_run. rewrite Hi. cbn.
    exists (tr ++ [Log INFO "danmu file created"; Log INFO "new danmu segment started"]).
    rewrite <- !app_assoc. split; [done|]. by rewrite forallb_app, Htr.
  - rewrite (generate_filename_set _ _ _ Hv Hne), xml_name_truthy. cbn.
    rewrite create_danmu_file_eq. cbn.
    unfold incr_segment_index. py_run. rewrite Hi. cbn.
    eexists [_; _]. by rewrite <- !app_assoc.
Qed.

(** X11.  A rotation while the file named after the video already
    exists, as it does when the video file name is still the one the open
    segment was named after: [generate_filename] gives the same name again
    (it does not use the segment index), and [create_danmu_file] opens
    that path for writing.  The file is replaced by the empty document:
    the comments recorded in it are gone.  No other file changes, and the
    segment index goes up although no new file exists. *)
Theorem rotation_without_new_name_erases (w : world) i v raw :
  segment_index (self w) = Some i ->
  video_filename (self w) = Some v ->
  v <> "" ->
  files w !! path_join (output_dir (self w)) (stem v +:+ ".xml") = Some raw ->
  exists w',
    start_new_segment w = (Ok tt, w') /\
    current_segment_file (self w') = Some (stem v +:+ ".xml") /\
    segment_index (self w') = Some (i + 1) /\
    files w' = <[path_join (output_dir (self w)) (stem v +:+ ".xml") := xml_template]>
                 (files w) /\
    d_line_count xml_template = 0%nat /\
    dom (files w') = dom (files w).
Proof.
  intros Hi Hv Hne Hf.
  destruct (start_new_segment_eq w i v Hi Hv Hne) as (tr & -> & _).
  eexists. split; [reflexivity|]. cbn.
  repeat split.
  apply set_eq. intros p. rewrite dom_insert, elem_of_union, elem_of_singleton.
  split; [|by right]. intros [->|Hp]; [|done]. by apply elem_of_dom.
Qed.

(** X12.  [start] on a room that the lookup did not find ([None]) or
    delivered as a JSON object: it never raises and never touches a file
    or the clock, whatever the signing of the URL does.  When the lookup
    failed, the room is not live, or the URL cannot be obtained, it
    returns [None], has only logged (no thread is started) and the socket
    attribute is what it was.  When it returns a thread, the room was
    live, the URL was obtained for the real id of the room, the socket
    attribute is a new application for that very URL, and the threads
    started are the socket thread and, with segmentation only, the
    segment checker. *)
Theorem start_outcomes (w : world) (room_json : option (gmap string value))
    (enable_segment : bool) (segment_time : Z) :
  let r := fst (start room_json enable_segment segment_time w) in
  let w' := snd (start room_json enable_segment segment_time w) in
  (exists t, r = Ok t) /\
  files w' = files w /\
  clock w' = clock w /\
  (room_json = None \/
   (exists room, room_json = Some room /\
      (py_ne_int (dict_get room "status" (VInt 0)) 2 = true \/
       exists e, get_danmu_ws_url (dict_get room "id_str" (VStr (room_id (self w))))
                 = Raise e)) ->
   r = Ok None /\ logs_only w w' /\ ws (self w') = ws (self w)) /\
  (forall t, r = Ok (Some t) ->
     t = WsThread /\
     exists room url,
       room_json = Some room /\
       py_ne_int (dict_get room "status" (VInt 0)) 2 = false /\
       get_danmu_ws_url (dict_get room "id_str" (VStr (room_id (self w)))) = Ok url /\
       ws (self w') = Some {| ws_url := url; keep_running := true |} /\
       effects (trace w') =
         effects (trace w) ++
         ThreadStart WsThread ::
         (if enable_segment then [ThreadStart (SegmentChecker segment_time)] else [])).
Proof.
  cbn zeta. unfold start. py_run.
  destruct room_json as [rj|]; cbn.
  - destruct (py_ne_int _ 2) eqn:Hlive; cbn.
    + split; [by eexists|]. split; [done|]. split; [done|]. split; [|done].
      intros _. split; [done|]. split; [|by destruct (self w)].
      eexists [_; _; _; _]. cbn. by rewrite <- !app_assoc.
    + destruct (start_time (self w)); cbn;
        destruct enable_segment; cbn;
        destruct (get_danmu_ws_url _) as [url|e] eqn:Hurl; cbn.
      all: split; [by eexists|]. 
      all: split; [done|]. 
      all: split; [done|]. 
      all: split.
      all: try (intros [[=]|(room & [= <-] & [?|[e' ?]])]; congruence).
      all: try (intros t [= <-]; split; [done|]; exists rj; eexists; 
                split; [done|]; split; [done|]; split; [done|]; split; [done|];
                unfold effects; rewrite !List.filter_app; cbn; rewrite ?app_nil_r;
                by rewrite <- ?app_assoc).
      all: try done.
      all: intros _; split; [done|]; split; [|by destruct (self w)];
           eexists; cbn; rewrite <- !app_assoc; cbn; split; [reflexivity|done].
  - split; [by eexists|]. split; [done|]. split; [done|]. split; [|done].
    intros _. split; [done|]. split; [|done].
    eexists [_; _; _]. cbn. by rewrite <- !app_assoc.
Qed.

(** X13.  A close after [stop]: the handler only logs.  No retry is
    counted, nothing sleeps, no file and no attribute changes; the
    finished file is named in the log when there is one. *)
Theorem _on_close_after_stop (w : world) (sock : WebSocketApp) :
  stop_signal (self w) = true ->
  exists tr,
    _on_close sock w =
      (Ok tt, {| self := self w; files := files w; clock := clock w;
                 trace := trace w ++ tr |})
    /\ forallb is_log tr = true.
Proof.
  intros Hs. unfold _on_close. py_run. rewrite Hs.
  destruct (truthy_str (current_segment_file (self w))); cbn.
  - match goal with |- context [close_danmu_file ?n ?w0] =>
      destruct (close_danmu_file_eq w0 n) as (tr & -> & Htr) end.
    cbn. exists ([Log INFO "danmu connection closed"] ++ tr ++
                 [Log INFO "danmu recording ended"]).
    rewrite <- !app_assoc. split; [done|]. cbn. by rewrite forallb_app, Htr.
  - destruct (truthy_str (filename (self w))); cbn.
    + match goal with |- context [close_danmu_file ?n ?w0] =>
        destruct (close_danmu_file_eq w0 n) as (tr & -> & Htr) end.
      cbn. exists ([Log INFO "danmu connection closed"] ++ tr ++
                   [Log INFO "danmu recording ended"]).
      rewrite <- !app_assoc. split; [done|]. cbn. by rewrite forallb_app, Htr.
    + eexists [_; _]. by rewrite <- !app_assoc.
Qed.
End LifeFacts.

(* ===================================================================== *)
(** * Further properties: the retry counter *)
(* ===================================================================== *)

#[local] Instance retries_counted_preorder : PreOrder retries_counted.
Proof.
  split.
  - intros w. unfold retries_counted. lia.
  - intros w1 w2 w3 [L1 E1] [L2 E2]. unfold retries_counted in *. lia.
Qed.

Lemma reconnect_waits_app tr1 tr2 :
  reconnect_waits (tr1 ++ tr2) = reconnect_waits tr1 + reconnect_waits tr2.
Proof.
  induction tr1 as [|e tr1 IH]; [by cbn|].
  cbn [app]. unfold reconnect_waits in *. cbn [foldr]. rewrite IH.
  destruct e; try lia. case_match; lia.
Qed.

Lemma reconnect_waits_snoc tr e :
  reconnect_waits (tr ++ [e]) =
    reconnect_waits tr + match e with
                         | Sleep n => if n =? 2 then 1 else 0
                         | _ => 0
                         end.
Proof.
  rewrite reconnect_waits_app. f_equal.
Qed.

Arguments reconnect_waits : simpl never.

(** The statements under [retries_counted]: every assignment but the one
    to [retry], every event but a sleep of 2 seconds. *)
Ltac retries_steps :=
  follows_steps; cbv zeta;
  try match goal with
      | |- follows retries_counted (Py.modify _) =>
          intros [[] ? ? ?]; unfold retries_counted; cbn; lia
      | |- follows retries_counted (Py.write_file _ _) =>
          intros ?; unfold retries_counted; cbn; lia
      | |- follows retries_counted (Py.emit _) =>
          intros ?; unfold retries_counted; cbn; rewrite reconnect_waits_snoc; cbn; lia
      | |- follows retries_counted (Py.log _ _) =>
          intros ?; unfold retries_counted; cbn; rewrite reconnect_waits_snoc; cbn; lia
      | |- follows retries_counted (Py.time_sleep 1) =>
          intros ?; unfold retries_counted; cbn; rewrite reconnect_waits_snoc; cbn; lia
      end.

Section RetryFacts.
Context `{Codec} `{Platform}.

Lemma generate_filename_retries idx : method_follows retries_counted (generate_filename idx).
Proof. unfold generate_filename. retries_steps. Qed.

Lemma create_danmu_file_retries name :
  method_follows retries_counted (create_danmu_file name).
Proof. unfold create_danmu_file. retries_steps. Qed.

Lemma close_danmu_file_retries name :
  method_follows retries_counted (close_danmu_file name).
Proof. unfold close_danmu_file. retries_steps. Qed.

Lemma write_danmu_retries user content ts :
  method_follows retries_counted (write_danmu user content ts).
Proof.
  unfold write_danmu, write_danmu_ensure_file, write_danmu_locked, incr_segment_index.
  retries_steps.
  all: first [apply generate_filename_retries | apply create_danmu_file_retries].
Qed.

Lemma start_new_segment_retries : method_follows retries_counted start_new_segment.
Proof.
  unfold start_new_segment, incr_segment_index. retries_steps.
  all: first [apply generate_filename_retries | apply create_danmu_file_retries
             | apply close_danmu_file_retries].
Qed.

Lemma start_retries room_json enable_segment segment_time :
  method_follows retries_counted (start room_json enable_segment segment_time).
Proof. unfold start. retries_steps. Qed.

Lemma _on_message_retries sock message :
  method_follows retries_counted (_on_message sock message).
Proof. unfold _on_message. retries_steps. all: apply write_danmu_retries. Qed.

(** The close handler is where the counter moves: by one, together with
    one wait of 2 seconds. *)
Lemma _on_close_retries sock : method_follows retries_counted (_on_close sock).
Proof.
  intros w. destruct (stop_signal (self w)) eqn:Hs.
  - unfold _on_close. py_run. rewrite Hs.
    assert (forall name w0, retries_counted w0 (snd (close_danmu_file name w0))) as Hclose
      by (intros; apply close_danmu_file_retries).
    destruct (truthy_str (current_segment_file (self w))); cbn.
    + match goal with |- context [close_danmu_file ?n ?w0] =>
        specialize (Hclose n w0); destruct (close_danmu_file n w0) as [[[]|e] w1] end;
        cbn in *; unfold retries_counted in *; cbn in *;
        rewrite ?reconnect_waits_snoc in *; cbn in *; lia.
    + destruct (truthy_str (filename (self w))); cbn.
      * match goal with |- context [close_danmu_file ?n ?w0] =>
          specialize (Hclose n w0); destruct (close_danmu_file n w0) as [[[]|e] w1] end;
          cbn in *; unfold retries_counted in *; cbn in *;
          rewrite ?reconnect_waits_snoc in *; cbn in *; lia.
      * unfold retries_counted. cbn. rewrite !reconnect_waits_snoc. cbn. lia.
  - rewrite (_on_close_not_stopped _ _ Hs). cbn [snd].
    destruct (retry (self w) <? max_retry (self w));
      unfold retries_counted; cbn; rewrite ?reconnect_waits_app;
      cbv [reconnect_waits foldr]; destruct (self w); cbn; lia.
Qed.

Lemma segment_checker_loop_retries rounds segment_time :
  follows retries_counted (segment_checker_loop rounds segment_time).
Proof.
  induction rounds as [|rounds IH]; cbn [segment_checker_loop]; retries_steps;
    first [exact IH | apply start_new_segment_retries].
Qed.

Lemma _heartbeat_loop_retries rounds sock t :
  follows retries_counted (_heartbeat_loop rounds sock t).
Proof.
  revert t. induction rounds as [|rounds IH]; intros t; cbn [_heartbeat_loop];
    retries_steps; apply IH.
Qed.

Lemma run_activity_retries (a : activity) (w : world) :
  retries_counted w (run_activity a w).
Proof.
  destruct a as [c|rounds sock|rounds segment_time]; cbn [run_activity].
  - destruct c as [name| |user content ts|room_json enable_segment segment_time| |sock
                  |sock message|sock error|sock|c];
      cbn [run_call].
    + revert w. change (method_follows retries_counted (set_video_filename name)).
      unfold set_video_filename. retries_steps.
    + apply start_new_segment_retries.
    + apply write_danmu_retries.
    + apply start_retries.
    + revert w. change (method_follows retries_counted stop).
      unfold stop. retries_steps.
    + revert w. change (method_follows retries_counted (_on_open sock)).
      unfold _on_open. retries_steps.
    + apply _on_message_retries.
    + revert w. change (method_follows retries_counted (_on_error sock error)).
      unfold _on_error. retries_steps.
    + apply _on_close_retries.
    + unfold retries_counted. cbn. lia.
  - revert w. change (method_follows retries_counted (_heartbeat rounds sock)).
    unfold _heartbeat. retries_steps. apply _heartbeat_loop_retries.
  - revert w.
    change (method_follows retries_counted (segment_checker rounds segment_time)).
    unfold segment_checker. retries_steps. apply segment_checker_loop_retries.
Qed.

Lemma run_activities_retries (acts : list activity) (w : world) :
  retries_counted w (run_activities acts w).
Proof.
  unfold run_activities. revert w.
  induction acts as [|a acts IH]; intros w; [reflexivity|].
  cbn [fold_left]. etransitivity; [apply run_activity_retries | apply IH].
Qed.

(** X9.  The retry counter is never reset.  Whatever is done with a
    recorder made by [__init__] (calls of its methods by the owner and by
    the socket library in any order and with any arguments, passes of the
    heartbeat loop and of the segment checker), the counter never goes
    down, it stays between 0 and 3 and the bound stays 3, and it is the
    number of waits before a reconnection (sleeps of 2 seconds) that the
    recorder has made: over its whole life a recorder waits for a
    reconnection at most three times. *)
Theorem retries_are_never_reset (before after : list activity) room_id output_dir video
    (fs : gmap string string) (c : Q) :
  let w0 := {| self := Recorder_init room_id output_dir video; files := fs; clock := c;
               trace := [] |} in
  let w1 := run_activities before w0 in
  let w2 := run_activities after w1 in
  retry_in_bounds (self w2) /\
  0 <= retry (self w1) <= retry (self w2) /\
  reconnect_waits (trace w2) = retry (self w2).
Proof.
  cbn zeta.
  set (w0 := {| self := Recorder_init room_id output_dir video; files := fs; clock := c;
                trace := [] |}).
  pose proof (run_activities_retries before w0) as [L1 E1].
  pose proof (run_activities_retries after (run_activities before w0)) as [L2 E2].
  assert (forall acts w, retry_in_bounds (self w) ->
            retry_in_bounds (self (run_activities acts w))) as Hkeep.
  { intros acts w. apply (run_activities_keeps retry_in_bounds).
    - intros st [Hm Hr]. destruct st; cbn in *. repeat split; cbn; first [done | lia].
    - intros st st' [Hm Hr] [Hm' Hr'] Hlt. apply Z.ltb_lt in Hlt.
      destruct st'; split; cbn in *; [done|lia]. }
  assert (retry_in_bounds (self (run_activities after (run_activities before w0)))) as Hb.
  { do 2 apply Hkeep. split; cbn; lia. }
  split; [exact Hb|].
  change (retry (self w0)) with 0 in *. change (reconnect_waits (trace w0)) with 0 in *.
  split; lia.
Qed.
End RetryFacts.

(* ===================================================================== *)
(** * Further properties: the loops of the threads *)
(* ===================================================================== *)

Lemma sent_app tr1 tr2 : sent (tr1 ++ tr2) = sent tr1 ++ sent tr2.
Proof. apply flat_map_app. Qed.

Lemma slept_app tr1 tr2 : slept (tr1 ++ tr2) = slept tr1 + slept tr2.
Proof.
  unfold slept. induction tr1 as [|e tr1 IH]; cbn; [done|].
  destruct e; rewrite IH; lia.
Qed.

(** How many of the counter values [t], ..., [t + n - 1] are multiples
    of ten. *)
Lemma tens_step (t n : Z) :
  0 <= n ->
  (t + (n + 1) - 1) / 10 - (t - 1) / 10 =
    (if t mod 10 =? 0 then 1 else 0) + ((t + 1 + n - 1) / 10 - (t + 1 - 1) / 10).
Proof.
  intros Hn. replace (t + 1 + n - 1) with (t + (n + 1) - 1) by lia.
  replace (t + 1 - 1) with t by lia.
  destruct (t mod 10 =? 0) eqn:Ht.
  - apply Z.eqb_eq in Ht. Z.div_mod_to_equations. lia.
  - apply Z.eqb_neq in Ht. Z.div_mod_to_equations. lia.
Qed.

Section LoopFacts.
Context `{Codec} `{Platform}.

(** What one pass of the heartbeat loop does before it sleeps. *)
Lemma heartbeat_pass (sock : WebSocketApp) (t : Z) (w : world) :
  exists w1 j,
    (if t mod 10 =? 0 then
       Py.try_except
         (Py.lift (ws_send sock create_heartbeat_frame) ;;
          Py.emit (Send create_heartbeat_frame))
         (fun e => Py.log DEBUG "sending heartbeat failed") ;;
       now <- Py.time_time ;;
       st <- Py.get_self ;;
       if (30 <? t) && negb (Qle_bool (now - last_danmu_time st) 60)
       then Py.log WARNING "no danmu for a long time"
       else Py.ret tt
     else Py.ret tt)%py w = (Next (R:=progress) tt, w1) /\
    self w1 = self w /\
    files w1 = files w /\
    clock w1 = clock w /\
    slept (trace w1) = slept (trace w) /\
    sent (trace w1) = sent (trace w) ++ replicate j create_heartbeat_frame /\
    Z.of_nat j <= (if t mod 10 =? 0 then 1 else 0) /\
    ((forall data, ws_send sock data = Ok tt) ->
     Z.of_nat j = (if t mod 10 =? 0 then 1 else 0)).
Proof.
  destruct (t mod 10 =? 0).
  - unfold Py.try_except, Py.bind, Py.lift, Py.emit, Py.log, Py.time_time,
      Py.get_self, Py.ret.
    destruct (ws_send sock create_heartbeat_frame) as [[]|e] eqn:Hsend; cbn.
    + destruct ((30 <? t) && negb (Qle_bool (clock w - last_danmu_time (self w)) 60));
        cbn; eexists _, 1%nat; (split; [reflexivity|]); cbn;
        rewrite ?slept_app, ?sent_app; cbn; rewrite ?app_nil_r;
        repeat split; lia.
    + destruct ((30 <? t) && negb (Qle_bool (clock w - last_danmu_time (self w)) 60));
        cbn; eexists _, 0%nat; (split; [reflexivity|]); cbn;
        rewrite ?slept_app, ?sent_app; cbn; rewrite ?app_nil_r;
        repeat split; try lia; intros Hok; by rewrite Hok in Hsend.
  - exists w, 0%nat. cbn. rewrite app_nil_r. repeat split; lia.
Qed.

(** The heartbeat loop while the recorder is not stopped and the
    application is running. *)
Lemma _heartbeat_loop_run (n : nat) (sock : WebSocketApp) (t : Z) (w : world) :
  stop_signal (self w) = false ->
  keep_running sock = true ->
  exists w' k,
    _heartbeat_loop n sock t w = (Return Running, w') /\
    self w' = self w /\
    files w' = files w /\
    (clock w' == clock w + inject_Z (Z.of_nat n))%Q /\
    slept (trace w') = slept (trace w) + Z.of_nat n /\
    sent (trace w') = sent (trace w) ++ replicate k create_heartbeat_frame /\
    Z.of_nat k <= (t + Z.of_nat n - 1) / 10 - (t - 1) / 10 /\
    ((forall data, ws_send sock data = Ok tt) ->
     Z.of_nat k = (t + Z.of_nat n - 1) / 10 - (t - 1) / 10).
Proof.
  intros Hs Hk. revert t w Hs.
  induction n as [|n IH]; intros t w Hs.
  - exists w, 0%nat. cbn [_heartbeat_loop replicate Z.of_nat].
    rewrite app_nil_r, !Z.add_0_r, Z.sub_diag.
    repeat split; try done; try lia.
    cbn. ring.
  - cbn [_heartbeat_loop]. unfold Py.bind at 1. unfold Py.get_self at 1.
    rewrite Hs, Hk. cbn [negb andb].
    pose proof (tens_step t (Z.of_nat n) ltac:(lia)) as Htens.
    replace (Z.of_nat (S n)) with (Z.of_nat n + 1) by lia.
    unfold Py.bind at 1.
    destruct (heartbeat_pass sock t w)
      as (w1 & j & -> & Hself & Hfiles & Hclock & Hslept & Hsent & Hj & Hjok).
    unfold Py.bind at 1. unfold Py.time_sleep at 1.
    match goal with |- context [_heartbeat_loop n sock (t + 1) ?w2] =>
      destruct (IH (t + 1) w2) as (w' & k & -> & IHself & IHfiles & IHclock & IHslept
                                   & IHsent & IHk & IHok);
        [by cbn; rewrite Hself|]
    end.
    cbn [self files clock trace] in *.
    exists w', (j + k)%nat.
    split; [done|]. split; [congruence|]. split; [congruence|].
    split; [rewrite IHclock, Hclock, inject_Z_plus; ring|].
    split; [rewrite IHslept, slept_app, Hslept; cbn; lia|].
    split; [by rewrite IHsent, sent_app, Hsent, app_nil_r, replicate_add, app_assoc|].
    split; [lia|]. intros Hok. specialize (Hjok Hok). specialize (IHok Hok). lia.
Qed.

(** X14.  The heartbeat of a running connection, followed for [n]
    seconds: the loop is still running, it has slept [n] times one
    second, it has touched no attribute and no file, and everything it
    has sent is heartbeat frames, at most [(n + 8) / 10] of them: the
    first one in the second pass, then one every tenth pass.  A failing
    send ends neither the loop nor the connection; when no send fails,
    the number is exactly [(n + 8) / 10]. *)
Theorem heartbeat_schedule (w : world) (sock : WebSocketApp) (n : nat) :
  stop_signal (self w) = false ->
  keep_running sock = true ->
  exists w' k,
    _heartbeat n sock w = (Ok Running, w') /\
    self w' = self w /\
    files w' = files w /\
    (clock w' == clock w + inject_Z (Z.of_nat n))%Q /\
    slept (trace w') = slept (trace w) + Z.of_nat n /\
    sent (trace w') = sent (trace w) ++ replicate k create_heartbeat_frame /\
    Z.of_nat k <= (Z.of_nat n + 8) / 10 /\
    ((forall data, ws_send sock data = Ok tt) -> Z.of_nat k = (Z.of_nat n + 8) / 10).
Proof.
  intros Hs Hk.
  destruct (_heartbeat_loop_run n sock 9 w Hs Hk)
    as (w' & k & Hrun & Hself & Hfiles & Hclock & Hslept & Hsent & Hle & Hok).
  exists w', k. unfold _heartbeat, Py.def. rewrite Hrun.
  replace ((9 + Z.of_nat n - 1) / 10 - (9 - 1) / 10) with ((Z.of_nat n + 8) / 10) in *.
  - done.
  - replace (9 + Z.of_nat n - 1) with (Z.of_nat n + 8) by lia.
    replace ((9 - 1) / 10) with 0 by reflexivity. lia.
Qed.

(** One pass of the segment checker that finds nothing due. *)
Lemma segment_checker_loop_run (n : nat) (segment_time : Z) (w : world) :
  stop_signal (self w) = false ->
  (forall age, segment_age w = Some age ->
               (age + inject_Z (Z.of_nat n) < inject_Z segment_time)%Q) ->
  exists w',
    segment_checker_loop n segment_time w = (Return Running, w') /\
    self w' = self w /\
    files w' = files w /\
    (clock w' == clock w + inject_Z (Z.of_nat n))%Q /\
    trace w' = trace w ++ replicate n (Sleep 1).
Proof.
  revert w. induction n as [|n IH]; intros w Hs Hage.
  - exists w. cbn [segment_checker_loop replicate]. rewrite app_nil_r.
    repeat split; try done. cbn. ring.
  - cbn [segment_checker_loop].
    unfold Py.bind at 1. unfold Py.get_self at 1. rewrite Hs. cbn [negb].
    unfold Py.bind at 1. unfold Py.time_sleep at 1.
    unfold Py.bind at 1. unfold Py.get_self at 1. cbn [self].
    set (w1 := {| self := self w; files := files w;
                  clock := (clock w + inject_Z 1)%Q; trace := trace w ++ [Sleep 1] |}).
    assert (forall age, segment_age w1 = Some age ->
                        (age + inject_Z (Z.of_nat n) < inject_Z segment_time)%Q) as Hage1.
    { intros age. unfold segment_age. subst w1. cbn [self clock].
      specialize (Hage (clock w - default 0%Q (segment_start_time (self w)))%Q).
      unfold segment_age in Hage.
      destruct (truthy_float (segment_start_time (self w))); [|done].
      destruct (segment_start_time (self w)) as [s|]; [|done]. cbn in *.
      intros [= <-]. specialize (Hage eq_refl).
      rewrite Nat2Z.inj_succ, <- Z.add_1_r, inject_Z_plus in Hage.
      lra. }
    destruct (IH w1 Hs Hage1) as (w' & Hrun & Hself & Hfiles & Hclock & Htrace).
    unfold Py.bind at 1.
    assert ((if truthy_float (segment_start_time (self w))
             then (now <- Py.time_time ;;
                   Py.ret (Qle_bool (inject_Z segment_time)
                             (now - default 0%Q (segment_start_time (self w)))))%py
             else Py.ret false) w1 = (Next (R:=progress) false, w1)) as ->.
    { unfold segment_age in Hage1. subst w1. cbn [self clock] in *.
      destruct (segment_start_time (self w)) as [s|]; [|reflexivity].
      destruct (truthy_float (Some s)); [|done].
      specialize (Hage1 _ eq_refl). cbn in Hage1.
      unfold Py.bind, Py.time_time, Py.ret. cbn [clock default]. do 2 f_equal.
      apply not_true_is_false. intros Hle%Qle_bool_iff.
      assert (0 <= inject_Z (Z.of_nat n))%Q by (unfold Qle; cbn; lia).
      unfold id in Hle. lra. }
    cbv beta iota. unfold Py.bind at 1. unfold Py.ret at 1. rewrite Hrun.
    exists w'. split; [done|]. split; [done|]. split; [done|].
    split.
    + rewrite Hclock. subst w1. cbn [clock].
      rewrite Nat2Z.inj_succ, <- Z.add_1_r, inject_Z_plus. ring.
    + rewrite Htrace. subst w1. cbn [trace]. by rewrite <- app_assoc.
Qed.

(** X15.  The segment checker, followed for [n] seconds during which
    nothing gets due (no segment is open yet, or the open one is younger
    than [segment_time] all the time): the loop is still running and has
    done nothing but sleep [n] times one second.  In particular it
    creates no file before the first comment has opened a segment. *)
Theorem segment_checker_waits (w : world) (n : nat) (segment_time : Z) :
  stop_signal (self w) = false ->
  (forall age, segment_age w = Some age ->
               (age + inject_Z (Z.of_nat n) < inject_Z segment_time)%Q) ->
  exists w',
    segment_checker n segment_time w = (Ok Running, w') /\
    self w' = self w /\
    files w' = files w /\
    (clock w' == clock w + inject_Z (Z.of_nat n))%Q /\
    trace w' = trace w ++ replicate n (Sleep 1).
Proof.
  intros Hs Hage.
  destruct (segment_checker_loop_run n segment_time w Hs Hage) as (w' & Hrun & Hrest).
  exists w'. unfold segment_checker, Py.def. by rewrite Hrun.
Qed.

(** X16.  The pass of the segment checker in which the open segment is
    found to be [segment_time] old, with the video file name known: the
    checker sleeps its second and rotates.  The file named after the
    video is (again) the empty document, the new segment begins at the
    instant of the check, and the loop goes on. *)
Theorem segment_checker_rotates_when_due (w : world) (segment_time : Z)
    (age : Q) i v :
  stop_signal (self w) = false ->
  segment_age w = Some age ->
  (inject_Z segment_time <= age + 1)%Q ->
  segment_index (self w) = Some i ->
  video_filename (self w) = Some v ->
  v <> "" ->
  exists w',
    segment_checker 1 segment_time w = (Ok Running, w') /\
    files w' = <[path_join (output_dir (self w)) (stem v +:+ ".xml") := xml_template]>
                 (files w) /\
    current_segment_file (self w') = Some (stem v +:+ ".xml") /\
    segment_start_time (self w') = Some (clock w + inject_Z 1)%Q /\
    segment_index (self w') = Some (i + 1) /\
    clock w' = (clock w + inject_Z 1)%Q /\
    effects (trace w') = effects (trace w) ++ [Sleep 1].
Proof.
  intros Hs Hage Hdue Hi Hv Hne.
  unfold segment_age in Hage.
  destruct (truthy_float (segment_start_time (self w))) eqn:Htr; [|done].
  destruct (segment_start_time (self w)) as [s|] eqn:Hss; [|done].
  cbn in Hage. injection Hage as <-.
  unfold segment_checker, Py.def. cbn [segment_checker_loop].
  unfold Py.bind at 1. unfold Py.get_self at 1. rewrite Hs. cbn [negb].
  unfold Py.bind at 1. unfold Py.time_sleep at 1.
  unfold Py.bind at 1. unfold Py.get_self at 1. cbn [self].
  rewrite Hss, Htr.
  unfold Py.bind at 1. unfold Py.bind at 1. unfold Py.time_time at 1.
  unfold Py.ret at 1. cbn [clock default]. unfold id.
  replace (Qle_bool (inject_Z segment_time) (clock w + inject_Z 1 - s)) with true.
  2:{ symmetry. apply Qle_bool_iff. change (inject_Z 1) with 1%Q. lra. }
  unfold Py.bind at 1. unfold Py.call at 1.
  match goal with |- context [start_new_segment ?w1] =>
    destruct (start_new_segment_eq w1 i v Hi Hv Hne) as (tr & -> & Htr')
  end.
  cbn. eexists. split; [reflexivity|]. cbn.
  repeat split.
  rewrite <- app_assoc, effects_app. f_equal.
  rewrite effects_app. cbn.
  replace (effects tr) with (@nil event); [done|].
  clear -Htr'. induction tr as [|[] tr IH]; cbn in *; try done. by apply IH.
Qed.
End LoopFacts.

(* ===================================================================== *)
(** * Further properties: the files of a recorder *)
(* ===================================================================== *)

(** The statements under [no_file_removed]: only [write_file] touches the
    files, and it leaves a file at its path. *)
Ltac files_steps :=
  follows_steps; cbv zeta;
  try match goal with
      | |- follows no_file_removed (Py.modify _) => by intros ? ? ?
      | |- follows no_file_removed (Py.emit _) => by intros ? ? ?
      | |- follows no_file_removed (Py.log _ _) => by intros ? ? ?
      | |- follows no_file_removed (Py.time_sleep _) => by intros ? ? ?
      | |- follows no_file_removed (Py.write_file ?p _) =>
          let q := fresh "q" in
          intros ? q ?; cbn;
          destruct (decide (p = q)) as [->|];
          [rewrite lookup_insert_eq; eauto | by rewrite lookup_insert_ne]
      end.

Section FilesFacts.
Context `{Codec} `{Platform}.

Lemma generate_filename_files idx : method_follows no_file_removed (generate_filename idx).
Proof. unfold generate_filename. files_steps. Qed.

Lemma create_danmu_file_files name : method_follows no_file_removed (create_danmu_file name).
Proof. unfold create_danmu_file. files_steps. Qed.

Lemma close_danmu_file_files name : method_follows no_file_removed (close_danmu_file name).
Proof. unfold close_danmu_file. files_steps. Qed.

Lemma write_danmu_files user content ts :
  method_follows no_file_removed (write_danmu user content ts).
Proof.
  unfold write_danmu, write_danmu_ensure_file, write_danmu_locked, incr_segment_index.
  files_steps.
  all: first [apply generate_filename_files | apply create_danmu_file_files].
Qed.

Lemma start_new_segment_files : method_follows no_file_removed start_new_segment.
Proof.
  unfold start_new_segment, incr_segment_index. files_steps.
  all: first [apply generate_filename_files | apply create_danmu_file_files
             | apply close_danmu_file_files].
Qed.

Lemma start_files room_json enable_segment segment_time :
  method_follows no_file_removed (start room_json enable_segment segment_time).
Proof. unfold start. files_steps. Qed.

Lemma _on_message_files sock message :
  method_follows no_file_removed (_on_message sock message).
Proof. unfold _on_message. files_steps. all: apply write_danmu_files. Qed.

Lemma _on_close_files sock : method_follows no_file_removed (_on_close sock).
Proof. unfold _on_close. files_steps. all: apply close_danmu_file_files. Qed.

Lemma segment_checker_loop_files rounds segment_time :
  follows no_file_removed (segment_checker_loop rounds segment_time).
Proof.
  induction rounds as [|rounds IH]; cbn [segment_checker_loop]; files_steps;
    first [exact IH | apply start_new_segment_files].
Qed.

Lemma _heartbeat_loop_files rounds sock t :
  follows no_file_removed (_heartbeat_loop rounds sock t).
Proof.
  revert t. induction rounds as [|rounds IH]; intros t; cbn [_heartbeat_loop];
    files_steps; apply IH.
Qed.

Lemma run_activity_files (a : activity) (w : world) :
  no_file_removed w (run_activity a w).
Proof.
  destruct a as [c|rounds sock|rounds segment_time]; cbn [run_activity].
  - destruct c as [name| |user content ts|room_json enable_segment segment_time| |sock
                  |sock message|sock error|sock|c];
      cbn [run_call].
    + revert w. change (method_follows no_file_removed (set_video_filename name)).
      unfold set_video_filename. files_steps.
    + apply start_new_segment_files.
    + apply write_danmu_files.
    + apply start_files.
    + revert w. change (method_follows no_file_removed stop).
      unfold stop. files_steps.
    + revert w. change (method_follows no_file_removed (_on_open sock)).
      unfold _on_open. files_steps.
    + apply _on_message_files.
    + revert w. change (method_follows no_file_removed (_on_error sock error)).
      unfold _on_error. files_steps.
    + apply _on_close_files.
    + by intros ?.
  - revert w. change (method_follows no_file_removed (_heartbeat rounds sock)).
    unfold _heartbeat. files_steps. apply _heartbeat_loop_files.
  - revert w.
    change (method_follows no_file_removed (segment_checker rounds segment_time)).
    unfold segment_checker. files_steps. apply segment_checker_loop_files.
Qed.

(** X17.  The recorder never removes a file: whatever is done with it
    (calls of its methods in any order and with any arguments, passes of
    its loops), a path that held a file still holds one.  Files are only
    ever created and rewritten. *)
Theorem files_are_never_removed (acts : list activity) (w : world) (path : string) :
  is_Some (files w !! path) ->
  is_Some (files (run_activities acts w) !! path).
Proof.
  unfold run_activities. revert w.
  induction acts as [|a acts IH]; intros w Hp; [done|].
  cbn [fold_left]. apply IH. by apply run_activity_files.
Qed.
End FilesFacts.

(* ===================================================================== *)
(** * Further properties: the demo script *)
(* ===================================================================== *)

Arguments Demo.start : simpl never.
Arguments Demo._on_message : simpl never.

Section DemoFacts.
Context `{Codec} `{Platform} `{Demo.Session}.



(** X19.  In the script the acknowledgement comes first, inside the same
    [try] as the comments: when the batch asks for one and the frame
    cannot be built or sent, the whole frame is given up.  The handler
    returns, nothing is written or counted, whatever chat messages the
    batch carries. *)
Theorem demo_failed_ack_drops_frame (w : world) (sock : WebSocketApp)
    (message : bytes) (frame : PushFrame) (batch : Response) (e : exn) :
  envelope message = Ok (frame, batch) ->
  needAck batch = true ->
  Res.bind (Demo.ack_frame (logid frame) batch) (ws_send sock) = Raise e ->
  Demo._on_message sock message w =
    (Ok tt, {| self := self w; files := files w; clock := clock w;
               trace := trace w ++ [Log INFO "handling danmu message failed"] |}).
Proof.
  intros He Hack Hsend.
  unfold envelope in He.
  destruct (PushFrame_ParseFromString message) as [frame'|] eqn:E1; cbn in He; [|done].
  destruct (gzip_decompress (payload frame')) as [body|] eqn:E2; cbn in He; [|done].
  destruct (Response_ParseFromString body) as [batch'|] eqn:E3; cbn in He; [|done].
  injection He as -> ->.
  unfold Demo._on_message, Py.def, Py.try_except.
  unfold Py.bind at 1. unfold Py.lift at 1. rewrite E1.
  unfold Py.bind at 1. unfold Py.lift at 1. cbv zeta. rewrite E2.
  unfold Py.bind at 1. unfold Py.lift at 1. rewrite E3.
  unfold Py.bind at 1. rewrite Hack.
  unfold Py.bind, Py.lift, Py.emit, Py.log.
  destruct (Demo.ack_frame (logid frame) batch) as [data|]; cbn in *; [|done].
  by rewrite Hsend.
Qed.

(** [start] of the script on a live room whose URL is obtained. *)
Lemma demo_start_live (w : world) (rj : gmap string value) (dir_exists : bool)
    (url : string) (header : gmap string string) :
  py_ne_int (dict_get rj "status" (VInt 0)) 2 = false ->
  get_danmu_ws_url (dict_get rj "id_str" (VStr (room_id (self w)))) = Ok url ->
  Demo.get_request_headers = Ok header ->
  let t0 := default (Qfloor (clock w)) (start_time (self w)) in
  let path := Demo.output_path +:+ "/" +:+ Demo.strftime t0 +:+ ".xml" in
  let app := {| ws_url := url; keep_running := true |} in
  exists tr,
    forallb is_log tr = true /\
    Demo.start (Some rj) dir_exists w =
      match
        Demo.run_forever app
          {| self := put_ws (Some app)
                       (put_filename (Some path)
                          (put_start_time_t (Some t0)
                             (put_start_time (Some t0)
                                (put_room_real_id
                                   (Some (dict_get rj "id_str" (VStr (room_id (self w)))))
                                   (self w)))));
             files := <[path := Demo.header_text]> (files w);
             clock := clock w;
             trace := trace w ++ tr |}
      with
      | (Ok _, w2) => (Ok tt, w2)
      | (Raise _, w2) =>
          (Ok tt, {| self := self w2; files := files w2; clock := clock w2;
                     trace := trace w2 ++ [Log INFO "connection failed"] |})
      end.
Proof.
  intros Hlive Hurl Hhdr. cbn zeta.
  unfold Demo.start. py_run. rewrite Hlive. cbn.
  destruct dir_exists, (start_time (self w)) as [t|] eqn:Hst; cbn; rewrite Hurl; cbn;
    rewrite Hhdr; cbn;
    rewrite ?Hst; cbn [default from_option id];
    try replace (put_start_time (Some t) (put_room_real_id
               (Some (dict_get rj "id_str" (VStr (room_id (self w))))) (self w)))
      with (put_room_real_id
              (Some (dict_get rj "id_str" (VStr (room_id (self w))))) (self w))
      by (destruct (self w); cbn in *; by subst).
  - exists [Log INFO "start recording danmu"; Log INFO "fetching room information";
              Log INFO "real room id";
              Log INFO "anchor is live, connecting to the danmu server";
              Log INFO "danmu file"; Log INFO "connecting to the danmu server"].
    split; [done|]. rewrite <- !app_assoc. cbn.
    by destruct (Demo.run_forever _ _) as [[[]|] ?].
  - exists [Log INFO "start recording danmu"; Log INFO "fetching room information";
              Log INFO "real room id";
              Log INFO "anchor is live, connecting to the danmu server";
              Log INFO "danmu file"; Log INFO "connecting to the danmu server"].
    split; [done|]. rewrite <- !app_assoc. cbn.
    by destruct (Demo.run_forever _ _) as [[[]|] ?].
  - exists [Log INFO "start recording danmu"; Log INFO "fetching room information";
              Log INFO "real room id";
              Log INFO "anchor is live, connecting to the danmu server";
              Log INFO "output directory created";
              Log INFO "danmu file"; Log INFO "connecting to the danmu server"].
    split; [done|]. rewrite <- !app_assoc. cbn.
    by destruct (Demo.run_forever _ _) as [[[]|] ?].
  - exists [Log INFO "start recording danmu"; Log INFO "fetching room information";
              Log INFO "real room id";
              Log INFO "anchor is live, connecting to the danmu server";
              Log INFO "output directory created";
              Log INFO "danmu file"; Log INFO "connecting to the danmu server"].
    split; [done|]. rewrite <- !app_assoc. cbn.
    by destruct (Demo.run_forever _ _) as [[[]|] ?].
Qed.

(** X20.  A reconnect of the script loses the comments recorded so far.
    The connection closes, the script is not stopped and has retries
    left, and the room is still live: [_on_close] puts the closing tag at
    the end of the file and calls [start], which names the file after the
    start of the session as before and opens it for writing.  When the
    new connection begins, the file holds the bare header again. *)
Theorem demo_reconnect_loses_comments (w : world) (sock : WebSocketApp)
    (rj : gmap string value) (dir_exists : bool) (url : string)
    (header : gmap string string) (t0 : Z) (text : string) :
  let path := Demo.output_path +:+ "/" +:+ Demo.strftime t0 +:+ ".xml" in
  let app := {| ws_url := url; keep_running := true |} in
  stop_signal (self w) = false ->
  retry (self w) < 3 ->
  py_ne_int (dict_get rj "status" (VInt 0)) 2 = false ->
  get_danmu_ws_url (dict_get rj "id_str" (VStr (room_id (self w)))) = Ok url ->
  Demo.get_request_headers = Ok header ->
  start_time (self w) = Some t0 ->
  filename (self w) = Some path ->
  files w !! path = Some text ->
  exists w1,
    Demo._on_close (Demo.start (Some rj) dir_exists) sock w =
      match Demo.run_forever app w1 with
      | (Ok _, w2) => (Ok tt, w2)
      | (Raise _, w2) =>
          (Ok tt, {| self := self w2; files := files w2; clock := clock w2;
                     trace := trace w2 ++ [Log INFO "connection failed"] |})
      end /\
    files w1 !! path = Some Demo.header_text /\
    d_line_count Demo.header_text = 0%nat /\
    filename (self w1) = Some path /\
    retry (self w1) = retry (self w) + 1 /\
    ws (self w1) = Some app.
Proof.
  intros path app Hs Hr Hlive Hurl Hhdr Hst Hfn Hf.
  rewrite demo_on_close_restarts, Hs.
  replace (retry (self w) <? 3) with true by (symmetry; by apply Z.ltb_lt).
  cbn [negb andb].
  match goal with |- context [Demo.start _ _ ?w0] =>
    destruct (demo_start_live w0 rj dir_exists url header) as (tr & Htr & ->);
      [done | by cbn; destruct (self w) | done |]
  end.
  cbn [self files clock trace].
  replace (start_time (put_retry (retry (self w) + 1) (self w))) with (Some t0)
    by (rewrite <- Hst; by destruct (self w)).
  cbn [default from_option id].
  eexists. split; [reflexivity|]. cbn [self files].
  split; [apply lookup_insert_eq|]. split; [reflexivity|].
  by destruct (self w).
Qed.
End DemoFacts.

(* ===================================================================== *)
(** * Further properties: looking up the room *)
(* ===================================================================== *)

Arguments contains : simpl never.
Arguments busy_marker : simpl never.

Section RoomLookupFacts.
Context `{JsonLib}.

(** X21.  [get_live_state_json] never raises and changes nothing; it
    only logs.  When the request succeeded, the answer does not carry the
    busy text, and it parses to an object whose [data] is an object whose
    [data] is a non-empty list, the result is the first element of that
    list, whatever it is.  In every other case the result is [None]: a
    result other than [None] only comes from such an answer.  A first
    element that is JSON [null] is [None] as well, so the caller cannot
    tell it from a lookup that failed. *)
Theorem get_live_state_json_room (response : res string) (w : world) :
  exists r tr,
    get_live_state_json response w =
      (Ok r, {| self := self w; files := files w; clock := clock w;
                trace := trace w ++ tr |}) /\
    forallb is_log tr = true /\
    (forall text d d1 room rest,
       response = Ok text ->
       contains busy_marker text = false ->
       json_loads text = Ok (JObject d) ->
       d !! "data" = Some (JObject d1) ->
       d1 !! "data" = Some (JList (room :: rest)) ->
       r = room) /\
    (r <> JNull ->
     exists text d d1 rest,
       response = Ok text /\
       contains busy_marker text = false /\
       json_loads text = Ok (JObject d) /\
       d !! "data" = Some (JObject d1) /\
       d1 !! "data" = Some (JList (r :: rest))).
Proof.
  unfold get_live_state_json. py_run.
  destruct response as [text|e]; cbn.
  2:{ destruct e; (eexists JNull, [_]; split; [done|]; split; [done|];
        split; [by intros ? ? ? ? ? [=]|done]). }
  destruct (contains busy_marker text) eqn:Hbusy; cbn.
  { eexists JNull, [_]. split; [done|]. split; [done|].
    split; [|done]. intros ? ? ? ? ? [= <-]. congruence. }
  destruct (json_loads text) as [info|e] eqn:Hloads; cbn.
  2:{ destruct e; (eexists JNull, [_]; split; [done|]; split; [done|];
        split; [|done]; intros ? ? ? ? ? [= <-]; congruence). }
  destruct info as [| | | | |d]; cbn;
    try (eexists JNull, [_]; split; [done|]; split; [done|];
         split; [|done]; intros ? ? ? ? ? [= <-]; congruence).
  destruct (d !! "data") as [data|] eqn:Hdata; cbn.
  2:{ eexists JNull, [_; _]. rewrite <- app_assoc. split; [done|]. split; [done|].
      split; [|done]. intros ? ? ? ? ? [= <-]. congruence. }
  destruct data as [| | |s|l|d1]; cbn;
    try (eexists JNull, [_; _]; rewrite <- app_assoc; split; [done|]; split; [done|];
         split; [|done]; intros ? ? ? ? ? [= <-]; congruence).
  - destruct (contains "data" s); cbn;
      (eexists JNull, [_; _]; rewrite <- app_assoc; split; [done|]; split; [done|];
       split; [|done]; intros ? ? ? ? ? [= <-]; congruence).
  - destruct (existsb _ l); cbn;
      (eexists JNull, [_; _]; rewrite <- app_assoc; split; [done|]; split; [done|];
       split; [|done]; intros ? ? ? ? ? [= <-]; congruence).
  - destruct (d1 !! "data") as [rooms|] eqn:Hrooms; cbn.
    2:{ eexists JNull, [_; _]. rewrite <- app_assoc. split; [done|]. split; [done|].
        split; [|done]. intros ? ? ? ? ? [= <-]. congruence. }
    destruct rooms as [| | | |[|room0 rest]|]; cbn;
      try (eexists JNull, [_; _]; rewrite <- app_assoc; split; [done|]; split; [done|];
           split; [|done]; intros ? ? ? ? ? [= <-]; congruence).
    eexists room0, [_]. split; [done|]. split; [done|]. split.
    + intros ? ? ? ? ? [= <-]. congruence.
    + intros _. by exists text, d, d1, rest.
Qed.
End RoomLookupFacts.

(* ===================================================================== *)
(** * More properties on concrete runs *)
(* ===================================================================== *)

(** A frame of the example codec, with a member message, a chat message
    and a second chat message, on a recorder that knows its video file
    name: the file gets the one line of the first chat message. *)
Lemma first_chat_message_only_witness :
  @PushFrame_ParseFromString Example.codec "hello" =
    Ok {| logid := 7; payloadType := "msg"; payload := "hello" |} /\
  @gzip_decompress Example.codec "hello" = Ok "hello" /\
  @Response_ParseFromString Example.codec "hello" = Ok (Example.batch_of "hello") /\
  messagesList (Example.batch_of "hello") =
    [Example.member] ++ Example.chat "hello" :: [Example.chat "second"] /\
  forallb (fun x => negb (is_chat x)) [Example.member] = true /\
  is_chat (Example.chat "hello") = true /\
  ((@parse_danmu_message Example.codec "hello" =
      Ok (Some (<["user" := VDict (<["nickName" := VStr "alice"]> ∅)]>
                (<["content" := VStr "hello"]>
                (<["logid" := VInt 7]>
                (<["needAck" := VBool true]>
                (<["internalExt" := VStr "ext"]> ∅)))))) /\
    @_on_message Example.codec Example.platform Example.sock "hello"
        (Example.fresh (Some "v.mp4")) =
      let w1 := snd (@write_danmu Example.platform "alice" "hello" 1000%Q
                       (Example.fresh (Some "v.mp4"))) in
      (Ok tt, {| self := put_last_danmu_time 1000%Q (self w1); files := files w1;
                 clock := clock w1; trace := trace w1 ++ [Log DEBUG "danmu"] |}))
   /\ danmu_amount (self (snd (@_on_message Example.codec Example.platform Example.sock
                                 "hello" (Example.fresh (Some "v.mp4")))))
      <= danmu_amount (self (Example.fresh (Some "v.mp4"))) + 1) /\
  files (snd (@_on_message Example.codec Example.platform Example.sock "hello"
                (Example.fresh (Some "v.mp4")))) !! "out/v.xml" =
    Some (writelines (header_lines ++
                      [Example.line_text "0.0" "1000000" "alice" "hello"; close_tag_line])).
Proof.
  refine (conj eq_refl (conj eq_refl (conj eq_refl (conj eq_refl
            (conj eq_refl (conj eq_refl (conj _ _))))))).
  - exact (@first_chat_message_only Example.codec Example.platform
             (Example.fresh (Some "v.mp4")) Example.sock "hello"
             {| logid := 7; payloadType := "msg"; payload := "hello" |} "hello"
             (Example.batch_of "hello") [Example.member] [Example.chat "second"]
             (Example.chat "hello") eq_refl eq_refl eq_refl eq_refl eq_refl eq_refl).
  - vm_compute. reflexivity.
Defined.

(** A frame with a chat message, with the example codec: nothing is
    sent, although the batch asks for an acknowledgement. *)
Lemma chat_frame_never_acknowledged_witness :
  @envelope Example.codec "hi" = Ok (Sample.frame, Sample.batch) /\
  existsb is_chat (messagesList Sample.batch) = true /\
  needAck Sample.batch = true /\
  fst (@_on_message Example.codec Example.platform Example.sock "hi"
         Example.open_segment) = Ok tt /\
  logs_only Example.open_segment
    (snd (@_on_message Example.codec Example.platform Example.sock "hi"
            Example.open_segment)) /\
  sent (trace (snd (@_on_message Example.codec Example.platform Example.sock "hi"
                      Example.open_segment))) = sent (trace Example.open_segment).
Proof.
  assert (@envelope Example.codec "hi" = Ok (Sample.frame, Sample.batch)) as H1
    by reflexivity.
  assert (existsb is_chat (messagesList Sample.batch) = true) as H2 by reflexivity.
  refine (conj H1 (conj H2 (conj eq_refl _))).
  exact (@chat_frame_never_acknowledged Example.codec Example.platform
           Example.open_segment Example.sock "hi" Sample.frame Sample.batch H1 H2).
Defined.

(** A frame without a chat message: the acknowledgement goes out. *)
Lemma ack_only_frame_acknowledged_witness :
  @envelope Sample.quiet_codec "hi" = Ok (Sample.frame, Sample.quiet_batch) /\
  existsb is_chat (messagesList Sample.quiet_batch) = false /\
  needAck Sample.quiet_batch = true /\
  @_on_message Sample.quiet_codec Example.platform Example.sock "hi" Example.open_segment =
    (Ok tt,
     {| self := put_last_danmu_time 1001%Q Example.open_recorder;
        files := files Example.open_segment;
        clock := 1001%Q;
        trace := [Send (@create_ack_frame Sample.quiet_codec 7 "ext")] |}).
Proof.
  assert (@envelope Sample.quiet_codec "hi" = Ok (Sample.frame, Sample.quiet_batch)) as H1
    by reflexivity.
  assert (existsb is_chat (messagesList Sample.quiet_batch) = false) as H2 by reflexivity.
  assert (needAck Sample.quiet_batch = true) as H3 by reflexivity.
  refine (conj H1 (conj H2 (conj H3 _))).
  exact (@ack_only_frame_acknowledged Sample.quiet_codec Example.platform
           Example.open_segment Example.sock "hi" Sample.frame Sample.quiet_batch
           H1 H2 H3).
Defined.

(** A chat message without a user. *)
Lemma chat_without_nickname_dropped_witness :
  @envelope Sample.anonymous_codec "hi" = Ok (Sample.frame, Sample.batch) /\
  dict_get (<["content" := VStr "hi"]> ∅) "user" (VDict ∅) = VDict ∅ /\
  @_on_message Sample.anonymous_codec Example.platform Example.sock "hi"
      Example.open_segment =
    (Ok tt, {| self := self Example.open_segment; files := files Example.open_segment;
               clock := clock Example.open_segment;
               trace := trace Example.open_segment ++
                        [Log ERROR "handling danmu message failed"] |}).
Proof.
  assert (@envelope Sample.anonymous_codec "hi" = Ok (Sample.frame, Sample.batch)) as H1
    by reflexivity.
  assert (dict_get (<["content" := VStr "hi"]> ∅) "user" (VDict ∅) = VDict ∅) as H2
    by (vm_compute; reflexivity).
  refine (conj H1 (conj H2 _)).
  exact (@chat_without_nickname_dropped Sample.anonymous_codec Example.platform
           Example.open_segment Example.sock "hi" Sample.frame Sample.batch
           [Example.member] [Example.chat "second"] (Example.chat "hi")
           (<["content" := VStr "hi"]> ∅) ∅
           H1 eq_refl eq_refl eq_refl eq_refl H2 eq_refl).
Defined.

(** A chat frame that arrives at instant 1001 in the open example
    segment, which began at 1000. *)
Lemma chat_frame_written_witness :
  @envelope Example.codec "hi" = Ok (Sample.frame, Sample.batch) /\
  active_file (self Example.open_segment) = Some "v.xml" /\
  offset_basis (self Example.open_segment) = Some 1000%Q /\
  segment_document [] xml_template /\
  files (snd (@_on_message Example.codec Example.platform Example.sock "hi"
                Example.open_segment)) !! "out/v.xml" =
    Some (writelines (header_lines ++
                      [Example.line_text "1.0" "1001000" "alice" "hi"; close_tag_line])).
Proof.
  assert (@envelope Example.codec "hi" = Ok (Sample.frame, Sample.batch)) as H1
    by reflexivity.
  assert (active_file (self Example.open_segment) = Some "v.xml") as H2 by reflexivity.
  assert (offset_basis (self Example.open_segment) = Some 1000%Q) as H3 by reflexivity.
  pose proof xml_template_document as H4.
  refine (conj H1 (conj H2 (conj H3 (conj H4 _)))).
  rewrite (@chat_frame_written Example.codec Example.platform
             Example.open_segment Example.sock "hi" Sample.frame Sample.batch
             [Example.member] [Example.chat "second"] (Example.chat "hi")
             (<["user" := VDict (<["nickName" := VStr "alice"]> ∅)]>
                (<["content" := VStr "hi"]> ∅))
             (<["nickName" := VStr "alice"]> ∅) (VStr "alice") "v.xml" 1000%Q []
             xml_template
             H1 eq_refl eq_refl eq_refl eq_refl eq_refl eq_refl H2 H3 eq_refl H4).
  vm_compute. reflexivity.
Defined.

(** A frame that is not empty and whose payload cannot be decompressed:
    all that changes is the time of the last frame. *)
Lemma undecodable_frame_ignored_witness :
  @envelope Sample.plain_codec "hi" = Raise BadGzipFile /\
  @_on_message Sample.plain_codec Example.platform Example.sock "hi" Example.open_segment =
    (Ok tt,
     {| self := put_last_danmu_time 1001%Q Example.open_recorder;
        files := files Example.open_segment;
        clock := 1001%Q;
        trace := [] |}).
Proof.
  assert (@envelope Sample.plain_codec "hi" = Raise BadGzipFile) as H1 by reflexivity.
  refine (conj H1 _).
  exact (@undecodable_frame_ignored Sample.plain_codec Example.platform Example.open_segment
           Example.sock "hi" BadGzipFile (or_introl H1)).
Defined.

(** A comment with a line break in its text, appended to a file whose
    closing tag is followed by a no-break space: the closing tag is still
    the last line. *)
Lemma write_danmu_closing_tag_last_witness :
  active_file (self Sample.spaced_segment) = Some "v.xml" /\
  offset_basis (self Sample.spaced_segment) = Some 1000%Q /\
  files Sample.spaced_segment !! path_join (output_dir (self Sample.spaced_segment)) "v.xml"
    = Some Sample.spaced_document /\
  utf8_valid Sample.spaced_document = true /\
  utf8_valid "alice" = true /\
  utf8_valid Example.two_line_content = true /\
  exists w' raw' l,
    @write_danmu Example.platform "alice" Example.two_line_content (100314 # 100)
      Sample.spaced_segment = (Ok tt, w') /\
    files w' !! path_join (output_dir (self w')) "v.xml" = Some raw' /\
    last (readlines raw') = Some l /\
    strip l = "</i>" /\
    utf8_valid raw' = true /\
    active_file (self w') = Some "v.xml" /\
    offset_basis (self w') = Some 1000%Q.
Proof.
  assert (active_file (self Sample.spaced_segment) = Some "v.xml") as H1 by reflexivity.
  assert (offset_basis (self Sample.spaced_segment) = Some 1000%Q) as H2 by reflexivity.
  assert (files Sample.spaced_segment
            !! path_join (output_dir (self Sample.spaced_segment)) "v.xml"
          = Some Sample.spaced_document) as H3 by (vm_compute; reflexivity).
  assert (utf8_valid Sample.spaced_document = true) as H4 by (vm_compute; reflexivity).
  assert (utf8_valid "alice" = true) as H5 by reflexivity.
  assert (utf8_valid Example.two_line_content = true) as H6 by (vm_compute; reflexivity).
  refine (conj H1 (conj H2 (conj H3 (conj H4 (conj H5 (conj H6 _)))))).
  exact (@write_danmu_closing_tag_last Example.platform Sample.spaced_segment "alice"
           Example.two_line_content (100314 # 100) "v.xml" 1000%Q Sample.spaced_document
           H1 H2 H3 H4 H5 H6).
Defined.

(** A comment in Chinese, appended to the same file: its line goes in
    front of the closing tag and the no-break space stays where it was. *)
Lemma write_danmu_keeps_text_witness :
  active_file (self Sample.spaced_segment) = Some "v.xml" /\
  offset_basis (self Sample.spaced_segment) = Some 1000%Q /\
  files Sample.spaced_segment !! path_join (output_dir (self Sample.spaced_segment)) "v.xml"
    = Some Sample.spaced_document /\
  utf8_valid Sample.spaced_document = true /\
  utf8_valid "alice" = true /\
  utf8_valid Sample.greeting = true /\
  ((forall init l,
      readlines Sample.spaced_document = init ++ [l] -> strip l = "</i>" ->
      universal_newlines Sample.spaced_document = writelines init +:+ l /\
      files (snd (@write_danmu Example.platform "alice" Sample.greeting (100314 # 100)
                    Sample.spaced_segment)) =
        <[path_join (output_dir (self Sample.spaced_segment)) "v.xml" :=
            writelines init +:+
            danmu_line ((100314 # 100) - 1000) (100314 # 100) "alice" Sample.greeting +:+ l]>
          (files Sample.spaced_segment)) /\
   ((forall init l, readlines Sample.spaced_document = init ++ [l] -> strip l <> "</i>") ->
    files (snd (@write_danmu Example.platform "alice" Sample.greeting (100314 # 100)
                  Sample.spaced_segment)) =
      <[path_join (output_dir (self Sample.spaced_segment)) "v.xml" :=
          universal_newlines Sample.spaced_document +:+
          danmu_line ((100314 # 100) - 1000) (100314 # 100) "alice" Sample.greeting +:+
          close_tag_line]>
        (files Sample.spaced_segment))) /\
  files (snd (@write_danmu Example.platform "alice" Sample.greeting (100314 # 100)
                Sample.spaced_segment)) !! "out/v.xml" =
    Some (writelines (header_lines ++
                      [Example.line_text "3.14" "1003140" "alice" Sample.greeting;
                       "</i>" +:+ utf8 [194; 160] +:+ String LF ""])).
Proof.
  assert (active_file (self Sample.spaced_segment) = Some "v.xml") as H1 by reflexivity.
  assert (offset_basis (self Sample.spaced_segment) = Some 1000%Q) as H2 by reflexivity.
  assert (files Sample.spaced_segment
            !! path_join (output_dir (self Sample.spaced_segment)) "v.xml"
          = Some Sample.spaced_document) as H3 by (vm_compute; reflexivity).
  assert (utf8_valid Sample.spaced_document = true) as H4 by (vm_compute; reflexivity).
  assert (utf8_valid "alice" = true) as H5 by reflexivity.
  assert (utf8_valid Sample.greeting = true) as H6 by (vm_compute; reflexivity).
  refine (conj H1 (conj H2 (conj H3 (conj H4 (conj H5 (conj H6 (conj _ _))))))).
  - exact (@write_danmu_keeps_text Example.platform Sample.spaced_segment "alice"
             Sample.greeting (100314 # 100) "v.xml" 1000%Q Sample.spaced_document
             H1 H2 H3 H4 H5 H6).
  - vm_compute. reflexivity.
Defined.

(** The first comment of a new recorder for a video whose file of an
    earlier recording, with one comment, is still in the directory. *)
Lemma first_comment_replaces_existing_file_witness :
  active_file (self Sample.restarted) = None /\
  files Sample.restarted !! "out/v.xml" =
    Some (writelines (header_lines ++
                      [Example.line_text "3.14" "1003140" "alice" "hi"; close_tag_line])) /\
  (exists w',
     @write_danmu Example.platform "bob" "yo" 2000%Q Sample.restarted = (Ok tt, w') /\
     active_file (self w') = Some (@stem Example.platform "v.mp4" +:+ ".xml") /\
     offset_basis (self w') = Some (clock Sample.restarted) /\
     segment_index (self w') = Some (0 + 1) /\
     danmu_amount (self w') = danmu_amount (self Sample.restarted) + 1 /\
     files w' =
       <[path_join (output_dir (self Sample.restarted))
           (@stem Example.platform "v.mp4" +:+ ".xml") :=
           writelines (header_lines ++
                       [danmu_line (2000 - clock Sample.restarted) 2000 "bob" "yo";
                        close_tag_line])]>
         (files Sample.restarted) /\
     segment_document [danmu_line (2000 - clock Sample.restarted) 2000 "bob" "yo"]
       (writelines (header_lines ++
                    [danmu_line (2000 - clock Sample.restarted) 2000 "bob" "yo";
                     close_tag_line])) /\
     d_line_count (writelines (header_lines ++
                     [danmu_line (2000 - clock Sample.restarted) 2000 "bob" "yo";
                      close_tag_line])) = 1%nat /\
     dom (files w') = dom (files Sample.restarted)) /\
  files (snd (@write_danmu Example.platform "bob" "yo" 2000%Q Sample.restarted))
    !! "out/v.xml" =
    Some (writelines (header_lines ++
                      [Example.line_text "0.0" "2000000" "bob" "yo"; close_tag_line])).
Proof.
  assert (active_file (self Sample.restarted) = None) as H1 by reflexivity.
  assert (files Sample.restarted !! "out/v.xml" =
            Some (writelines (header_lines ++
                    [Example.line_text "3.14" "1003140" "alice" "hi"; close_tag_line])))
    as H2 by (vm_compute; reflexivity).
  refine (conj H1 (conj H2 (conj _ _))).
  - refine (@first_comment_replaces_existing_file Example.platform Sample.restarted
              "bob" "yo" 2000%Q 0 "v.mp4" _ H1 eq_refl eq_refl _ _ eq_refl eq_refl H2).
    + discriminate.
    + discriminate.
  - vm_compute. reflexivity.
Defined.

(** A rotation of the example segment after its first comment, the video
    file name unchanged. *)
Lemma rotation_without_new_name_erases_witness :
  files Sample.commented_segment !! "out/v.xml" =
    Some (writelines (header_lines ++
                      [Example.line_text "3.14" "1003140" "alice" "hi"; close_tag_line])) /\
  exists w',
    @start_new_segment Example.platform Sample.commented_segment = (Ok tt, w') /\
    current_segment_file (self w') = Some (@stem Example.platform "v.mp4" +:+ ".xml") /\
    segment_index (self w') = Some (0 + 1) /\
    files w' =
      <[path_join (output_dir (self Sample.commented_segment))
          (@stem Example.platform "v.mp4" +:+ ".xml") := xml_template]>
        (files Sample.commented_segment) /\
    d_line_count xml_template = 0%nat /\
    dom (files w') = dom (files Sample.commented_segment).
Proof.
  assert (files Sample.commented_segment !! "out/v.xml" =
    Some (writelines (header_lines ++
                      [Example.line_text "3.14" "1003140" "alice" "hi"; close_tag_line])))
    as H1 by (vm_compute; reflexivity).
  refine (conj H1 _).
  refine (@rotation_without_new_name_erases Example.platform Sample.commented_segment
            0 "v.mp4" _ eq_refl eq_refl _ H1).
  discriminate.
Defined.

(** The close that follows [stop]. *)
Lemma _on_close_after_stop_witness :
  stop_signal (self Sample.stopped) = true /\
  exists tr,
    _on_close Example.sock Sample.stopped =
      (Ok tt, {| self := self Sample.stopped; files := files Sample.stopped;
                 clock := clock Sample.stopped; trace := trace Sample.stopped ++ tr |})
    /\ forallb is_log tr = true.
Proof.
  assert (stop_signal (self Sample.stopped) = true) as H1 by reflexivity.
  refine (conj H1 _).
  exact (_on_close_after_stop Sample.stopped Example.sock H1).
Defined.

(** Twenty-five seconds of heartbeat on the example socket. *)
Lemma heartbeat_schedule_witness :
  stop_signal (self (Example.fresh None)) = false /\
  keep_running Example.sock = true /\
  exists w' k,
    @_heartbeat Example.codec Example.platform 25 Example.sock (Example.fresh None)
      = (Ok Running, w') /\
    self w' = self (Example.fresh None) /\
    files w' = files (Example.fresh None) /\
    (clock w' == clock (Example.fresh None) + inject_Z (Z.of_nat 25))%Q /\
    slept (trace w') = slept (trace (Example.fresh None)) + Z.of_nat 25 /\
    sent (trace w') =
      sent (trace (Example.fresh None)) ++
      replicate k (@create_heartbeat_frame Example.codec) /\
    Z.of_nat k <= (Z.of_nat 25 + 8) / 10 /\
    ((forall data, @ws_send Example.platform Example.sock data = Ok tt) ->
     Z.of_nat k = (Z.of_nat 25 + 8) / 10).
Proof.
  assert (stop_signal (self (Example.fresh None)) = false) as H1 by reflexivity.
  assert (keep_running Example.sock = true) as H2 by reflexivity.
  refine (conj H1 (conj H2 _)).
  exact (@heartbeat_schedule Example.codec Example.platform (Example.fresh None)
           Example.sock 25 H1 H2).
Defined.

(** Five seconds of the segment checker on the example segment, which is
    one second old, with segments of 1800 seconds. *)
Lemma segment_checker_waits_witness :
  stop_signal (self Example.open_segment) = false /\
  segment_age Example.open_segment = Some (1001 - 1000)%Q /\
  exists w',
    @segment_checker Example.platform 5 1800 Example.open_segment = (Ok Running, w') /\
    self w' = self Example.open_segment /\
    files w' = files Example.open_segment /\
    (clock w' == clock Example.open_segment + inject_Z (Z.of_nat 5))%Q /\
    trace w' = trace Example.open_segment ++ replicate 5 (Sleep 1).
Proof.
  assert (stop_signal (self Example.open_segment) = false) as H1 by reflexivity.
  assert (segment_age Example.open_segment = Some (1001 - 1000)%Q) as H2 by reflexivity.
  refine (conj H1 (conj H2 _)).
  refine (@segment_checker_waits Example.platform Example.open_segment 5 1800 H1 _).
  intros age Hage. rewrite H2 in Hage. injection Hage as <-. reflexivity.
Defined.

(** The check at which the example segment is two seconds old, with
    segments of two seconds. *)
Lemma segment_checker_rotates_when_due_witness :
  stop_signal (self Example.open_segment) = false /\
  segment_age Example.open_segment = Some (1001 - 1000)%Q /\
  (inject_Z 2 <= (1001 - 1000) + 1)%Q /\
  exists w',
    @segment_checker Example.platform 1 2 Example.open_segment = (Ok Running, w') /\
    files w' =
      <[path_join (output_dir (self Example.open_segment))
          (@stem Example.platform "v.mp4" +:+ ".xml") := xml_template]>
        (files Example.open_segment) /\
    current_segment_file (self w') = Some (@stem Example.platform "v.mp4" +:+ ".xml") /\
    segment_start_time (self w') = Some (clock Example.open_segment + inject_Z 1)%Q /\
    segment_index (self w') = Some (0 + 1) /\
    clock w' = (clock Example.open_segment + inject_Z 1)%Q /\
    effects (trace w') = effects (trace Example.open_segment) ++ [Sleep 1].
Proof.
  assert (stop_signal (self Example.open_segment) = false) as H1 by reflexivity.
  assert (segment_age Example.open_segment = Some (1001 - 1000)%Q) as H2 by reflexivity.
  assert (inject_Z 2 <= (1001 - 1000) + 1)%Q as H3 by (vm_compute; discriminate).
  refine (conj H1 (conj H2 (conj H3 _))).
  refine (@segment_checker_rotates_when_due Example.platform Example.open_segment 2
            (1001 - 1000)%Q 0 "v.mp4" H1 H2 H3 eq_refl eq_refl _).
  discriminate.
Defined.

(** The file of the example segment, through a rotation, a comment and a
    stop. *)
Lemma files_are_never_removed_witness :
  is_Some (files Example.open_segment !! "out/v.xml") /\
  is_Some (files (@run_activities Example.codec Example.platform
                    [Method CallStartNewSegment;
                     Method (CallWriteDanmu "alice" "hi" 1002%Q);
                     SegmentCheckerRounds 3 2;
                     Method CallStop]
                    Example.open_segment) !! "out/v.xml").
Proof.
  assert (is_Some (files Example.open_segment !! "out/v.xml")) as H1
    by (exists xml_template; vm_compute; reflexivity).
  refine (conj H1 _).
  exact (@files_are_never_removed Example.codec Example.platform _
           Example.open_segment "out/v.xml" H1).
Defined.


(** The same frame on a closed socket. *)
Lemma demo_failed_ack_drops_frame_witness :
  @envelope Example.codec "hi" = Ok (Sample.frame, Sample.batch) /\
  needAck Sample.batch = true /\
  Res.bind (@Demo.ack_frame Example.codec (logid Sample.frame) Sample.batch)
    (@ws_send Example.platform Sample.closed_sock) = Raise WebSocketException /\
  @Demo._on_message Example.codec Example.platform Sample.closed_sock "hi"
      Sample.demo_world =
    (Ok tt, {| self := self Sample.demo_world; files := files Sample.demo_world;
               clock := clock Sample.demo_world;
               trace := trace Sample.demo_world ++
                        [Log INFO "handling danmu message failed"] |}).
Proof.
  assert (@envelope Example.codec "hi" = Ok (Sample.frame, Sample.batch)) as H1
    by reflexivity.
  assert (needAck Sample.batch = true) as H2 by reflexivity.
  assert (Res.bind (@Demo.ack_frame Example.codec (logid Sample.frame) Sample.batch)
            (@ws_send Example.platform Sample.closed_sock) = Raise WebSocketException)
    as H3 by reflexivity.
  refine (conj H1 (conj H2 (conj H3 _))).
  exact (@demo_failed_ack_drops_frame Example.codec Example.platform
           Sample.demo_world Sample.closed_sock "hi" Sample.frame Sample.batch
           WebSocketException H1 H2 H3).
Defined.

(** A reconnect of the script at instant 1010, with one comment in the
    file. *)
Lemma demo_reconnect_loses_comments_witness :
  files Sample.demo_world !! Sample.demo_path = Some Sample.demo_text /\
  d_line_count Sample.demo_text = 1%nat /\
  exists w1,
    Demo._on_close
        (@Demo.start Example.platform Sample.session (Some Example.live_room) true)
        Example.sock Sample.demo_world =
      match @Demo.run_forever Sample.session
              {| ws_url := "wss://example/webcast/im/push/v2/"; keep_running := true |} w1
      with
      | (Ok _, w2) => (Ok tt, w2)
      | (Raise _, w2) =>
          (Ok tt, {| self := self w2; files := files w2; clock := clock w2;
                     trace := trace w2 ++ [Log INFO "connection failed"] |})
      end /\
    files w1 !! (Demo.output_path +:+ "/" +:+ @Demo.strftime Sample.session 1000 +:+ ".xml")
      = Some Demo.header_text /\
    d_line_count Demo.header_text = 0%nat /\
    filename (self w1)
      = Some (Demo.output_path +:+ "/" +:+ @Demo.strftime Sample.session 1000 +:+ ".xml") /\
    retry (self w1) = retry (self Sample.demo_world) + 1 /\
    ws (self w1)
      = Some {| ws_url := "wss://example/webcast/im/push/v2/"; keep_running := true |}.
Proof.
  assert (files Sample.demo_world !! Sample.demo_path = Some Sample.demo_text) as H1
    by (vm_compute; reflexivity).
  assert (d_line_count Sample.demo_text = 1%nat) as H2 by (vm_compute; reflexivity).
  refine (conj H1 (conj H2 _)).
  refine (@demo_reconnect_loses_comments Example.platform Sample.session
            Sample.demo_world Example.sock Example.live_room true
            "wss://example/webcast/im/push/v2/" (<["user-agent" := "Mozilla/5.0"]> ∅)
            1000 Sample.demo_text
            eq_refl _ _ eq_refl eq_refl eq_refl eq_refl H1).
  - reflexivity.
  - vm_compute. reflexivity.
Defined.
